(** * personal-backend: the credential and token lifecycle of the auth usecase

    A shallow embedding of [auth/usecase/auth_usecase.go] (package
    [usecase]) and of the MySQL account repository it is wired to, followed
    by the two earlier versions of the usecase and the login handler of
    package [delivery].

    Go values are embedded as follows:
    - [string] is [string]; [[]byte] is [list byte];
    - [interface{}] values found in [jwt.MapClaims] are [Value], a pointer
      that may be [nil] is an [option], a Go [error] is [option error];
    - a function returning [(T, error)] returns a pair in the monad [M],
      which threads the state of the collaborators (tables, session store,
      mailbox, clock, entropy) and propagates Go panics;
    - [time.Time] is a number of nanoseconds since the Unix epoch.

    The third-party packages the usecase calls ([jwt-go], [bcrypt], [uuid])
    are embedded down to their cryptographic cores, which are operations of
    the classes [JwtPrims] and [BcryptPrims]. *)

From Stdlib Require Import ZArith Lia String Ascii List.
From Stdlib.Strings Require Import Byte.
From stdpp Require Import base gmap strings list countable pretty.

#[local] Open Scope string_scope.
#[local] Open Scope Z_scope.

#[global] Instance byte_eq_decision : EqDecision byte := byte_eq_dec.

(** ** Go values *)

Module Go.

(** The dynamic values an [interface{}] holds in a claim set. A [float64]
    is kept when its value is a whole number, which is what the Unix
    timestamps of this program are; [VFloat64 z] is the float64 of value
    [z]. *)
Inductive Value :=
| VNil
| VBool (b : bool)
| VString (s : string)
| VInt64 (z : Z)
| VFloat64 (z : Z).

(** A JSON scalar, as it travels in the payload segment of a token. The
    numbers are the whole ones; a number written with a fraction or an
    exponent is outside the embedding. *)
Inductive JSON :=
| JNull
| JBool (b : bool)
| JNum (z : Z)
| JStr (s : string).

#[global] Instance Value_eq_dec : EqDecision Value.
Proof. solve_decision. Defined.

#[global] Instance JSON_eq_dec : EqDecision JSON.
Proof. solve_decision. Defined.

(** [json.Marshal] of a claim value. *)
Definition marshal (v : Value) : JSON :=
  match v with
  | VNil => JNull
  | VBool b => JBool b
  | VString s => JStr s
  | VInt64 z => JNum z
  | VFloat64 z => JNum z
  end.

(** [json.Unmarshal] into an [interface{}]: every number is a [float64].
    The number is read back as it is written, which is what encoding/json
    does for the whole numbers a float64 holds exactly, those of
    [float64_exact]; a larger one would be rounded to a neighbour. Integers
    are not bounded in this embedding, so that a conversion [int64(f)] of
    such a float64 is the identity, as it is in Go between -2^63 and
    2^63 - 1. The timestamps the program itself writes are exact for every
    clock reading a [time.Time] holds; what is said of a number that a token
    brings from outside is said under [float64_exact]. *)
Definition unmarshal (j : JSON) : Value :=
  match j with
  | JNull => VNil
  | JBool b => VBool b
  | JNum z => VFloat64 z
  | JStr s => VString s
  end.

(** The whole numbers every float64 conversion of the program keeps: from
    -2^53 to 2^53. *)
Definition float64_exact (z : Z) : Prop := - 2 ^ 53 <= z <= 2 ^ 53.

(** A payload all of whose numbers are kept. *)
Definition exact_numbers (payload : gmap string JSON) : Prop :=
  forall (k : string) (z : Z), payload !! k = Some (JNum z) -> float64_exact z.

(** What running a Go function body ends in: a return, or a panic that
    unwinds the usecase call. *)
Inductive Outcome (A : Type) :=
| Ret (a : A)
| Panic (msg : string).

Arguments Ret {A} a.
Arguments Panic {A} msg.

End Go.

Export Go.

(** ** Errors: package [cerror] and the errors of the libraries *)

Module cerror.

#[local] Set Warnings "-register-all".

(** Modelled from the spec: package [global] is not among the sources. Its
    constants are the user-facing messages of section 7, one per constant
    the usecase names; their texts play no role. [FriendlyLiteral] is a
    message given in place as a string literal. *)
Inductive Friendly :=
| FRIENDLY_MESSAGE
| FRIENDLY_INVALID_USNME_PASSWORD
| FRIENDLY_EMAIL_NOT_VERIFIED
| FRIENDLY_INVALID_TOKEN
| FRIENDLY_TOKEN_EXPIRED
| FRIENDLY_INVALID_EMAIL
| FRIENDLY_DUPLICATE_EMAIL
| FriendlyLiteral (s : string).

(** Modelled from the spec: package [cerror] is not among the sources. The
    [Type] field of [cerror.Error] is the machine-checkable kind of
    section 6, with the three constants the usecase assigns; [TYPE_UNSET] is
    the zero value a fresh error carries. *)
Inductive ErrType :=
| TYPE_UNSET
| TYPE_UNAUTHORIZED
| TYPE_NOT_FOUND
| TYPE_EXPIRED.

(** Go [error] values met by the usecase: those of the standard library
    and of the drivers, the [ValidationError] of jwt-go with its message
    and its [Errors] bits, and [cerror.Error] with its tag, the error it
    wraps (nil or not), its friendly message and its type. *)
Inductive error :=
| ErrorString (msg : string)
| ErrNoRows
| MySQLError (number : Z)
| ErrBadConn
| ErrUnexpectedEOF
| ErrMismatchedHashAndPassword
| ErrHashMalformed
| InvalidCostError (cost : Z)
| ErrRedis
| RedisNil
| ErrSMTP
| ValidationError (inner : string) (errors : Z)
| CError (tag : string) (err : option error) (friendly : Friendly) (type : ErrType).

(** Modelled from the spec: [cerror.NewAndPrintWithTag(tag, err, friendly)]
    is not among the sources. It builds the error that carries the tag, the
    internal detail and the friendly message (section 7); the log line it
    prints is left out. *)
Definition NewAndPrintWithTag (tag : string) (err : option error) (friendly : Friendly) : error :=
  CError tag err friendly TYPE_UNSET.

(** [cerr.Type = t]. *)
Definition with_type (t : ErrType) (e : error) : error :=
  match e with
  | CError tag err friendly _ => CError tag err friendly t
  | _ => e
  end.

Definition friendly_of (e : error) : option Friendly :=
  match e with
  | CError _ _ f _ => Some f
  | _ => None
  end.

Definition type_of (e : error) : ErrType :=
  match e with
  | CError _ _ _ t => t
  | _ => TYPE_UNSET
  end.

End cerror.

Export cerror.

(** ** Package [domain]

    The records as the usecase and the repository use them: [Account] with
    its [PasswordToken], the filters with every field [GetAccount] and
    [GetProfile] read. The [Account] a [Profile] embeds is never read and
    is left out. *)

Module domain.

Record Account := mkAccount {
  AccountID : string;
  Password : string;
  Email : string;
  Salt : list byte;
  EmailToken : string;
  IsVerified : bool;
  PasswordToken : string
}.

Record AccountFilter := mkAccountFilter {
  fEmail : string;
  fAccountID : string
}.

Record Profile := mkProfile {
  ProfileID : string;
  FullName : string;
  pAccountID : string
}.

Record ProfileFilter := mkProfileFilter {
  pfAccountID : string
}.

(** The zero value [var a domain.Account]. *)
Definition zeroAccount : Account := mkAccount "" "" "" [] "" false "".

Definition setSalt (s : list byte) (a : Account) : Account :=
  mkAccount (AccountID a) (Password a) (Email a) s (EmailToken a) (IsVerified a) (PasswordToken a).

Definition setPassword (p : string) (a : Account) : Account :=
  mkAccount (AccountID a) p (Email a) (Salt a) (EmailToken a) (IsVerified a) (PasswordToken a).

Definition setEmailToken (t : string) (a : Account) : Account :=
  mkAccount (AccountID a) (Password a) (Email a) (Salt a) t (IsVerified a) (PasswordToken a).

Definition setAccountID (i : string) (a : Account) : Account :=
  mkAccount i (Password a) (Email a) (Salt a) (EmailToken a) (IsVerified a) (PasswordToken a).

Definition setIsVerified (b : bool) (a : Account) : Account :=
  mkAccount (AccountID a) (Password a) (Email a) (Salt a) (EmailToken a) b (PasswordToken a).

Definition setPasswordToken (t : string) (a : Account) : Account :=
  mkAccount (AccountID a) (Password a) (Email a) (Salt a) (EmailToken a) (IsVerified a) t.

Definition setProfileAccountID (i : string) (p : Profile) : Profile :=
  mkProfile (ProfileID p) (FullName p) i.

End domain.

Export domain.

(** ** The collaborators' state *)

Module world.

Record Mail := mkMail {
  mTo : list string;
  mSubject : string;
  mBody : string
}.

(** Every call that leaves the process: a statement sent to MySQL, a
    command sent to Redis, a message handed to the SMTP server. *)
Inductive Call :=
| DbGetAccount (f : AccountFilter)
| DbInsertAccount (a : Account)
| DbUpdateIsVerified (id : string) (v : bool)
| DbUpdateSaltAndPassword (a : Account)
| DbUpdatePasswordToken (a : Account)
| DbInsertProfile (p : Profile)
| DbGetProfile (f : ProfileFilter)
| RedisGet (key : string)
| RedisSet (key value : string) (exp : Z)
| RedisDelete (key : string)
| SendMailTo (m : Mail).

(** How a call goes wrong, if it does: a transaction can fail when it is
    begun, when its statement is prepared or executed, or at commit. A call
    with a single round trip fails on anything but [Healthy]. *)
Inductive Fault :=
| Healthy
| FailBegin
| FailPrepare
| FailExec
| FailCommit.

(** What the usecase acts on: the rows of tables [account] and [profile]
    in insertion order; the session store, each entry with the Unix second
    it lives until; the mails delivered; the clock, in nanoseconds, which
    stands still while an operation runs; the bytes [crypto/rand] will
    deliver; for the n-th call made since the world began, how it goes; and
    the calls made so far. *)
Record World := mkWorld {
  db_account : list Account;
  db_profile : list Profile;
  redis : gmap string (string * Z);
  outbox : list Mail;
  clock : Z;
  entropy : list byte;
  oracle : nat -> Fault;
  trace : list Call
}.

Definition set_db_account (t : list Account) (w : World) : World :=
  mkWorld t (db_profile w) (redis w) (outbox w) (clock w) (entropy w) (oracle w) (trace w).

Definition set_db_profile (t : list Profile) (w : World) : World :=
  mkWorld (db_account w) t (redis w) (outbox w) (clock w) (entropy w) (oracle w) (trace w).

Definition set_redis (r : gmap string (string * Z)) (w : World) : World :=
  mkWorld (db_account w) (db_profile w) r (outbox w) (clock w) (entropy w) (oracle w) (trace w).

Definition set_outbox (o : list Mail) (w : World) : World :=
  mkWorld (db_account w) (db_profile w) (redis w) o (clock w) (entropy w) (oracle w) (trace w).

Definition set_clock (c : Z) (w : World) : World :=
  mkWorld (db_account w) (db_profile w) (redis w) (outbox w) c (entropy w) (oracle w) (trace w).

Definition set_entropy (e : list byte) (w : World) : World :=
  mkWorld (db_account w) (db_profile w) (redis w) (outbox w) (clock w) e (oracle w) (trace w).

Definition set_trace (t : list Call) (w : World) : World :=
  mkWorld (db_account w) (db_profile w) (redis w) (outbox w) (clock w) (entropy w) (oracle w) t.

(** The monad of usecase code: state passing over [World], with panics. *)
Definition M (A : Type) : Type := World -> Outcome A * World.

#[global] Instance M_ret : MRet M := fun A a w => (Ret a, w).

#[global] Instance M_bind : MBind M := fun A B f m w =>
  match m w with
  | (Ret a, w') => f a w'
  | (Panic msg, w') => (Panic msg, w')
  end.

Definition panic {A : Type} (msg : string) : M A := fun w => (Panic msg, w).

Definition gets {A : Type} (f : World -> A) : M A := fun w => (Ret (f w), w).

Definition modify (f : World -> World) : M unit := fun w => (Ret tt, f w).

(** A call to a collaborator: it is logged, and the oracle says how it
    goes. *)
Definition call (c : Call) : M Fault := fun w =>
  (Ret (oracle w (length (trace w))), set_trace (trace w ++ [c]) w).

Definition failed (f : Fault) : bool :=
  match f with Healthy => false | _ => true end.

(** [*p] for a pointer that may be nil. *)
Definition deref {A : Type} (p : option A) : M A :=
  match p with
  | Some a => mret a
  | None => panic "invalid memory address or nil pointer dereference"
  end.

(** The type assertions [v.(string)], [v.(float64)] and [v.(int64)] on a
    map element; a missing key reads as the nil interface. *)
Definition assert_string (v : option Value) : M string :=
  match v with
  | Some (VString s) => mret s
  | _ => panic "interface conversion: interface {} is not string"
  end.

Definition assert_float64 (v : option Value) : M Z :=
  match v with
  | Some (VFloat64 z) => mret z
  | _ => panic "interface conversion: interface {} is not float64"
  end.

Definition assert_int64 (v : option Value) : M Z :=
  match v with
  | Some (VInt64 z) => mret z
  | _ => panic "interface conversion: interface {} is not int64"
  end.

(** *** Time *)

Definition Second : Z := 1000000000.
Definition Minute : Z := 60 * Second.
Definition Hour : Z := 60 * Minute.

(** [time.Now()]. *)
Definition Now : M Z := gets clock.

(** [t.Unix()] and [time.Unix(sec, 0)]. *)
Definition Unix (t : Z) : Z := t / Second.
Definition ofUnix (sec : Z) : Z := sec * Second.

(** [t.After(u)]. *)
Definition After (t u : Z) : bool := u <? t.

(** *** Entropy: [io.ReadFull(rand.Reader, buf)] for a buffer of [n] bytes *)

Definition ReadFull (n : nat) : M (list byte * option error) := fun w =>
  if decide (n <= length (entropy w))%nat
  then (Ret (take n (entropy w), None), set_entropy (drop n (entropy w)) w)
  else (Ret ([], Some ErrUnexpectedEOF), set_entropy [] w).

End world.

Export world.

(** ** Package [github.com/google/uuid] *)

Section uuid.

Definition byteZ (b : byte) : Z := Z.of_N (Byte.to_N b).

Definition hexdigit (n : Z) : ascii :=
  match String.get (Z.to_nat n) "0123456789abcdef" with
  | Some c => c
  | None => "0"%char
  end.

Definition hex_byte (b : Z) : string :=
  String (hexdigit (Z.shiftr b 4)) (String (hexdigit (Z.land b 15)) "").

Fixpoint hex_bytes (l : list Z) : string :=
  match l with
  | [] => ""
  | b :: r => hex_byte b +:+ hex_bytes r
  end.

(** [uuid.NewRandom]: sixteen random bytes, stamped version 4, variant 10. *)
Definition stamp_v4 (raw : list byte) : list Z :=
  alter (fun b => Z.lor (Z.land b 63) 128) 8%nat
    (alter (fun b => Z.lor (Z.land b 15) 64) 6%nat (byteZ <$> raw)).

(** [UUID.String]: xxxxxxxx-xxxx-xxxx-xxxx-xxxxxxxxxxxx. *)
Definition uuid_String (u : list Z) : string :=
  hex_bytes (take 4 u) +:+ "-" +:+ hex_bytes (take 2 (drop 4 u)) +:+ "-" +:+
  hex_bytes (take 2 (drop 6 u)) +:+ "-" +:+ hex_bytes (take 2 (drop 8 u)) +:+ "-" +:+
  hex_bytes (drop 10 u).

(** [uuid.New().String()]; [uuid.New] is [Must(NewRandom())] and panics
    when the random source fails. *)
Definition uuid_New_String : M string :=
  r ← ReadFull 16;
  match r.2 with
  | Some _ => panic "uuid: random source failed"
  | None => mret (uuid_String (stamp_v4 r.1))
  end.

End uuid.

(** ** Package [golang.org/x/crypto/bcrypt] *)

(** [type hashed struct]: cost, salt and digest of a stored password. *)
Record hashed := mkHashed {
  h_cost : Z;
  h_salt : list byte;
  h_hash : list byte
}.

(** The parts of bcrypt that are taken as given: the Blowfish based
    digest, a function of the cost, the 16 byte salt and the 72 bytes of
    key material the key schedule reads; and the "$2a$cost$salt+digest"
    text form of a [hashed] with its reader [newFromHash]. *)
Class BcryptPrims := {
  eksblowfish : Z -> list byte -> list byte -> list byte;
  hash_encode : hashed -> list byte;
  hash_decode : list byte -> option hashed
}.

Definition MinCost : Z := 4.
Definition MaxCost : Z := 31.
Definition DefaultCost : Z := 10.
Definition maxSaltSize : nat := 16.
Definition encodedHashSize : nat := 23.

(** The [hashed] values the package produces: a cost in range, a salt of
    [maxSaltSize] bytes, a digest of 23 bytes. *)
Definition well_formed (h : hashed) : Prop :=
  MinCost <= h_cost h <= MaxCost
  /\ length (h_salt h) = maxSaltSize
  /\ length (h_hash h) = encodedHashSize.

(** The digest has 23 bytes, and the text form of a well formed [hashed]
    can be read back. *)
Definition BcryptLawful `{BcryptPrims} : Prop :=
  (forall cost salt key, length (eksblowfish cost salt key) = encodedHashSize)
  /\ (forall h, well_formed h -> hash_decode (hash_encode h) = Some h).

Section bcrypt.
Context `{BcryptPrims}.

(** [blowfish.ExpandKey] reads eighteen 32 bit words from the key, byte
    after byte, starting again at the first byte when the key is used up. *)
Fixpoint cyclic (n : nat) (key rest : list byte) : list byte :=
  match n with
  | O => []
  | S n' =>
      match rest with
      | b :: rest' => b :: cyclic n' key rest'
      | [] =>
          match key with
          | b :: rest' => b :: cyclic n' key rest'
          | [] => []
          end
      end
  end.

(** [expensiveBlowfishSetup] appends the C string terminator to the key
    ([ckey := append(key, 0)]) and expands that. *)
Definition key_material (password : list byte) : list byte :=
  cyclic 72 (password ++ [x00]) (password ++ [x00]).

(** [bcrypt(password, cost, salt)]. *)
Definition bcrypt (password : list byte) (cost : Z) (salt : list byte) : list byte :=
  eksblowfish cost salt (key_material password).

(** [bcrypt.GenerateFromPassword(password, cost)], as in the releases of
    the package that hash a password of any length. *)
Definition GenerateFromPassword (password : list byte) (cost : Z) : M (list byte * option error) :=
  let cost := if cost <? MinCost then DefaultCost else cost in
  if MaxCost <? cost then mret ([], Some (InvalidCostError cost))
  else
    r ← ReadFull maxSaltSize;
    match r.2 with
    | Some e => mret ([], Some e)
    | None => mret (hash_encode (mkHashed cost r.1 (bcrypt password cost r.1)), None)
    end.

(** [bcrypt.CompareHashAndPassword(hashedPassword, password)]. *)
Definition CompareHashAndPassword (hashedPassword password : list byte) : option error :=
  match hash_decode hashedPassword with
  | None => Some ErrHashMalformed
  | Some p =>
      let otherP := mkHashed (h_cost p) (h_salt p) (bcrypt password (h_cost p) (h_salt p)) in
      if decide (hash_encode p = hash_encode otherP) then None
      else Some ErrMismatchedHashAndPassword
  end.

End bcrypt.

(** ** Package [github.com/dgrijalva/jwt-go] *)

(** The parts of the token format that are taken as given: the MAC of a
    signing method over header and payload under a key, the compact
    serialisation header.payload.signature of a token, and the reading of
    its three segments. The header is reduced to its [alg] entry. *)
Class JwtPrims := {
  hmac : string -> string -> gmap string JSON -> string;
  compact : string -> gmap string JSON -> string -> string;
  segments : string -> option (string * gmap string JSON * string)
}.

(** A signed token can be read back. *)
Definition JwtLawful `{JwtPrims} : Prop :=
  forall alg key payload,
    segments (compact alg payload (hmac alg key payload))
    = Some (alg, payload, hmac alg key payload).

Record Token := mkToken {
  Raw : string;
  Method : string;
  Claims : gmap string Value;
  Signature : string;
  Valid : bool
}.

Section jwt.
Context `{JwtPrims}.

Definition ValidationErrorMalformed : Z := Z.shiftl 1 0.
Definition ValidationErrorUnverifiable : Z := Z.shiftl 1 1.
Definition ValidationErrorSignatureInvalid : Z := Z.shiftl 1 2.
Definition ValidationErrorExpired : Z := Z.shiftl 1 4.
Definition ValidationErrorIssuedAt : Z := Z.shiftl 1 5.
Definition ValidationErrorNotValidYet : Z := Z.shiftl 1 7.

Definition hmac_methods : list string := ["HS256"; "HS384"; "HS512"].

Definition registered_methods : list string :=
  hmac_methods ++ ["RS256"; "RS384"; "RS512"; "ES256"; "ES384"; "ES512";
                   "PS256"; "PS384"; "PS512"; "none"].

(** [jwt.NewWithClaims(jwt.SigningMethodHS256, claims).SignedString(key)]. *)
Definition SignedString (claims : gmap string Value) (key : string) : string :=
  compact "HS256" (marshal <$> claims) (hmac "HS256" key (marshal <$> claims)).

Definition verifyExp (exp now : Z) (required : bool) : bool :=
  if exp =? 0 then negb required else now <=? exp.

Definition verifyIat (iat now : Z) (required : bool) : bool :=
  if iat =? 0 then negb required else iat <=? now.

Definition verifyNbf (nbf now : Z) (required : bool) : bool :=
  if nbf =? 0 then negb required else nbf <=? now.

(** [MapClaims.VerifyExpiresAt] and its two siblings: a claim that is a
    [float64] is compared as [int64(exp)], the whole number it holds (see
    [unmarshal]); a claim of any other type counts as absent. *)
Definition VerifyExpiresAt (m : gmap string Value) (cmp : Z) (req : bool) : bool :=
  match m !! "exp" with
  | Some (VFloat64 exp) => verifyExp exp cmp req
  | _ => negb req
  end.

Definition VerifyIssuedAt (m : gmap string Value) (cmp : Z) (req : bool) : bool :=
  match m !! "iat" with
  | Some (VFloat64 iat) => verifyIat iat cmp req
  | _ => negb req
  end.

Definition VerifyNotBefore (m : gmap string Value) (cmp : Z) (req : bool) : bool :=
  match m !! "nbf" with
  | Some (VFloat64 nbf) => verifyNbf nbf cmp req
  | _ => negb req
  end.

(** [MapClaims.Valid], at [now = TimeFunc().Unix()]: the [Errors] bits and
    the message of the last check that failed. *)
Definition MapClaims_Valid (m : gmap string Value) (now : Z) : string * Z :=
  let v1 := if VerifyExpiresAt m now false then ("", 0)
            else ("Token is expired", ValidationErrorExpired) in
  let v2 := if VerifyIssuedAt m now false then v1
            else ("Token used before issued", Z.lor v1.2 ValidationErrorIssuedAt) in
  if VerifyNotBefore m now false then v2
  else ("Token is not valid yet", Z.lor v2.2 ValidationErrorNotValidYet).

(** [SigningMethodHMAC.Verify] with a [[]byte] key; the other registered
    methods reject such a key. *)
Definition Verify (alg key : string) (payload : gmap string JSON) (sig : string) : bool :=
  if decide (alg ∈ hmac_methods) then bool_decide (sig = hmac alg key payload) else false.

(** [Parser.ParseWithClaims(tokenString, jwt.MapClaims{}, keyFunc)] of a
    parser whose field [SkipClaimsValidation] is [skipClaimsValidation],
    with a [keyFunc] that returns [key]: the token (nil when the string has
    not three segments) and the error. [claims.Valid()] is called unless
    the parser skips it; the signature is verified in either case. *)
Definition Parser_ParseWithClaims (skipClaimsValidation : bool) (tokenString key : string)
  : M (option Token * option error) :=
  match segments tokenString with
  | None => mret (None, Some (ValidationError "token is malformed" ValidationErrorMalformed))
  | Some (alg, payload, sig) =>
      let claims := unmarshal <$> payload in
      if decide (alg ∈ registered_methods) then
        v ← (if skipClaimsValidation then mret ("", 0)
             else t ← Now; mret (MapClaims_Valid claims (Unix t)));
        let v' := if Verify alg key payload sig then v
                  else ("signature is invalid", Z.lor v.2 ValidationErrorSignatureInvalid) in
        if v'.2 =? 0
        then mret (Some (mkToken tokenString alg claims sig true), None)
        else mret (Some (mkToken tokenString alg claims sig false),
                   Some (ValidationError v'.1 v'.2))
      else
        mret (Some (mkToken tokenString alg claims "" false),
              Some (ValidationError "signing method (alg) is unavailable."
                                    ValidationErrorUnverifiable))
  end.

(** [jwt.ParseWithClaims], which is [new(Parser).ParseWithClaims]: the
    parser of the package validates the claims. *)
Definition ParseWithClaims (tokenString key : string) : M (option Token * option error) :=
  Parser_ParseWithClaims false tokenString key.

End jwt.

(** ** Packages [config] and [global] *)

(** The process configuration read by the usecase ([config.Config], the
    environment variable [JWT_SECRET]) and the two mail templates of
    package [global], each a format string with one [%s]. *)
Class Globals := {
  JWT_SECRET : string;
  FEHost : string;
  EmailVerification_Subject : string;
  ResetPassword_Subject : string;
  VERIFY_EMAIL_TEMPLATE : string -> string;
  RESET_PASSWORD_TEMPLATE : string -> string
}.

(** ** Package [helper] *)

(** Modelled from the spec: [helper.JWTHelper] is not among the sources, and
    what its parser does with an expired token is told in two ways. Section
    4.2 has [parse] verify signature and structure and leave expiry to the
    caller; the comment in [RefreshToken] (part_002:136-138) has
    [ParseToken] return expiration errors, as [parseJWT] did before the
    helper took over its body. jwt-go has a switch for exactly this, the
    field [SkipClaimsValidation] of its parser: the helper is embedded with
    that switch left open, true for the parse of section 4.2 and false for a
    parse like [parseJWT], and what is proved of the usecase holds for
    both. *)
Class JWTHelper := {
  SkipClaimsValidation : bool
}.

Record JWTWrapper := mkJWTWrapper {
  AccessToken : string;
  RefreshToken_ : string;
  RefreshTokenExpTime : Z
}.

Section helper.
Context `{JwtPrims} `{Globals} `{JWTHelper}.

(** Modelled from the spec: [helper.RedisHelper] is not among the sources.
    It is the Session Store of section 4.3: [Set] records a live session
    under its id until the expiry handed in, overwriting; [Get] returns the
    value, or empty for an id that expired, never existed or was revoked;
    [Delete] revokes at once. A command that fails leaves the store as it
    is. *)
Definition Redis_Set (key value : string) (exp : Z) : M (option error) :=
  f ← call (RedisSet key value exp);
  if failed f then mret (Some ErrRedis)
  else _ ← modify (fun w => set_redis (<[key := (value, exp)]> (redis w)) w); mret None.

Definition live (now : Z) (e : string * Z) : bool := Unix now <? e.2.

Definition Redis_Get (key : string) : M (string * option error) :=
  f ← call (RedisGet key);
  if failed f then mret ("", Some ErrRedis)
  else
    w ← gets id;
    match redis w !! key with
    | Some e => if live (clock w) e then mret (e.1, None) else mret ("", Some RedisNil)
    | None => mret ("", Some RedisNil)
    end.

Definition Redis_Delete (key : string) : M (option error) :=
  f ← call (RedisDelete key);
  if failed f then mret (Some ErrRedis)
  else _ ← modify (fun w => set_redis (delete key (redis w)) w); mret None.

(** Modelled from the spec: the implementation of [helper.IEMail] is not
    among the sources. It is the mail sender of section 6,
    [send(recipients, subject, body) -> error]. *)
Definition SendMail (to : list string) (subject msg : string) : M (option error) :=
  f ← call (SendMailTo (mkMail to subject msg));
  if failed f then mret (Some ErrSMTP)
  else _ ← modify (fun w => set_outbox (outbox w ++ [mkMail to subject msg]) w); mret None.

(** Modelled from the spec: the methods of [helper.JWTHelper], the Token
    Codec of section 4.2. They took over the bodies that the usecase had
    inline before: [CreateToken] is [createResetPasswordToken] of the
    earlier auth_usecase.go, and [ParseToken] parses under [JWT_SECRET]
    with the parser of the helper, returning the token as [RefreshToken]
    and [SignOut] use it. *)
Definition CreateToken (claims : gmap string Value) : M (string * option error) :=
  mret (SignedString claims JWT_SECRET, None).

Definition ParseToken (tokenString : string) : M (option Token * option error) :=
  Parser_ParseWithClaims SkipClaimsValidation tokenString JWT_SECRET.

Definition CreateTokenPair (accessClaims refreshClaims : gmap string Value)
  : M (option JWTWrapper * option error) :=
  mret (Some (mkJWTWrapper (SignedString accessClaims JWT_SECRET)
                           (SignedString refreshClaims JWT_SECRET) 0), None).

(** [parseJWT] of the earlier auth_usecase.go: the claim map the parser
    filled, and the parser's error. *)
Definition parseJWT (tokenString : string) : M (gmap string Value * option error) :=
  r ← ParseWithClaims tokenString JWT_SECRET;
  mret (match r.1 with Some t => Claims t | None => ∅ end, r.2).

End helper.

(** ** Package [mysql]: the account repository *)

Section mysql.

(** The WHERE clause [GetAccount] builds: a condition per filter field that
    is not empty. Column values compare as Go strings do. *)
Definition selects (filter : AccountFilter) (a : Account) : bool :=
  (if decide (fEmail filter = "") then true else bool_decide (Email a = fEmail filter))
  && (if decide (fAccountID filter = "") then true
      else bool_decide (AccountID a = fAccountID filter)).

Definition GetAccount (filter : AccountFilter) : M (option Account * option error) :=
  f ← call (DbGetAccount filter);
  if failed f
  then mret (None, Some (NewAndPrintWithTag "GA02" (Some ErrBadConn) FRIENDLY_MESSAGE))
  else
    rows ← gets db_account;
    match List.find (selects filter) rows with
    | Some a => mret (Some a, None)
    | None => mret (None, Some (NewAndPrintWithTag "GA02" (Some ErrNoRows) FRIENDLY_MESSAGE))
    end.

(** The unique keys of table [account]: error 1062 is raised for a row
    whose id or email is already there. *)
Definition duplicate (a : Account) (rows : list Account) : bool :=
  existsb (fun r => bool_decide (AccountID r = AccountID a) || bool_decide (Email r = Email a)) rows.

(** The transaction of [InsertAccount]: begin, prepare, execute, commit. *)
Definition insertAccountTx (account : Account) : M (option Account * option error) :=
  f ← call (DbInsertAccount account);
  match f with
  | FailBegin => mret (None, Some (NewAndPrintWithTag "IA01" (Some ErrBadConn) FRIENDLY_MESSAGE))
  | FailPrepare => mret (None, Some (NewAndPrintWithTag "IA02" (Some ErrBadConn) FRIENDLY_MESSAGE))
  | FailExec => mret (None, Some (NewAndPrintWithTag "IA05" (Some ErrBadConn) FRIENDLY_MESSAGE))
  | FailCommit => mret (None, Some (NewAndPrintWithTag "IA04" (Some ErrBadConn) FRIENDLY_MESSAGE))
  | Healthy =>
      rows ← gets db_account;
      if duplicate account rows
      then mret (None, Some (NewAndPrintWithTag "IA03" (Some (MySQLError 1062))
                                                FRIENDLY_DUPLICATE_EMAIL))
      else _ ← modify (set_db_account (rows ++ [account])); mret (Some account, None)
  end.

(** Modelled from the spec: [util.GenerateUUID] is not among the sources. It
    yields the unique id of an Account (section 3), here a random UUID as
    everywhere else in the usecase. *)
Definition GenerateUUID : M string := uuid_New_String.

(** [InsertAccount]: an account without id is given a fresh one, then the
    row is inserted. *)
Definition InsertAccount (account : Account) : M (option Account * option error) :=
  account ← (if decide (AccountID account = "")
             then i ← GenerateUUID; mret (setAccountID i account)
             else mret account);
  insertAccountTx account.

(** An UPDATE of the rows whose [account_id] is [id], in one transaction;
    [tag] is the prefix of the error tags of the calling function. *)
Definition update_where_id (c : Call) (tag : string) (id : string) (upd : Account -> Account)
  : M (option error) :=
  f ← call c;
  match f with
  | FailBegin => mret (Some (NewAndPrintWithTag (tag +:+ "01") (Some ErrBadConn) FRIENDLY_MESSAGE))
  | FailPrepare => mret (Some (NewAndPrintWithTag (tag +:+ "02") (Some ErrBadConn) FRIENDLY_MESSAGE))
  | FailExec => mret (Some (NewAndPrintWithTag (tag +:+ "03") (Some ErrBadConn) FRIENDLY_MESSAGE))
  | FailCommit => mret (Some (NewAndPrintWithTag (tag +:+ "04") (Some ErrBadConn) FRIENDLY_MESSAGE))
  | Healthy =>
      _ ← modify (fun w => set_db_account
             ((fun r => if decide (AccountID r = id) then upd r else r) <$> db_account w) w);
      mret None
  end.

Definition UpdateIsVerified (accountId : string) (isVerified : bool) : M (option error) :=
  update_where_id (DbUpdateIsVerified accountId isVerified) "UIV" accountId
    (setIsVerified isVerified).

Definition UpdateSaltAndPassword (account : Account) : M (option error) :=
  update_where_id (DbUpdateSaltAndPassword account) "USP" (AccountID account)
    (fun r => setPassword (Password account) (setSalt (Salt account) r)).

Definition UpdatePasswordToken (account : Account) : M (option error) :=
  update_where_id (DbUpdatePasswordToken account) "UPT" (AccountID account)
    (setPasswordToken (PasswordToken account)).

(** Modelled from the spec: the profile repository is not among the
    sources. It is the profile persistence of section 6, [insert(Profile)]
    and [get(filter: accountId) -> Profile]. *)
Definition InsertProfile (profile : Profile) : M (option error) :=
  f ← call (DbInsertProfile profile);
  if failed f then mret (Some ErrBadConn)
  else _ ← modify (fun w => set_db_profile (db_profile w ++ [profile]) w); mret None.

Definition GetProfile (filter : ProfileFilter) : M (option Profile * option error) :=
  f ← call (DbGetProfile filter);
  if failed f then mret (None, Some ErrBadConn)
  else
    rows ← gets db_profile;
    match List.find (fun p => bool_decide (pAccountID p = pfAccountID filter)) rows with
    | Some p => mret (Some p, None)
    | None => mret (None, Some ErrNoRows)
    end.

End mysql.

(** ** Package [usecase]: [AuthUsecase] *)

Section usecase.
Context `{BcryptPrims} `{JwtPrims} `{Globals} `{JWTHelper}.

Definition SALT_BYTES : nat := 32.

Definition bytes (s : string) : list byte := list_byte_of_string s.

Definition generateSalt : M (list byte * option error) :=
  r ← ReadFull SALT_BYTES;
  match r.2 with
  | Some e => mret ([], Some (NewAndPrintWithTag "GSA00" (Some e) FRIENDLY_MESSAGE))
  | None => mret (r.1, None)
  end.

Definition hashPassword (password salt : list byte) : M (string * option error) :=
  let saltedPassword := (([] ++ password) ++ salt)%list in
  r ← GenerateFromPassword saltedPassword MinCost;
  match r.2 with
  | Some e => mret ("", Some (NewAndPrintWithTag "HPA00" (Some e) FRIENDLY_MESSAGE))
  | None => mret (string_of_list_byte r.1, None)
  end.

Definition comparePassword (passwordInput salt storedPassword : list byte)
  : option error * bool :=
  let saltedPassword := (([] ++ passwordInput) ++ salt)%list in
  match CompareHashAndPassword storedPassword saltedPassword with
  | Some e => (Some (NewAndPrintWithTag "CPA00" (Some e) FRIENDLY_INVALID_USNME_PASSWORD), false)
  | None => (None, true)
  end.

Definition generateEmailConfirmationUrl (account : Account) : string :=
  FEHost +:+ "/email_confirmation?token=" +:+ EmailToken account.

Definition generateResetPasswordUrl (token : string) : string :=
  FEHost +:+ "/change_password?token=" +:+ token.

Definition createTokenPair (account : Account) (profile : Profile)
  : M (option JWTWrapper * option error) :=
  accessUuid ← uuid_New_String;
  t1 ← Now;
  let accessTokenClaims : gmap string Value :=
    <["full_name" := VString (FullName profile)]>
    (<["exp" := VInt64 (Unix (t1 + 15 * Minute))]>
    (<["email" := VString (Email account)]>
    (<["access_uuid" := VString accessUuid]>
    (<["account_id" := VString (AccountID account)]>
    (<["authorized" := VBool true]> ∅))))) in
  refreshUuid ← uuid_New_String;
  t2 ← Now;
  let rtExp := t2 + 1 * Hour in
  let refreshTokenClaims : gmap string Value :=
    <["exp" := VInt64 (Unix rtExp)]>
    (<["refresh_uuid" := VString refreshUuid]>
    (<["account_id" := VString (AccountID account)]> ∅)) in
  '(token, err) ← CreateTokenPair accessTokenClaims refreshTokenClaims;
  match err with
  | Some e => mret (None, Some e)
  | None =>
      token ← deref token;
      let token := mkJWTWrapper (AccessToken token) (RefreshToken_ token) rtExp in
      k ← assert_string (accessTokenClaims !! "access_uuid");
      e ← assert_int64 (accessTokenClaims !! "exp");
      err ← Redis_Set k (AccessToken token) e;
      match err with
      | Some e => mret (None, Some e)
      | None =>
          k ← assert_string (refreshTokenClaims !! "refresh_uuid");
          e ← assert_int64 (refreshTokenClaims !! "exp");
          err ← Redis_Set k (RefreshToken_ token) e;
          match err with
          | Some e => mret (None, Some e)
          | None => mret (Some token, None)
          end
      end
  end.

Definition Login (account : Account) : M (option JWTWrapper * option error) :=
  let filter := mkAccountFilter (Email account) "" in
  '(regAccount, err) ← GetAccount filter;
  match err with
  | Some e => mret (None, Some e)
  | None =>
      reg ← deref regAccount;
      let '(err, ok) := comparePassword (bytes (Password account)) (Salt reg)
                          (bytes (Password reg)) in
      if negb ok || bool_decide (is_Some err) then
        mret (None, Some (with_type TYPE_UNAUTHORIZED
          (NewAndPrintWithTag "LGU03"
             (Some (ErrorString ("incorrect password for email :" +:+ Email account)))
             FRIENDLY_INVALID_USNME_PASSWORD)))
      else
        match regAccount with
        | Some regAccount =>
            if negb (IsVerified regAccount) then
              mret (None, Some (NewAndPrintWithTag "LGU04"
                (Some (ErrorString ("email " +:+ Email regAccount +:+ " has not been verified")))
                FRIENDLY_EMAIL_NOT_VERIFIED))
            else
              let filterProfile := mkProfileFilter (AccountID regAccount) in
              '(regProfile, err) ← GetProfile filterProfile;
              match err with
              | Some e => mret (None, Some e)
              | None =>
                  regProfile ← deref regProfile;
                  '(token, err) ← createTokenPair regAccount regProfile;
                  match err with
                  | Some e => mret (None, Some e)
                  | None => mret (token, None)
                  end
              end
        | None =>
            mret (None, Some (NewAndPrintWithTag "LGU02" (Some (ErrorString "user nil"))
                                FRIENDLY_INVALID_USNME_PASSWORD))
        end
  end.

Definition SignUp (account : Account) (profile : Profile)
  : M (option Account * option Profile * option error) :=
  '(salt, err) ← generateSalt;
  let account := setSalt salt account in
  match err with
  | Some e => mret (None, None, Some e)
  | None =>
      '(hash, err) ← hashPassword (bytes (Password account)) (Salt account);
      let account := setPassword hash account in
      match err with
      | Some e => mret (None, None, Some e)
      | None =>
          i ← uuid_New_String;
          t ← Now;
          let emailTokenClaims : gmap string Value :=
            <["exp" := VInt64 (Unix (t + 15 * Minute))]>
            (<["email" := VString (Email account)]>
            (<["account_id" := VString i]> ∅)) in
          '(emailToken, err) ← CreateToken emailTokenClaims;
          let account := setEmailToken emailToken account in
          match err with
          | Some e => mret (None, None, Some e)
          | None =>
              '(insertedAccount, err) ← InsertAccount account;
              match err with
              | Some e => mret (None, None, Some e)
              | None =>
                  r ← match insertedAccount with
                       | Some inserted =>
                           let profile := setProfileAccountID (AccountID inserted) profile in
                           err ← InsertProfile profile;
                           mret (profile, err)
                       | None => mret (profile, None)
                       end;
                  let profile := r.1 in
                  match r.2 with
                  | Some e => mret (None, None, Some e)
                  | None =>
                      inserted ← deref insertedAccount;
                      let msg := VERIFY_EMAIL_TEMPLATE (generateEmailConfirmationUrl inserted) in
                      let to := [Email inserted] in
                      let subject := EmailVerification_Subject in
                      err ← SendMail to subject msg;
                      match err with
                      | Some e => mret (None, None, Some e)
                      | None => mret (insertedAccount, Some profile, None)
                      end
                  end
              end
          end
      end
  end.

Definition RefreshToken (refreshToken : string) : M (option JWTWrapper * option error) :=
  '(token, err) ← ParseToken refreshToken;
  match err with
  | Some e => mret (None, Some e)
  | None =>
      token ← deref token;
      let mapClaims := Claims token in
      k ← assert_string (mapClaims !! "refresh_uuid");
      '(rtRedis, _) ← Redis_Get k;
      if decide (rtRedis = "") then
        mret (None, Some (with_type TYPE_EXPIRED
          (NewAndPrintWithTag "RTU00" (Some (ErrorString "token_expired"))
                              FRIENDLY_TOKEN_EXPIRED)))
      else
        accountID ← assert_string (mapClaims !! "account_id");
        let filter := mkAccountFilter "" accountID in
        '(account, err) ← GetAccount filter;
        match err with
        | Some e => mret (None, Some e)
        | None =>
            let filterProfile := mkProfileFilter accountID in
            '(profile, err) ← GetProfile filterProfile;
            match err with
            | Some e => mret (None, Some e)
            | None =>
                account ← deref account;
                profile ← deref profile;
                '(tokenPair, err) ← createTokenPair account profile;
                match err with
                | Some e => mret (None, Some e)
                | None => mret (tokenPair, None)
                end
            end
        end
  end.

Definition VerifyEmail (token : string) : M (option error) :=
  '(parsedToken, err) ← ParseToken token;
  match err with
  | Some e => mret (Some (NewAndPrintWithTag "VEA00" (Some e) FRIENDLY_INVALID_TOKEN))
  | None =>
      parsedToken ← deref parsedToken;
      let payload := Claims parsedToken in
      expire ← assert_float64 (payload !! "exp");
      email ← assert_string (payload !! "email");
      let unixInt := expire in
      let expTime := ofUnix unixInt in
      t ← Now;
      if After t expTime then
        mret (Some (NewAndPrintWithTag "VEA02" None FRIENDLY_TOKEN_EXPIRED))
      else
        let filter := mkAccountFilter email "" in
        '(account, err) ← GetAccount filter;
        match err with
        | Some e => mret (Some e)
        | None =>
            account ← deref account;
            err ← UpdateIsVerified (AccountID account) true;
            match err with
            | Some e => mret (Some e)
            | None => mret None
            end
        end
  end.

Definition ResetPassword (email : string) : M (option error) :=
  t ← Now;
  let claims : gmap string Value :=
    <["exp" := VInt64 (Unix (t + 24 * Hour))]> (<["email" := VString email]> ∅) in
  '(token, err) ← CreateToken claims;
  match err with
  | Some e => mret (Some e)
  | None =>
      let filter := mkAccountFilter email "" in
      '(account, err) ← GetAccount filter;
      match account with
      | Some account =>
          if negb (IsVerified account) then
            mret (Some (NewAndPrintWithTag "RPA01"
              (Some (ErrorString ("email " +:+ Email account +:+ " has not been verified")))
              FRIENDLY_EMAIL_NOT_VERIFIED))
          else
            let updateTokenInput :=
              setPasswordToken token (setAccountID (AccountID account) zeroAccount) in
            err ← UpdatePasswordToken updateTokenInput;
            match err with
            | Some e => mret (Some e)
            | None =>
                let url := generateResetPasswordUrl token in
                let msg := RESET_PASSWORD_TEMPLATE url in
                let to := [email] in
                let subject := ResetPassword_Subject in
                err ← SendMail to subject msg;
                match err with
                | Some e => mret (Some e)
                | None => mret None
                end
            end
      | None =>
          mret (Some (with_type TYPE_NOT_FOUND
            (NewAndPrintWithTag "RPA00"
               (Some (ErrorString ("email " +:+ email +:+ " is not found")))
               (FriendlyLiteral ""))))
      end
  end.

Definition ChangePassword (token password : string) : M (option error) :=
  '(parsedToken, err) ← ParseToken token;
  match err with
  | Some e => mret (Some (NewAndPrintWithTag "CPW00" (Some e) FRIENDLY_INVALID_TOKEN))
  | None =>
      parsedToken ← deref parsedToken;
      let payload := Claims parsedToken in
      expire ← assert_float64 (payload !! "exp");
      email ← assert_string (payload !! "email");
      let unixInt := expire in
      let expTime := ofUnix unixInt in
      t ← Now;
      if After t expTime then
        mret (Some (NewAndPrintWithTag "CPW01" None FRIENDLY_TOKEN_EXPIRED))
      else
        let filter := mkAccountFilter email "" in
        '(account, err) ← GetAccount filter;
        match err with
        | Some e =>
            mret (Some (with_type TYPE_NOT_FOUND
                          (NewAndPrintWithTag "CPW02" (Some e) FRIENDLY_INVALID_EMAIL)))
        | None =>
            account ← deref account;
            if negb (bool_decide (token = PasswordToken account)) then
              mret (Some (NewAndPrintWithTag "CPW03"
                (Some (ErrorString
                   ("token is different from token from database. email : " +:+ Email account)))
                FRIENDLY_INVALID_TOKEN))
            else
              '(salt, err) ← generateSalt;
              let account := setSalt salt account in
              match err with
              | Some e => mret (Some e)
              | None =>
                  '(hash, err) ← hashPassword (bytes password) (Salt account);
                  let account := setPassword hash account in
                  match err with
                  | Some e => mret (Some e)
                  | None =>
                      err ← UpdateSaltAndPassword account;
                      match err with
                      | Some e => mret (Some e)
                      | None =>
                          let updateTokenInput :=
                            setPasswordToken "" (setAccountID (AccountID account) zeroAccount) in
                          err ← UpdatePasswordToken updateTokenInput;
                          match err with
                          | Some e => mret (Some e)
                          | None => mret None
                          end
                      end
                  end
              end
        end
  end.

Definition SignOut (accessToken refreshToken : option Token) : M (option error) :=
  accessToken ← deref accessToken;
  let atClaims := Claims accessToken in
  atUUID ← assert_string (atClaims !! "access_uuid");
  err ← Redis_Delete atUUID;
  match err with
  | Some e => mret (Some (NewAndPrintWithTag "SOU00" (Some e) FRIENDLY_MESSAGE))
  | None =>
      refreshToken ← deref refreshToken;
      let rtClaims := Claims refreshToken in
      rtUUID ← assert_string (rtClaims !! "refresh_uuid");
      err ← Redis_Delete rtUUID;
      match err with
      | Some e => mret (Some (NewAndPrintWithTag "SOU01" (Some e) FRIENDLY_MESSAGE))
      | None => mret None
      end
  end.

End usecase.

#[global] Arguments GenerateFromPassword : simpl never.
#[global] Arguments generateSalt : simpl never.
#[global] Arguments hashPassword : simpl never.
#[global] Arguments uuid_New_String : simpl never.

(** ** Tokens and worlds the properties speak about *)

Module scenario.



(** An action that leaves the session store as it finds it. *)
Definition keeps_redis {A : Type} (m : M A) : Prop :=
  forall w : World, redis (m w).2 = redis w.

(** Drawing random bytes changes the entropy tape and nothing else. *)
Definition quiet (w w' : World) : Prop :=
  db_account w' = db_account w /\ db_profile w' = db_profile w /\ redis w' = redis w
  /\ outbox w' = outbox w /\ clock w' = clock w /\ oracle w' = oracle w
  /\ trace w' = trace w.

(** The world after [d] nanoseconds have passed. *)
Definition elapse (d : Z) (w : World) : World := set_clock (clock w + d) w.

(** The claims and the token [ResetPassword] mints for [email] when the
    clock reads [t]. *)
Definition resetClaims (email : string) (t : Z) : gmap string Value :=
  <["exp" := VInt64 (Unix (t + 24 * Hour))]> (<["email" := VString email]> ∅).

Definition resetToken `{JwtPrims} `{Globals} (email : string) (t : Z) : string :=
  SignedString (resetClaims email t) JWT_SECRET.

(** The row update of [UpdatePasswordToken] for account [id]. *)
Definition storeToken (id token : string) (r : Account) : Account :=
  if decide (AccountID r = id) then setPasswordToken token r else r.

End scenario.

Export scenario.

(** ** A reference instance of the primitives

    Tokens and stored hashes are written as the binary numeral of the
    [Countable] code of their parts, which can be read back; the MAC and
    the digest are transparent. The instance serves to run the usecase on
    concrete worlds. *)

Module Fixture.

Fixpoint pos_bits (p : positive) : list byte :=
  match p with
  | xH => []
  | xO q => x30 :: pos_bits q
  | xI q => x31 :: pos_bits q
  end.

Fixpoint bits_pos (l : list byte) : option positive :=
  match l with
  | [] => Some xH
  | x30 :: r => xO <$> bits_pos r
  | x31 :: r => xI <$> bits_pos r
  | _ => None
  end.

#[global] Instance byte_countable : Countable byte :=
  inj_countable Byte.to_N Byte.of_N Byte.of_to_N.

#[global] Instance JSON_countable : Countable JSON :=
  inj_countable'
    (fun j => match j with
              | JNull => inl (inl tt)
              | JBool b => inl (inr b)
              | JNum z => inr (inl z)
              | JStr s => inr (inr s)
              end)
    (fun x => match x with
              | inl (inl _) => JNull
              | inl (inr b) => JBool b
              | inr (inl z) => JNum z
              | inr (inr s) => JStr s
              end)
    (fun j => match j with JNull => eq_refl | JBool _ => eq_refl
                         | JNum _ => eq_refl | JStr _ => eq_refl end).

Definition xor_byte (a b : byte) : byte :=
  default x00 (Byte.of_N (N.lxor (Byte.to_N a) (Byte.to_N b))).

(** [l] folded into [acc], byte by byte. *)
Fixpoint xor_into (acc l : list byte) : list byte :=
  match acc, l with
  | a :: acc', b :: l' => xor_byte a b :: xor_into acc' l'
  | _, _ => acc
  end.

Definition fold23 (salt key : list byte) : list byte :=
  xor_into (xor_into (xor_into (xor_into (xor_into (replicate 23 x00) salt)
    (take 23 key)) (take 23 (drop 23 key))) (take 23 (drop 46 key))) (drop 69 key).

#[export] Instance bcrypt_prims : BcryptPrims := {|
  eksblowfish cost salt key := fold23 salt key;
  hash_encode h := pos_bits (encode (h_cost h, h_salt h, h_hash h));
  hash_decode l :=
    p ← bits_pos l;
    x ← decode p;
    Some (mkHashed x.1.1 x.1.2 x.2)
|}.

#[export] Instance jwt_prims : JwtPrims := {|
  hmac alg key payload :=
    alg +:+ "/" +:+ key +:+ "/" +:+ pretty (N.pos (encode payload) mod 65521)%N;
  compact alg payload sig :=
    string_of_list_byte (pos_bits (encode (alg, payload, sig)));
  segments s := p ← bits_pos (list_byte_of_string s); decode p
|}.

#[export] Instance globals : Globals := {|
  JWT_SECRET := "secret";
  FEHost := "https://fe.example";
  EmailVerification_Subject := "Verify your email";
  ResetPassword_Subject := "Reset your password";
  VERIFY_EMAIL_TEMPLATE url := "Please confirm: " +:+ url;
  RESET_PASSWORD_TEMPLATE url := "Reset here: " +:+ url
|}.

(** The helper of the reference instance parses as section 4.2 has it. *)
#[export] Instance jwt_helper : JWTHelper := {|
  SkipClaimsValidation := true
|}.

(** A collaborator landscape in which every call succeeds, one in which
    the third call fails, and one in which every call fails. *)
Definition healthy : nat -> Fault := fun _ => Healthy.


Definition broken : nat -> Fault := fun _ => FailExec.

Definition set_oracle (o : nat -> Fault) (w : World) : World :=
  mkWorld (db_account w) (db_profile w) (redis w) (outbox w) (clock w) (entropy w) o
          (trace w).

(** An entropy tape of 256 different bytes. *)
Definition tape : list byte :=
  (fun n => default x00 (Byte.of_N (N.of_nat n))) <$> seq 0 256.

(** Empty tables and an empty session store, at second 1000. *)
Definition world0 : World :=
  mkWorld [] [] ∅ [] (1000 * Second) tape healthy [].

Definition ann : Account := mkAccount "" "pw1" "a@x.com" [] "" false "".

Definition annProfile : Profile := mkProfile "" "Ann" "".

(** The first row of the account table. *)
Definition stored (w : World) : Account := default zeroAccount (head (db_account w)).

(** The token the codec makes of a string. *)
Definition parsed (t : string) (w : World) : Token :=
  match (ParseToken t w).1 with
  | Ret (Some tok, _) => tok
  | _ => mkToken "" "" ∅ "" false
  end.

(** Ann signs up, confirms her email, logs in, asks for a password reset
    and changes her password. *)
Definition signedUp : World := (SignUp ann annProfile world0).2.

Definition verified : World := (VerifyEmail (EmailToken (stored signedUp)) signedUp).2.

Definition loggedIn : World := (Login ann verified).2.

Definition pair : JWTWrapper :=
  match (Login ann verified).1 with
  | Ret (Some p, _) => p
  | _ => mkJWTWrapper "" "" 0
  end.

Definition resetAsked : World := (ResetPassword "a@x.com" loggedIn).2.

Definition changed : World :=
  (ChangePassword (PasswordToken (stored resetAsked)) "pw2" resetAsked).2.


(** Ann, verified, asks for a password reset twice: five seconds apart,
    and 400 milliseconds apart. *)
Definition reset1 : World := (ResetPassword "a@x.com" verified).2.

Definition reset2 : World := (ResetPassword "a@x.com" (elapse (5 * Second) reset1)).2.

Definition reset2quick : World :=
  (ResetPassword "a@x.com" (elapse 400000000 reset1)).2.

(** Ann is logged in and the session store is down. *)
Definition storeDown : World := set_oracle broken loggedIn.

(** Ann signs out of the session she logged in with. *)
Definition signedOut : World :=
  (SignOut (Some (parsed (AccessToken pair) loggedIn))
           (Some (parsed (RefreshToken_ pair) loggedIn)) loggedIn).2.

(** A token signed under the secret whose expiry, second 100, is long
    past at second 1000. *)
Definition expiredClaims : gmap string Value :=
  <["exp" := VInt64 100]> (<["email" := VString "a@x.com"]> ∅).

Definition expiredToken : string := SignedString expiredClaims JWT_SECRET.

(** A salt, and the password made of that salt and a zero byte. *)
Definition salt32 : list byte := replicate 32 x73.

Definition saltNul : list byte := (salt32 ++ [x00])%list.

End Fixture.

(** ** Package [usecase], as of the earlier auth_usecase.go

    The usecase before the token helper, the session store and the stored
    reset token: tokens are signed and parsed in place, [Login] returns one
    token, [ResetPassword] writes nothing and [ChangePassword] does not
    compare the token with the account. [VerifyEmail] reads as the later
    one, over [parseJWT]. *)

(** [config.Config.Host], the base of the links of that version. *)
Class EarlierGlobals := {
  Host : string
}.

Module earlier.

Section usecase.
Context `{BcryptPrims} `{JwtPrims} `{Globals} `{JWTHelper} `{EarlierGlobals}.

Definition comparePassword (passwordInput salt storedPassword : list byte)
  : option error * bool :=
  let saltedPassword := (([] ++ passwordInput) ++ salt)%list in
  match CompareHashAndPassword storedPassword saltedPassword with
  | Some e => (Some (NewAndPrintWithTag "CPA00" (Some e) (FriendlyLiteral "")), false)
  | None => (None, true)
  end.

Definition createEmailVerificationToken (account : Account) : M (string * option error) :=
  t ← Now;
  let claims : gmap string Value :=
    <["exp" := VInt64 (Unix (t + 24 * Hour))]> (<["email" := VString (Email account)]> ∅) in
  mret (SignedString claims JWT_SECRET, None).

Definition createResetPasswordToken (email : string) : M (string * option error) :=
  t ← Now;
  let claims : gmap string Value :=
    <["exp" := VInt64 (Unix (t + 24 * Hour))]> (<["email" := VString email]> ∅) in
  mret (SignedString claims JWT_SECRET, None).

Definition generateEmailConfirmationUrl (account : Account) : string :=
  Host +:+ "/api/auth/verify_email?token=" +:+ EmailToken account.

Definition generateResetPasswordUrl (token : string) : string :=
  Host +:+ "/api/auth/change_password?token=" +:+ token.

Definition Login (account : Account) : M (string * option error) :=
  let filter := mkAccountFilter (Email account) "" in
  '(regAccount, err) ← GetAccount filter;
  match err with
  | Some e => mret ("", Some e)
  | None =>
      reg ← deref regAccount;
      let '(_, ok) := comparePassword (bytes (Password account)) (Salt reg)
                        (bytes (Password reg)) in
      if negb ok then
        mret ("", Some (with_type TYPE_UNAUTHORIZED
          (NewAndPrintWithTag "LGU03"
             (Some (ErrorString ("incorrect password for email :" +:+ Email account)))
             FRIENDLY_INVALID_USNME_PASSWORD)))
      else
        match regAccount with
        | Some regAccount =>
            if negb (IsVerified regAccount) then
              mret ("", Some (NewAndPrintWithTag "LGU03"
                (Some (ErrorString "email %!s(MISSING) has not been verified"))
                FRIENDLY_EMAIL_NOT_VERIFIED))
            else
              t ← Now;
              let claims : gmap string Value :=
                <["exp" := VInt64 (Unix (t + 12 * Minute))]>
                (<["user_id" := VString (Email regAccount)]>
                (<["authorized" := VBool true]> ∅)) in
              mret (SignedString claims JWT_SECRET, None)
        | None =>
            mret ("", Some (NewAndPrintWithTag "LGU02" (Some (ErrorString "user nil"))
                              FRIENDLY_INVALID_USNME_PASSWORD))
        end
  end.

Definition SignUp (account : Account) (profile : Profile)
  : M (option Account * option Profile * option error) :=
  '(salt, err) ← generateSalt;
  let account := setSalt salt account in
  match err with
  | Some e => mret (None, None, Some e)
  | None =>
      '(hash, err) ← hashPassword (bytes (Password account)) (Salt account);
      let account := setPassword hash account in
      match err with
      | Some e => mret (None, None, Some e)
      | None =>
          '(emailToken, err) ← createEmailVerificationToken account;
          let account := setEmailToken emailToken account in
          match err with
          | Some e => mret (None, None, Some e)
          | None =>
              '(insertedAccount, err) ← InsertAccount account;
              match err with
              | Some e => mret (None, None, Some e)
              | None =>
                  r ← match insertedAccount with
                       | Some inserted =>
                           let profile := setProfileAccountID (AccountID inserted) profile in
                           err ← InsertProfile profile;
                           mret (profile, err)
                       | None => mret (profile, None)
                       end;
                  let profile := r.1 in
                  match r.2 with
                  | Some e => mret (None, None, Some e)
                  | None =>
                      inserted ← deref insertedAccount;
                      let msg := VERIFY_EMAIL_TEMPLATE (generateEmailConfirmationUrl inserted) in
                      let to := [Email inserted] in
                      let subject := EmailVerification_Subject in
                      err ← SendMail to subject msg;
                      match err with
                      | Some e => mret (None, None, Some e)
                      | None => mret (insertedAccount, Some profile, None)
                      end
                  end
              end
          end
      end
  end.

Definition VerifyEmail (token : string) : M (option error) :=
  '(payload, err) ← parseJWT token;
  match err with
  | Some e => mret (Some (NewAndPrintWithTag "VEA00" (Some e) FRIENDLY_INVALID_TOKEN))
  | None =>
      expire ← assert_float64 (payload !! "exp");
      email ← assert_string (payload !! "email");
      let unixInt := expire in
      let expTime := ofUnix unixInt in
      t ← Now;
      if After t expTime then
        mret (Some (NewAndPrintWithTag "VEA02" None FRIENDLY_TOKEN_EXPIRED))
      else
        let filter := mkAccountFilter email "" in
        '(account, err) ← GetAccount filter;
        match err with
        | Some e => mret (Some e)
        | None =>
            account ← deref account;
            err ← UpdateIsVerified (AccountID account) true;
            match err with
            | Some e => mret (Some e)
            | None => mret None
            end
        end
  end.

Definition ResetPassword (email : string) : M (option error) :=
  '(token, err) ← createResetPasswordToken email;
  match err with
  | Some e => mret (Some e)
  | None =>
      let filter := mkAccountFilter email "" in
      '(account, err) ← GetAccount filter;
      match account with
      | Some account =>
          if negb (IsVerified account) then
            mret (Some (NewAndPrintWithTag "RPA01"
              (Some (ErrorString ("email " +:+ Email account +:+ " has not been verified")))
              FRIENDLY_EMAIL_NOT_VERIFIED))
          else
            let url := generateResetPasswordUrl token in
            let msg := RESET_PASSWORD_TEMPLATE url in
            let to := [email] in
            let subject := ResetPassword_Subject in
            err ← SendMail to subject msg;
            match err with
            | Some e => mret (Some e)
            | None => mret None
            end
      | None =>
          mret (Some (with_type TYPE_NOT_FOUND
            (NewAndPrintWithTag "RPA00"
               (Some (ErrorString ("email " +:+ email +:+ " is not found")))
               (FriendlyLiteral ""))))
      end
  end.

Definition ChangePassword (token password : string) : M (option error) :=
  '(payload, err) ← parseJWT token;
  match err with
  | Some e => mret (Some (NewAndPrintWithTag "CPW00" (Some e) FRIENDLY_INVALID_TOKEN))
  | None =>
      expire ← assert_float64 (payload !! "exp");
      email ← assert_string (payload !! "email");
      let unixInt := expire in
      let expTime := ofUnix unixInt in
      t ← Now;
      if After t expTime then
        mret (Some (NewAndPrintWithTag "CPW01" None FRIENDLY_TOKEN_EXPIRED))
      else
        let filter := mkAccountFilter email "" in
        '(account, err) ← GetAccount filter;
        match err with
        | Some e =>
            mret (Some (with_type TYPE_NOT_FOUND
                          (NewAndPrintWithTag "CPW02" (Some e) FRIENDLY_INVALID_EMAIL)))
        | None =>
            account ← deref account;
            '(salt, err) ← generateSalt;
            let account := setSalt salt account in
            match err with
            | Some e => mret (Some e)
            | None =>
                '(hash, err) ← hashPassword (bytes password) (Salt account);
                let account := setPassword hash account in
                match err with
                | Some e => mret (Some e)
                | None =>
                    err ← UpdateSaltAndPassword account;
                    match err with
                    | Some e => mret (Some e)
                    | None => mret None
                    end
                end
            end
        end
  end.

End usecase.

End earlier.

(** ** Package [usecase], as first written, and the handler over it

    The first usecase has [Login] and [SignUp] only: [Login] does not look
    at the verified flag, and [SignUp] neither mints a token nor mails, and
    drops the error of the profile insert. Salt, hash and comparison read
    as in the later versions. *)

Module oldest.

Section usecase.
Context `{BcryptPrims} `{JwtPrims} `{Globals} `{JWTHelper}.

Definition Login (account : Account) : M (string * option error) :=
  let filter := mkAccountFilter (Email account) "" in
  '(regAccount, err) ← GetAccount filter;
  match err with
  | Some e => mret ("", Some e)
  | None =>
      reg ← deref regAccount;
      let '(_, ok) := earlier.comparePassword (bytes (Password account)) (Salt reg)
                        (bytes (Password reg)) in
      if negb ok then
        mret ("", Some (with_type TYPE_UNAUTHORIZED
          (NewAndPrintWithTag "LGU03"
             (Some (ErrorString ("incorrect password for email :" +:+ Email account)))
             FRIENDLY_INVALID_USNME_PASSWORD)))
      else
        match regAccount with
        | Some regAccount =>
            t ← Now;
            let claims : gmap string Value :=
              <["exp" := VInt64 (Unix (t + 12 * Minute))]>
              (<["user_id" := VString (Email regAccount)]>
              (<["authorized" := VBool true]> ∅)) in
            mret (SignedString claims JWT_SECRET, None)
        | None =>
            mret ("", Some (NewAndPrintWithTag "LGU02" (Some (ErrorString "user nil"))
                              FRIENDLY_INVALID_USNME_PASSWORD))
        end
  end.

Definition SignUp (account : Account) (profile : Profile)
  : M (option Account * option Profile * option error) :=
  '(salt, err) ← generateSalt;
  let account := setSalt salt account in
  match err with
  | Some e => mret (None, None, Some e)
  | None =>
      '(hash, err) ← hashPassword (bytes (Password account)) (Salt account);
      let account := setPassword hash account in
      match err with
      | Some e => mret (None, None, Some e)
      | None =>
          '(insertedAccount, err) ← InsertAccount account;
          match err with
          | Some e => mret (None, None, Some e)
          | None =>
              r ← match insertedAccount with
                   | Some inserted =>
                       let profile := setProfileAccountID (AccountID inserted) profile in
                       err ← InsertProfile profile;
                       mret (profile, err)
                   | None => mret (profile, None)
                   end;
              let profile := r.1 in
              mret (insertedAccount, Some profile, None)
          end
      end
  end.

End usecase.

End oldest.

(** Package [delivery]: the gin handler of [POST /api/auth/login]. The
    context is modelled by what the handler takes from it and gives to it:
    the account [ShouldBind] filled with the error it returned, and the
    status and body handed to [c.JSON]. *)

Module delivery.

(** The text of a response message: none, the result of
    [FriendlyMessageWithTag] on an error, or a constant of [global]. *)
Inductive Text :=
| NoText
| FriendlyMessageWithTag (e : error)
| Constant (f : Friendly).

Record LoginResponse := mkLoginResponse {
  Message : Text;
  Token : string
}.

Definition StatusOK : Z := 200.
Definition StatusNotFound : Z := 404.
Definition StatusInternalServerError : Z := 500.

(** [err.(cerror.Error)]. *)
Definition assert_cerror (e : error) : M error :=
  match e with
  | CError _ _ _ _ => mret e
  | _ => panic "interface conversion: error is not cerror.Error"
  end.

(** [cerr.Err]. *)
Definition Err (e : error) : option error :=
  match e with
  | CError _ err _ _ => err
  | _ => None
  end.

(** [AuthHandler.Login] over a usecase whose [Login] is [useCaseLogin]. *)
Definition Login (useCaseLogin : Account -> M (string * option error))
  (bound : Account * option error) : M (Z * LoginResponse) :=
  let '(account, err) := bound in
  match err with
  | Some e =>
      let cerr := NewAndPrintWithTag "ALG" (Some e) FRIENDLY_MESSAGE in
      mret (StatusInternalServerError, mkLoginResponse (FriendlyMessageWithTag cerr) "")
  | None =>
      '(token, err) ← useCaseLogin account;
      match err with
      | Some e =>
          ce ← assert_cerror e;
          let response := mkLoginResponse (FriendlyMessageWithTag ce) "" in
          ce' ← assert_cerror e;
          match Err ce' with
          | Some ErrNoRows =>
              mret (StatusNotFound,
                    mkLoginResponse (Constant FRIENDLY_INVALID_USNME_PASSWORD) (Token response))
          | _ => mret (StatusInternalServerError, response)
          end
      | None => mret (StatusOK, mkLoginResponse NoText token)
      end
  end.

End delivery.

(** ** More vocabulary for the properties *)

Module terms.

(** The claims [createTokenPair] signs for an account and its profile, for
    the session ids [uuid] and the clock reading [t]. *)
Definition accessClaims (account : Account) (profile : Profile) (uuid : string) (t : Z)
  : gmap string Value :=
  <["full_name" := VString (FullName profile)]>
  (<["exp" := VInt64 (Unix (t + 15 * Minute))]>
  (<["email" := VString (Email account)]>
  (<["access_uuid" := VString uuid]>
  (<["account_id" := VString (AccountID account)]>
  (<["authorized" := VBool true]> ∅))))).

Definition refreshClaims (account : Account) (uuid : string) (t : Z) : gmap string Value :=
  <["exp" := VInt64 (Unix (t + 1 * Hour))]>
  (<["refresh_uuid" := VString uuid]>
  (<["account_id" := VString (AccountID account)]> ∅)).

(** The claims of the token [SignUp] mails. *)
Definition emailClaims (uuid email : string) (t : Z) : gmap string Value :=
  <["exp" := VInt64 (Unix (t + 15 * Minute))]>
  (<["email" := VString email]>
  (<["account_id" := VString uuid]> ∅)).

(** The UUID made of the next sixteen bytes of an entropy tape. *)
Definition nextUuid (tape : list byte) : string := uuid_String (stamp_v4 (take 16 tape)).

(** The row update of [UpdateSaltAndPassword] for account [id]. *)
Definition storeSecret (id : string) (salt : list byte) (hash : string) (r : Account)
  : Account :=
  if decide (AccountID r = id) then setPassword hash (setSalt salt r) else r.


(** The row [SignUp] inserts for [account]: under id [id], with the salt
    drawn, the hash of the password and the email token minted. *)
Definition signedUpAccount (account : Account) (id : string) (salt : list byte)
  (hash emailToken : string) : Account :=
  setAccountID id (setEmailToken emailToken (setPassword hash (setSalt salt account))).

(** The row update of [UpdateIsVerified] for account [id]. *)
Definition storeVerified (id : string) (r : Account) : Account :=
  if decide (AccountID r = id) then setIsVerified true r else r.

(** No two rows of the account table share an id or an email. *)
Definition unique_keys (rows : list Account) : Prop :=
  NoDup (Email <$> rows) /\ NoDup (AccountID <$> rows).

(** Relations between the world before and the world after: unique keys
    stay unique; no session is removed; no account field is written other
    than [IsVerified], which is only set; the account table is as it was. *)
Definition unique_kept (w w' : World) : Prop :=
  unique_keys (db_account w) -> unique_keys (db_account w').

Definition sessions_kept (w w' : World) : Prop :=
  forall k : string, is_Some (redis w !! k) -> is_Some (redis w' !! k).

Definition verified_only (w w' : World) : Prop :=
  Forall2 (fun r r' => r' = r \/ r' = setIsVerified true r) (db_account w) (db_account w').

Definition accounts_kept (w w' : World) : Prop := db_account w' = db_account w.

(** An action after which the world is related to the one before. *)
Definition preserves {A : Type} (R : World -> World -> Prop) (m : M A) : Prop :=
  forall w : World, R w (m w).2.

(** What a relation needs to be followed through monadic code: it is
    reflexive and transitive, and blind to the call log and to the entropy
    tape. *)
Class Frame (R : World -> World -> Prop) := {
  frame_refl : forall w, R w w;
  frame_trans : forall a b c, R a b -> R b c -> R a c;
  frame_trace : forall w t, R w (set_trace t w);
  frame_entropy : forall w e, R w (set_entropy e w)
}.

(** The requests the usecase serves, and the world each leaves behind. *)
Inductive Request :=
| ReqSignUp (account : Account) (profile : Profile)
| ReqVerifyEmail (token : string)
| ReqLogin (account : Account)
| ReqRefreshToken (refreshToken : string)
| ReqResetPassword (email : string)
| ReqChangePassword (token password : string)
| ReqSignOut (accessToken refreshToken : option Token).

Definition serve `{BcryptPrims} `{JwtPrims} `{Globals} `{JWTHelper} (r : Request) (w : World) : World :=
  match r with
  | ReqSignUp account profile => (SignUp account profile w).2
  | ReqVerifyEmail token => (VerifyEmail token w).2
  | ReqLogin account => (Login account w).2
  | ReqRefreshToken refreshToken => (RefreshToken refreshToken w).2
  | ReqResetPassword email => (ResetPassword email w).2
  | ReqChangePassword token password => (ChangePassword token password w).2
  | ReqSignOut accessToken refreshToken => (SignOut accessToken refreshToken w).2
  end.

End terms.

Export terms.

(** ** More runs on the reference instance *)

Module cases.

Import Fixture.

#[export] Instance earlier_globals : EarlierGlobals := {|
  Host := "https://api.example.org"
|}.

(** A collaborator landscape in which the call number [n] fails and every
    other call succeeds. *)
Definition fails_at (n : nat) : nat -> Fault :=
  fun k => if (k =? n)%nat then FailExec else Healthy.

(** The profile row of Ann. *)
Definition annStoredProfile : Profile :=
  setProfileAccountID (AccountID (stored signedUp)) annProfile.

(** Ann, verified, logs in while the fourth call from now fails. *)
Definition refreshSetDown : World :=
  set_oracle (fails_at (length (trace verified) + 3)) verified.

(** The account row of Ann as the repository alone inserts it, and the
    world after. *)
Definition annRow : Account :=
  match (InsertAccount ann world0).1 with
  | Ret (Some a, _) => a
  | _ => zeroAccount
  end.

Definition annInserted : World := (InsertAccount ann world0).2.



(** The reset token on file for Ann after she asked for a reset. *)
Definition annResetToken : string := PasswordToken (stored resetAsked).



(** Ann, verified, asks for a reset while the mail server is down. *)
Definition resetMailDown : World :=
  set_oracle (fails_at (length (trace verified) + 2)) verified.

(** Ann is logged in; the second call from now fails. *)
Definition secondDeleteDown : World :=
  set_oracle (fails_at (S (length (trace loggedIn)))) loggedIn.

(** The earlier usecase: the token minted for Ann at second 1000, and the
    world after she changed her password with it. *)
Definition annEarlyToken : string := resetToken "a@x.com" (clock world0).

Definition earlyChanged : World := (earlier.ChangePassword annEarlyToken "pw2" signedUp).2.

(** Five nanoseconds after the expiry instant of that token. *)
Definition lastSecond : World := elapse (24 * Hour + 5) signedUp.

(** The first usecase: the profile insert fails. *)
Definition profileDown : World := set_oracle (fails_at 1) world0.

End cases.

(** * Properties *)

(** ** Running monadic code *)

(** Unfold the monad and the plain actions, exposing the calls that remain. *)
Ltac mrun :=
  cbv [mbind M_bind mret M_ret gets Now panic modify deref
       assert_string assert_float64 assert_int64]; cbn.

Section running.

Lemma run_bind {A B : Type} (m : M A) (f : A -> M B) (w : World) :
  (m ≫= f) w = match m w with
               | (Ret a, w') => f a w'
               | (Panic msg, w') => (Panic msg, w')
               end.
Proof. reflexivity. Qed.

Lemma run_bind_ret {A B : Type} (m : M A) (f : A -> M B) (w w' : World) (a : A) :
  m w = (Ret a, w') -> (m ≫= f) w = f a w'.
Proof. intros E. rewrite run_bind, E. reflexivity. Qed.

Lemma run_bind_panic {A B : Type} (m : M A) (f : A -> M B) (w w' : World) (msg : string) :
  m w = (Panic msg, w') -> (m ≫= f) w = (Panic msg, w').
Proof. intros E. rewrite run_bind, E. reflexivity. Qed.


Lemma run_call (c : Call) (w : World) :
  call c w = (Ret (oracle w (length (trace w))), set_trace (trace w ++ [c]) w).
Proof. reflexivity. Qed.

Lemma ReadFull_enough (n : nat) (w : World) :
  (n <= length (entropy w))%nat ->
  ReadFull n w = (Ret (take n (entropy w), None), set_entropy (drop n (entropy w)) w).
Proof. intros Hn. unfold ReadFull. destruct (decide _); [reflexivity | contradiction]. Qed.

End running.

(** ** The secret hasher *)

Section hasher_facts.
Context `{BcryptPrims} `{JwtPrims} `{Globals} `{JWTHelper}.

Lemma hash_encode_inj (h1 h2 : hashed) :
  BcryptLawful -> well_formed h1 -> well_formed h2 ->
  hash_encode h1 = hash_encode h2 -> h1 = h2.
Proof.
  intros [_ Hlaw] W1 W2 E. apply (f_equal hash_decode) in E.
  rewrite (Hlaw _ W1), (Hlaw _ W2) in E. injection E as ->. reflexivity.
Qed.

(** What [hashPassword] stores when it succeeds: the text form of cost 4,
    the sixteen bytes drawn as bcrypt salt, and the digest of the salted
    password. *)
Lemma hashPassword_stored (p s : list byte) (w w' : World) (h : string) :
  hashPassword p s w = (Ret (h, None), w') ->
  (16 <= length (entropy w))%nat
  /\ bytes h = hash_encode (mkHashed MinCost (take 16 (entropy w))
                                     (bcrypt (p ++ s)%list MinCost (take 16 (entropy w)))).
Proof.
  unfold hashPassword, GenerateFromPassword, ReadFull. mrun.
  destruct (decide _) as [Hn|]; cbn; [|discriminate].
  intros [= <- _]. split; [exact Hn|].
  unfold bytes. apply list_byte_of_string_of_list_byte.
Qed.

(** [comparePassword] accepts a candidate exactly when bcrypt computes for
    it the digest that is stored. *)
Lemma comparePassword_stored (p' s : list byte) (st : hashed) :
  BcryptLawful -> well_formed st ->
  comparePassword p' s (hash_encode st) = (None, true)
  <-> bcrypt (p' ++ s)%list (h_cost st) (h_salt st) = h_hash st.
Proof.
  intros Hlaw Wst. unfold comparePassword, CompareHashAndPassword.
  rewrite (proj2 Hlaw _ Wst). cbn.
  assert (Wother : well_formed
            (mkHashed (h_cost st) (h_salt st) (bcrypt (p' ++ s)%list (h_cost st) (h_salt st)))).
  { destruct Wst as (Hc & Hs & _).
    split; [exact Hc|]. split; [exact Hs|]. apply (proj1 Hlaw). }
  destruct (decide _) as [E|E].
  - split; [intros _|reflexivity].
    apply hash_encode_inj in E; try assumption. destruct st; cbn in *. congruence.
  - split; [discriminate|]. intros Hd. destruct E. destruct st; cbn in *. congruence.
Qed.

(** C4, as the code has it. A password verifies against the hash derived
    from it and the salt. Another password [p'] verifies against that hash
    exactly when bcrypt computes the same digest for [p' ++ s] as for
    [p ++ s]; it does so whenever the two salted passwords, terminated by
    a zero byte and repeated, agree on the 72 bytes the key schedule reads,
    so [p' <> p] alone does not make the verification fail. *)
Theorem C4_verify_follows_the_digest
  (p s : list byte) (w w' : World) (h : string) :
  BcryptLawful ->
  hashPassword p s w = (Ret (h, None), w') ->
  comparePassword p s (bytes h) = (None, true)
  /\ (forall p' : list byte,
        comparePassword p' s (bytes h) = (None, true)
        <-> bcrypt (p' ++ s)%list MinCost (take 16 (entropy w))
            = bcrypt (p ++ s)%list MinCost (take 16 (entropy w)))
  /\ (forall p' : list byte,
        key_material (p' ++ s)%list = key_material (p ++ s)%list ->
        comparePassword p' s (bytes h) = (None, true)).
Proof.
  intros Hlaw Hhash. destruct (hashPassword_stored _ _ _ _ _ Hhash) as [Hn ->].
  set (st := mkHashed MinCost (take 16 (entropy w))
               (bcrypt (p ++ s)%list MinCost (take 16 (entropy w)))).
  assert (Wst : well_formed st).
  { unfold st. split; [cbn; unfold MinCost, MaxCost; lia|]. split.
    - cbn. rewrite length_take. unfold maxSaltSize. lia.
    - apply (proj1 Hlaw). }
  assert (Hiff := fun p' => comparePassword_stored p' s st Hlaw Wst).
  cbn in Hiff. split; [|split].
  - apply Hiff. reflexivity.
  - exact Hiff.
  - intros p' Hkey. apply Hiff. unfold bcrypt. rewrite Hkey. reflexivity.
Qed.

Lemma generateSalt_run (w : World) :
  (32 <= length (entropy w))%nat ->
  generateSalt w = (Ret (take 32 (entropy w), None), set_entropy (drop 32 (entropy w)) w).
Proof.
  intros Hn. unfold generateSalt. mrun.
  rewrite (ReadFull_enough SALT_BYTES w Hn). reflexivity.
Qed.

Lemma hashPassword_run (p s : list byte) (w : World) :
  (16 <= length (entropy w))%nat ->
  exists h : string,
    hashPassword p s w = (Ret (h, None), set_entropy (drop 16 (entropy w)) w).
Proof.
  intros Hn. unfold hashPassword, GenerateFromPassword. mrun.
  rewrite (ReadFull_enough maxSaltSize w Hn). eexists. reflexivity.
Qed.

End hasher_facts.

(** ** The token codec *)

Section codec_facts.
Context `{BcryptPrims} `{JwtPrims} `{Globals} `{JWTHelper}.

(** Parsing reads the clock and nothing else: it returns, and the world is
    as before. *)
Lemma Parser_ParseWithClaims_pure (skip : bool) (t key : string) (w : World) :
  exists r, Parser_ParseWithClaims skip t key w = (Ret r, w).
Proof.
  unfold Parser_ParseWithClaims.
  destruct (segments t) as [[[alg payload] sig]|]; [|eexists; reflexivity].
  destruct (decide (alg ∈ registered_methods)); [|eexists; reflexivity].
  destruct skip; mrun; destruct (_ =? 0); eexists; reflexivity.
Qed.

Lemma ParseWithClaims_pure (t key : string) (w : World) :
  exists r, ParseWithClaims t key w = (Ret r, w).
Proof. apply Parser_ParseWithClaims_pure. Qed.

Lemma ParseToken_pure (t : string) (w : World) :
  exists r, ParseToken t w = (Ret r, w).
Proof. apply Parser_ParseWithClaims_pure. Qed.

Lemma ParseToken_world (t : string) (w w' : World) (r : Outcome (option Token * option error)) :
  ParseToken t w = (r, w') -> w' = w.
Proof.
  destruct (ParseToken_pure t w) as [r' E].
  rewrite E. intros [= _ <-]. reflexivity.
Qed.

(** A claim after the round trip through the payload. *)
Lemma payload_lookup (claims : gmap string Value) (k : string) :
  (unmarshal <$> (marshal <$> claims)) !! k
  = (fun v => unmarshal (marshal v)) <$> claims !! k.
Proof. rewrite !lookup_fmap. destruct (claims !! k); reflexivity. Qed.

Lemma HS256_registered : "HS256" ∈ registered_methods.
Proof. unfold registered_methods, hmac_methods. cbn. apply list_elem_of_here. Qed.

Lemma HS256_hmac : "HS256" ∈ hmac_methods.
Proof. apply list_elem_of_here. Qed.

(** A token the codec mints is accepted by the codec while its time claims
    allow. *)
Lemma ParseToken_minted (claims : gmap string Value) (w : World) :
  JwtLawful ->
  (MapClaims_Valid (unmarshal <$> (marshal <$> claims)) (Unix (clock w))).2 = 0 ->
  ParseToken (SignedString claims JWT_SECRET) w
  = (Ret (Some (mkToken (SignedString claims JWT_SECRET) "HS256"
                        (unmarshal <$> (marshal <$> claims))
                        (hmac "HS256" JWT_SECRET (marshal <$> claims)) true), None), w).
Proof.
  intros Hlaw Hvalid. unfold ParseToken, Parser_ParseWithClaims, SignedString.
  rewrite Hlaw.
  destruct (decide ("HS256" ∈ registered_methods)) as [_|Hn];
    [|destruct (Hn HS256_registered)].
  destruct SkipClaimsValidation; mrun; unfold Verify;
    (destruct (decide ("HS256" ∈ hmac_methods)) as [_|Hn]; [|destruct (Hn HS256_hmac)]);
    rewrite bool_decide_eq_true_2 by reflexivity;
    rewrite ?Hvalid; reflexivity.
Qed.

(** The claims of a reset token, as the parser hands them back. *)
Lemma resetClaims_exp (email : string) (t : Z) :
  (unmarshal <$> (marshal <$> resetClaims email t)) !! "exp"
  = Some (VFloat64 (Unix (t + 24 * Hour))).
Proof. rewrite payload_lookup. unfold resetClaims. rewrite lookup_insert_eq. reflexivity. Qed.

Lemma resetClaims_email (email : string) (t : Z) :
  (unmarshal <$> (marshal <$> resetClaims email t)) !! "email" = Some (VString email).
Proof.
  rewrite payload_lookup. unfold resetClaims.
  rewrite lookup_insert_ne by discriminate. rewrite lookup_insert_eq. reflexivity.
Qed.

Lemma resetClaims_other (email k : string) (t : Z) :
  k <> "exp" -> k <> "email" ->
  (unmarshal <$> (marshal <$> resetClaims email t)) !! k = None.
Proof.
  intros Hexp Hemail. rewrite payload_lookup. unfold resetClaims.
  rewrite !lookup_insert_ne by congruence. reflexivity.
Qed.

Lemma resetClaims_valid (email : string) (t now : Z) :
  now <= Unix (t + 24 * Hour) ->
  (MapClaims_Valid (unmarshal <$> (marshal <$> resetClaims email t)) now).2 = 0.
Proof.
  intros Hlive. unfold MapClaims_Valid, VerifyExpiresAt, VerifyIssuedAt, VerifyNotBefore.
  rewrite resetClaims_exp, !resetClaims_other by discriminate. cbn.
  unfold verifyExp. destruct (_ =? 0); [reflexivity|].
  destruct (Z.leb_spec now (Unix (t + 24 * Hour))); [reflexivity | lia].
Qed.

(** Reset tokens minted at clock readings whose expiry seconds differ are
    different strings. *)
Lemma resetToken_differs (email : string) (t t' : Z) :
  JwtLawful ->
  Unix (t + 24 * Hour) <> Unix (t' + 24 * Hour) ->
  resetToken email t <> resetToken email t'.
Proof.
  intros Hlaw Hne E. unfold resetToken, SignedString in E.
  apply (f_equal segments) in E. rewrite !Hlaw in E.
  assert (Hp : marshal <$> resetClaims email t = marshal <$> resetClaims email t')
    by congruence.
  apply (f_equal (fun m : gmap string JSON => m !! "exp")) in Hp.
  unfold resetClaims in Hp. rewrite !lookup_fmap, !lookup_insert_eq in Hp.
  cbn in Hp. congruence.
Qed.

Lemma ParseToken_reset (email : string) (t : Z) (w : World) :
  JwtLawful ->
  Unix (clock w) <= Unix (t + 24 * Hour) ->
  exists tok : Token,
    ParseToken (resetToken email t) w = (Ret (Some tok, None), w)
    /\ Claims tok !! "exp" = Some (VFloat64 (Unix (t + 24 * Hour)))
    /\ Claims tok !! "email" = Some (VString email).
Proof.
  intros Hlaw Hlive. eexists. split.
  - apply ParseToken_minted; [assumption|]. apply resetClaims_valid. assumption.
  - cbn. split; [apply resetClaims_exp | apply resetClaims_email].
Qed.

Lemma Verify_registered (alg key : string) (payload : gmap string JSON) (sig : string) :
  Verify alg key payload sig = true -> alg ∈ registered_methods.
Proof.
  unfold Verify, registered_methods. destruct (decide (alg ∈ hmac_methods)); [|discriminate].
  intros _. apply elem_of_app. left. assumption.
Qed.

(** What [parseJWT] does with a signed token, by its expiry claim. *)
Lemma parseJWT_by_expiry
  (w : World) (token alg : string) (payload : gmap string JSON) (sig : string) (exp : Z) :
  segments token = Some (alg, payload, sig) ->
  Verify alg JWT_SECRET payload sig = true ->
  payload !! "exp" = Some (JNum exp) ->
  exp <> 0 ->
  (exp < Unix (clock w) ->
     exists (msg : string) (flags : Z),
       parseJWT token w = (Ret (unmarshal <$> payload, Some (ValidationError msg flags)), w)
       /\ Z.land flags ValidationErrorExpired = ValidationErrorExpired)
  /\ (Unix (clock w) <= exp -> payload !! "iat" = None -> payload !! "nbf" = None ->
       parseJWT token w = (Ret (unmarshal <$> payload, None), w)).
Proof.
  intros Hseg Hsig Hexp Hnz.
  assert (Hreg := Verify_registered _ _ _ _ Hsig).
  unfold parseJWT, ParseWithClaims, Parser_ParseWithClaims. rewrite Hseg.
  destruct (decide (alg ∈ registered_methods)) as [_|Hn]; [|contradiction].
  mrun. rewrite Hsig.
  unfold MapClaims_Valid, VerifyExpiresAt, VerifyIssuedAt, VerifyNotBefore, verifyExp.
  rewrite !lookup_fmap, Hexp. cbn.
  destruct (Z.eqb_spec exp 0) as [|_]; [contradiction|].
  split.
  - intros Hpast. destruct (Z.leb_spec (Unix (clock w)) exp) as [|_]; [lia|].
    destruct (match unmarshal <$> payload !! "iat" with
              | Some (VFloat64 iat) => verifyIat iat (Unix (clock w)) false
              | _ => true end);
    destruct (match unmarshal <$> payload !! "nbf" with
              | Some (VFloat64 nbf) => verifyNbf nbf (Unix (clock w)) false
              | _ => true end);
    cbn; eexists _, _; split; reflexivity.
  - intros Hlive Hiat Hnbf. rewrite Hiat, Hnbf. cbn.
    destruct (Z.leb_spec (Unix (clock w)) exp) as [_|]; [|lia]. reflexivity.
Qed.

(** C2, as the code has it. The codec itself enforces expiry. Take a token
    whose signature verifies under the configured secret, whose numbers are
    whole numbers a float64 holds exactly, and whose expiry claim is not 0.
    When that Unix second is before the current one, the parse returns a
    validation error with the Expired bit set, and the callers [VerifyEmail]
    and [ChangePassword] of auth_usecase.go return their invalid-token
    errors, tagged VEA00 and CPW00, around that error: their own comparison
    of the expiry claim with the clock is not reached, so it is not what
    rejects such a token. The parse accepts the token, absent [iat] and
    [nbf] claims, as long as the current Unix second is at most the expiry
    claim. *)
Theorem C2_codec_enforces_expiry
  (w : World) (token alg : string) (payload : gmap string JSON) (sig : string) (exp : Z) :
  segments token = Some (alg, payload, sig) ->
  Verify alg JWT_SECRET payload sig = true ->
  exact_numbers payload ->
  payload !! "exp" = Some (JNum exp) ->
  exp <> 0 ->
  (exp < Unix (clock w) ->
     exists (msg : string) (flags : Z),
       parseJWT token w = (Ret (unmarshal <$> payload, Some (ValidationError msg flags)), w)
       /\ Z.land flags ValidationErrorExpired = ValidationErrorExpired
       /\ earlier.VerifyEmail token w
          = (Ret (Some (CError "VEA00" (Some (ValidationError msg flags))
                               FRIENDLY_INVALID_TOKEN TYPE_UNSET)), w)
       /\ forall password : string,
            earlier.ChangePassword token password w
            = (Ret (Some (CError "CPW00" (Some (ValidationError msg flags))
                                 FRIENDLY_INVALID_TOKEN TYPE_UNSET)), w))
  /\ (Unix (clock w) <= exp -> payload !! "iat" = None -> payload !! "nbf" = None ->
       parseJWT token w = (Ret (unmarshal <$> payload, None), w)).
Proof.
  intros Hseg Hsig _ Hexp Hnz.
  destruct (parseJWT_by_expiry w token alg payload sig exp Hseg Hsig Hexp Hnz)
    as [Hpast Hlive].
  split; [|exact Hlive].
  intros Hlt. destruct (Hpast Hlt) as (msg & flags & Hparse & Hbit).
  exists msg, flags. split; [exact Hparse|]. split; [exact Hbit|]. split.
  - unfold earlier.VerifyEmail. rewrite run_bind, Hparse. reflexivity.
  - intros password. unfold earlier.ChangePassword. rewrite run_bind, Hparse. reflexivity.
Qed.

End codec_facts.

(** ** The account repository *)

Section repository_facts.

Lemma GetAccount_found (filter : AccountFilter) (w : World) (a : Account) :
  oracle w (length (trace w)) = Healthy ->
  List.find (selects filter) (db_account w) = Some a ->
  GetAccount filter w
  = (Ret (Some a, None), set_trace (trace w ++ [DbGetAccount filter]) w).
Proof.
  intros Ho Hf. unfold GetAccount. mrun. rewrite Ho. cbn. rewrite Hf. reflexivity.
Qed.

Lemma find_selects_fmap (filter : AccountFilter) (g : Account -> Account)
  (rows : list Account) :
  (forall r, selects filter (g r) = selects filter r) ->
  List.find (selects filter) (g <$> rows) = g <$> List.find (selects filter) rows.
Proof.
  intros Hg. induction rows as [|r rows IH]; [reflexivity|].
  cbn. rewrite Hg. destruct (selects filter r); [reflexivity | exact IH].
Qed.

Lemma selects_update (filter : AccountFilter) (id : string) (upd : Account -> Account)
  (r : Account) :
  (forall a, AccountID (upd a) = AccountID a /\ Email (upd a) = Email a) ->
  selects filter (if decide (AccountID r = id) then upd r else r) = selects filter r.
Proof.
  intros Hupd. destruct (decide _); [|reflexivity].
  unfold selects. destruct (Hupd r) as [-> ->]. reflexivity.
Qed.

Lemma update_where_id_run (c : Call) (tag id : string) (upd : Account -> Account)
  (w : World) :
  oracle w (length (trace w)) = Healthy ->
  update_where_id c tag id upd w
  = (Ret None,
     set_db_account ((fun r => if decide (AccountID r = id) then upd r else r)
                       <$> db_account w)
                    (set_trace (trace w ++ [c]) w)).
Proof.
  intros Ho. unfold update_where_id, call. mrun. rewrite Ho. reflexivity.
Qed.

End repository_facts.

(** ** Actions that leave the session store alone *)

Create HintDb sessions discriminated.

Section session_frame.
Context `{BcryptPrims} `{JwtPrims} `{Globals} `{JWTHelper}.

Lemma keeps_ret {A : Type} (a : A) : keeps_redis (mret a).
Proof. intros w. reflexivity. Qed.

Lemma keeps_panic {A : Type} (msg : string) : keeps_redis (@panic A msg).
Proof. intros w. reflexivity. Qed.

Lemma keeps_bind {A B : Type} (m : M A) (f : A -> M B) :
  keeps_redis m -> (forall a, keeps_redis (f a)) -> keeps_redis (m ≫= f).
Proof.
  intros Hm Hf w. rewrite run_bind. specialize (Hm w).
  destruct (m w) as [[a|msg] w1]; cbn in *; [rewrite Hf|]; exact Hm.
Qed.

Lemma keeps_gets {A : Type} (f : World -> A) : keeps_redis (gets f).
Proof. intros w. reflexivity. Qed.

Lemma keeps_call (c : Call) : keeps_redis (call c).
Proof. intros w. reflexivity. Qed.

Lemma keeps_modify (f : World -> World) :
  (forall w, redis (f w) = redis w) -> keeps_redis (modify f).
Proof. intros Hf w. apply Hf. Qed.

Lemma keeps_ReadFull (n : nat) : keeps_redis (ReadFull n).
Proof. intros w. unfold ReadFull. destruct (decide _); reflexivity. Qed.

Lemma keeps_deref {A : Type} (p : option A) : keeps_redis (deref p).
Proof. destruct p; [apply keeps_ret | apply keeps_panic]. Qed.

Lemma keeps_assert_float64 (v : option Value) : keeps_redis (assert_float64 v).
Proof. destruct v as [[]|]; first [apply keeps_ret | apply keeps_panic]. Qed.

Lemma keeps_assert_string (v : option Value) : keeps_redis (assert_string v).
Proof. destruct v as [[]|]; first [apply keeps_ret | apply keeps_panic]. Qed.

Lemma keeps_ParseToken (t : string) : keeps_redis (ParseToken t).
Proof.
  intros w. destruct (ParseToken t w) as [r w'] eqn:E.
  apply ParseToken_world in E. subst. reflexivity.
Qed.

End session_frame.

#[global] Hint Resolve keeps_ret keeps_panic keeps_gets keeps_call keeps_ReadFull
  keeps_deref keeps_assert_float64 keeps_assert_string keeps_ParseToken : sessions.

(** Split an action along its binds and case distinctions, closing the
    leaves with the [sessions] hints. *)
Ltac frame :=
  repeat first
    [ solve [auto with sessions]
    | apply keeps_bind; [|intros ?]
    | apply keeps_modify; intros ?; reflexivity
    | match goal with
      | |- keeps_redis (match ?x with _ => _ end) => destruct x
      | |- keeps_redis (if ?b then _ else _) => destruct b
      end
    | progress cbv zeta ].

Section session_frame_ops.
Context `{BcryptPrims} `{JwtPrims} `{Globals} `{JWTHelper}.

Lemma keeps_GetAccount (f : AccountFilter) : keeps_redis (GetAccount f).
Proof. unfold GetAccount. frame. Qed.

Lemma keeps_update_where_id (c : Call) (tag id : string) (upd : Account -> Account) :
  keeps_redis (update_where_id c tag id upd).
Proof. unfold update_where_id. frame. Qed.

Lemma keeps_generateSalt : keeps_redis generateSalt.
Proof. unfold generateSalt. frame. Qed.

Lemma keeps_hashPassword (p s : list byte) : keeps_redis (hashPassword p s).
Proof. unfold hashPassword, GenerateFromPassword. frame. Qed.

End session_frame_ops.

#[global] Hint Resolve keeps_GetAccount keeps_update_where_id keeps_generateSalt
  keeps_hashPassword : sessions.

(** ** The usecase *)

Section usecase_facts.
Context `{BcryptPrims} `{JwtPrims} `{Globals} `{JWTHelper}.


(** C5. With the email of an account whose [IsVerified] flag is false and
    a password that [comparePassword] accepts for it, [Login] returns the
    error tagged LGU04 with the email-not-verified message and no token
    pair. The only call made is the account lookup: nothing is registered
    in the session store. *)
Theorem C5_unverified_login_is_rejected
  (w : World) (account regAccount : Account) :
  oracle w (length (trace w)) = Healthy ->
  List.find (selects (mkAccountFilter (Email account) "")) (db_account w) = Some regAccount ->
  comparePassword (bytes (Password account)) (Salt regAccount) (bytes (Password regAccount))
  = (None, true) ->
  IsVerified regAccount = false ->
  exists (e : error) (w' : World),
    Login account w = (Ret (None, Some e), w')
    /\ e = CError "LGU04"
             (Some (ErrorString ("email " +:+ Email regAccount +:+ " has not been verified")))
             FRIENDLY_EMAIL_NOT_VERIFIED TYPE_UNSET
    /\ redis w' = redis w
    /\ trace w' = (trace w ++ [DbGetAccount (mkAccountFilter (Email account) "")])%list.
Proof.
  intros Horacle Hfind Hpw Hunverified.
  unfold Login. mrun.
  rewrite (GetAccount_found _ _ _ Horacle Hfind), Hpw. cbn.
  rewrite Hunverified. cbn.
  eexists _, _. repeat split.
Qed.

(** C10. When the command that deletes the access session id fails,
    [SignOut] returns the error tagged SOU00 at once: the deletion of the
    access id is the only command sent to the session store, the store is
    as before, and a refresh session that was registered still is. *)
Theorem C10_sign_out_stops_at_first_failure
  (w : World) (accessToken : Token) (refreshToken : option Token) (atUUID : string) :
  Claims accessToken !! "access_uuid" = Some (VString atUUID) ->
  oracle w (length (trace w)) <> Healthy ->
  exists w' : World,
    SignOut (Some accessToken) refreshToken w
    = (Ret (Some (CError "SOU00" (Some ErrRedis) FRIENDLY_MESSAGE TYPE_UNSET)), w')
    /\ trace w' = (trace w ++ [RedisDelete atUUID])%list
    /\ redis w' = redis w
    /\ forall (rtUUID : string) (session : string * Z),
         redis w !! rtUUID = Some session -> redis w' !! rtUUID = Some session.
Proof.
  intros Huuid Hfails.
  unfold SignOut, Redis_Delete. mrun. rewrite Huuid. unfold call. cbn.
  destruct (oracle w (length (trace w))); [contradiction | ..]; cbn;
    (eexists; repeat split; auto).
Qed.

(** What a [SignOut] that returned no error has done. *)
Lemma SignOut_done (w w1 : World) (accessToken refreshToken : Token) :
  SignOut (Some accessToken) (Some refreshToken) w = (Ret None, w1) ->
  exists atUUID rtUUID : string,
    Claims accessToken !! "access_uuid" = Some (VString atUUID)
    /\ Claims refreshToken !! "refresh_uuid" = Some (VString rtUUID)
    /\ redis w1 = delete rtUUID (delete atUUID (redis w)).
Proof.
  unfold SignOut, Redis_Delete, call. mrun.
  destruct (Claims accessToken !! "access_uuid") as [[| | atUUID | |]|]; try discriminate.
  destruct (oracle w (length (trace w))); cbn; try discriminate.
  destruct (Claims refreshToken !! "refresh_uuid") as [[| | rtUUID | |]|]; try discriminate.
  match goal with |- context [failed ?f] => destruct f end; cbn; try discriminate.
  intros [= <-]. exists atUUID, rtUUID. repeat split.
Qed.

(** C6. After a [SignOut] that deleted the session id of a refresh token,
    and as long as no session is registered in between, [RefreshToken] with
    that token, still accepted by the codec, finds no session and returns
    the error tagged RTU00 of type [TYPE_EXPIRED] with the token-expired
    message. *)
Theorem C6_refresh_after_sign_out_is_expired
  (w w1 w2 : World) (accessToken parsedRefresh : Token) (refreshToken : string) :
  SignOut (Some accessToken) (Some parsedRefresh) w = (Ret None, w1) ->
  (forall k : string, redis w1 !! k = None -> redis w2 !! k = None) ->
  ParseToken refreshToken w2 = (Ret (Some parsedRefresh, None), w2) ->
  exists w3 : World,
    RefreshToken refreshToken w2
    = (Ret (None, Some (CError "RTU00" (Some (ErrorString "token_expired"))
                               FRIENDLY_TOKEN_EXPIRED TYPE_EXPIRED)), w3)
    /\ redis w3 = redis w2.
Proof.
  intros Hout Hstore Hparse.
  destruct (SignOut_done _ _ _ _ Hout) as (atUUID & rtUUID & _ & Hrt & Hredis).
  assert (Hgone : redis w2 !! rtUUID = None).
  { apply Hstore. rewrite Hredis. apply lookup_delete_eq. }
  unfold RefreshToken, Redis_Get, call. mrun.
  rewrite Hparse, Hrt.
  destruct (failed (oracle w2 (length (trace w2)))); cbn.
  - eexists. split; reflexivity.
  - rewrite Hgone. eexists. split; reflexivity.
Qed.

Lemma ReadFull_quiet (n : nat) (w w' : World) (o : Outcome (list byte * option error)) :
  ReadFull n w = (o, w') -> quiet w w'.
Proof.
  unfold ReadFull. destruct (decide _); intros [= <- <-]; repeat split.
Qed.

Lemma generateSalt_quiet (w w' : World) (o : Outcome (list byte * option error)) :
  generateSalt w = (o, w') -> quiet w w'.
Proof.
  unfold generateSalt. mrun.
  destruct (ReadFull SALT_BYTES w) as [[[b [e|]]|msg] w1] eqn:E;
    intros [= <- <-]; exact (ReadFull_quiet _ _ _ _ E).
Qed.

Lemma hashPassword_quiet (password salt : list byte) (w w' : World)
  (o : Outcome (string * option error)) :
  hashPassword password salt w = (o, w') -> quiet w w'.
Proof.
  unfold hashPassword, GenerateFromPassword. mrun.
  destruct (ReadFull maxSaltSize w) as [[[b [e|]]|msg] w1] eqn:E;
    intros [= <- <-]; exact (ReadFull_quiet _ _ _ _ E).
Qed.

Lemma uuid_New_String_quiet (w w' : World) (o : Outcome string) :
  uuid_New_String w = (o, w') -> quiet w w'.
Proof.
  unfold uuid_New_String. mrun.
  destruct (ReadFull 16 w) as [[[b [e|]]|msg] w1] eqn:E;
    intros [= <- <-]; exact (ReadFull_quiet _ _ _ _ E).
Qed.







(** C3, as the code has it. [ChangePassword] never touches the session
    store: whatever it returns, every access and refresh session that was
    registered before the call is registered after it, with the same token
    and expiry. Sessions are removed one by one by [SignOut] only. *)
Theorem C3_change_password_keeps_sessions (token password : string) (w : World) :
  redis (ChangePassword token password w).2 = redis w.
Proof.
  revert w. change (keeps_redis (ChangePassword token password)).
  unfold ChangePassword, UpdateSaltAndPassword, UpdatePasswordToken, Now. frame.
Qed.

(** What a [ResetPassword] that returned no error has done: the account the
    email selects is verified, the token minted at the current clock
    reading is stored on it, and the mail carrying that token is sent. *)
Lemma ResetPassword_done (email : string) (w w' : World) :
  ResetPassword email w = (Ret None, w') ->
  exists a : Account,
    List.find (selects (mkAccountFilter email "")) (db_account w) = Some a
    /\ IsVerified a = true
    /\ db_account w'
       = storeToken (AccountID a) (resetToken email (clock w)) <$> db_account w
    /\ clock w' = clock w /\ entropy w' = entropy w /\ oracle w' = oracle w
    /\ redis w' = redis w
    /\ outbox w'
       = (outbox w ++ [mkMail [email] ResetPassword_Subject
            (RESET_PASSWORD_TEMPLATE
               (generateResetPasswordUrl (resetToken email (clock w))))])%list.
Proof.
  unfold ResetPassword, CreateToken, GetAccount, UpdatePasswordToken, update_where_id,
    SendMail, call.
  mrun.
  destruct (failed (oracle w (length (trace w)))); cbn; [discriminate|].
  destruct (List.find _ (db_account w)) as [a|] eqn:Hfind; cbn; [|discriminate].
  destruct (IsVerified a) eqn:Hver; cbn; [|discriminate].
  match goal with |- context [match ?f with Healthy => _ | _ => _ end] => destruct f end;
    cbn; try discriminate.
  match goal with |- context [failed ?f] => destruct (failed f) end; cbn; [discriminate|].
  intros [= <-]. exists a. repeat split; assumption.
Qed.

Lemma Unix_le_ofUnix (t sec : Z) : t <= ofUnix sec -> Unix t <= sec.
Proof.
  unfold Unix, ofUnix, Second. intros Hle.
  apply Z.div_le_upper_bound; lia.
Qed.

Lemma Unix_mono (t t' : Z) : t <= t' -> Unix t <= Unix t'.
Proof. unfold Unix, Second. intros Hle. apply Z.div_le_mono; lia. Qed.

(** C7, as the code has it. After two successful [ResetPassword] calls for
    an account, made at clock readings whose expiry seconds differ (so that
    the two minted tokens differ), and while the first token has not
    expired: [ChangePassword] with the first token returns the error tagged
    CPW03 with the invalid-token message and writes nothing, and
    [ChangePassword] with the second token, given a reachable database and
    48 bytes of entropy, returns no error and leaves the account with a
    blank [PasswordToken]. *)
Theorem C7_second_reset_supersedes_first
  (w0 w1 w2 : World) (email password : string) (d1 d2 : Z) :
  JwtLawful ->
  ResetPassword email w0 = (Ret None, w1) ->
  ResetPassword email (elapse d1 w1) = (Ret None, w2) ->
  0 <= d1 -> 0 <= d2 ->
  Unix (clock w0 + 24 * Hour) <> Unix (clock w0 + d1 + 24 * Hour) ->
  let w3 := elapse d2 w2 in
  let first := resetToken email (clock w0) in
  let second := resetToken email (clock w0 + d1) in
  clock w3 <= ofUnix (Unix (clock w0 + 24 * Hour)) ->
  (forall i, (i < 3)%nat -> oracle w3 (length (trace w3) + i)%nat = Healthy) ->
  (48 <= length (entropy w3))%nat ->
  (exists (e : error) (w' : World),
     ChangePassword first password w3 = (Ret (Some e), w')
     /\ friendly_of e = Some FRIENDLY_INVALID_TOKEN
     /\ db_account w' = db_account w3)
  /\ (exists (w' : World) (a : Account),
       ChangePassword second password w3 = (Ret None, w')
       /\ List.find (selects (mkAccountFilter email "")) (db_account w') = Some a
       /\ PasswordToken a = "").
Proof.
  intros Hlaw H1st H2nd Hd1 Hd2 Hne w3 first second Hlive Horacle Hent.
  destruct (ResetPassword_done _ _ _ H1st)
    as (a & Hfind0 & _ & Hdb1 & Hck1 & _ & _ & _ & _).
  destruct (ResetPassword_done _ _ _ H2nd)
    as (a' & Hfind1 & _ & Hdb2 & Hck2 & _ & _ & _ & _).
  cbn in Hfind1, Hdb2, Hck2. rewrite Hck1 in Hdb2, Hck2. fold second in Hdb2.
  rewrite Hdb1 in Hfind1. fold first in Hdb1, Hfind1.
  assert (Hsel : forall id tok r,
            selects (mkAccountFilter email "") (storeToken id tok r)
            = selects (mkAccountFilter email "") r).
  { intros id tok r. apply selects_update. intros x. split; reflexivity. }
  rewrite find_selects_fmap, Hfind0 in Hfind1 by apply Hsel.
  injection Hfind1 as <-.
  assert (Hid : AccountID (storeToken (AccountID a) first a) = AccountID a).
  { unfold storeToken. destruct (decide _); reflexivity. }
  rewrite Hid, Hdb1 in Hdb2.
  set (stored := storeToken (AccountID a) second (storeToken (AccountID a) first a)).
  assert (Hfind3 : List.find (selects (mkAccountFilter email "")) (db_account w3)
                   = Some stored).
  { cbn. rewrite Hdb2, !find_selects_fmap, Hfind0 by apply Hsel. reflexivity. }
  assert (Hstored : PasswordToken stored = second /\ AccountID stored = AccountID a).
  { unfold stored, storeToken.
    destruct (decide (AccountID a = AccountID a)); [cbn | congruence].
    destruct (decide (AccountID a = AccountID a)); [cbn | congruence].
    split; reflexivity. }
  destruct Hstored as [Htok Hsid].
  assert (Hdiff : first <> second) by (apply resetToken_differs; assumption).
  assert (Hnow1 : Unix (clock w3) <= Unix (clock w0 + 24 * Hour))
    by (apply Unix_le_ofUnix; exact Hlive).
  assert (Hexp12 : Unix (clock w0 + 24 * Hour) <= Unix (clock w0 + d1 + 24 * Hour))
    by (apply Unix_mono; lia).
  assert (Ho0 := Horacle 0%nat ltac:(lia)). rewrite Nat.add_0_r in Ho0.
  split.
  - destruct (ParseToken_reset email (clock w0) w3 Hlaw Hnow1)
      as (tok & Hparse & Hexp & Hemail).
    fold first in Hparse.
    unfold ChangePassword. mrun.
    rewrite Hparse, Hexp, Hemail.
    unfold After. destruct (Z.ltb_spec (ofUnix (Unix (clock w0 + 24 * Hour))) (clock w3));
      [lia|].
    rewrite (GetAccount_found _ _ _ Ho0 Hfind3), Htok.
    rewrite bool_decide_eq_false_2 by exact Hdiff. cbn.
    eexists _, _. repeat split.
  - assert (Hnow2 : Unix (clock w3) <= Unix (clock w0 + d1 + 24 * Hour)) by lia.
    destruct (ParseToken_reset email (clock w0 + d1) w3 Hlaw Hnow2)
      as (tok & Hparse & Hexp & Hemail).
    fold second in Hparse.
    unfold ChangePassword. mrun.
    rewrite Hparse, Hexp, Hemail.
    unfold After.
    destruct (Z.ltb_spec (ofUnix (Unix (clock w0 + d1 + 24 * Hour))) (clock w3));
      [unfold ofUnix, Second in *; nia|].
    rewrite (GetAccount_found _ _ _ Ho0 Hfind3), Htok.
    rewrite bool_decide_eq_true_2 by reflexivity. cbn -[w3].
    rewrite generateSalt_run by (refine (Nat.le_trans _ _ _ _ Hent); lia). cbn -[w3].
    match goal with
    | |- context [hashPassword ?p ?s ?w] =>
        destruct (hashPassword_run p s w) as [h Hh];
        [change (16 <= length (drop 32 (entropy w3)))%nat; rewrite length_drop; lia
        | rewrite Hh]
    end.
    cbn -[w3]. unfold UpdateSaltAndPassword, UpdatePasswordToken.
    rewrite update_where_id_run
      by (change (oracle w3 (length (trace w3 ++ [DbGetAccount (mkAccountFilter email "")]))
                  = Healthy);
          rewrite length_app; apply Horacle; cbn; lia).
    cbn -[w3].
    rewrite update_where_id_run
      by (cbn -[w3]; rewrite !length_app, <- Nat.add_assoc; apply Horacle; cbn; lia).
    cbn -[w3].
    eexists _, _. split; [reflexivity|].
    cbn -[w3].
    rewrite !find_selects_fmap by (intros r; destruct (decide _); reflexivity).
    rewrite Hfind3.
    cbn -[w3]. split; [reflexivity|].
    destruct (decide (AccountID stored = AccountID stored)); [cbn -[w3] | congruence].
    destruct (decide (AccountID stored = AccountID stored)); [reflexivity | congruence].
Qed.

End usecase_facts.

(** * Further properties of the usecase *)

(** ** Logging in *)

Section login_facts.
Context `{BcryptPrims} `{JwtPrims} `{Globals} `{JWTHelper}.

Lemma uuid_New_String_run (w : World) :
  (16 <= length (entropy w))%nat ->
  uuid_New_String w = (Ret (nextUuid (entropy w)), set_entropy (drop 16 (entropy w)) w).
Proof.
  intros Hn. unfold uuid_New_String. mrun. rewrite (ReadFull_enough 16 w Hn). reflexivity.
Qed.

Lemma GetProfile_found (filter : ProfileFilter) (w : World) (p : Profile) :
  oracle w (length (trace w)) = Healthy ->
  List.find (fun p => bool_decide (pAccountID p = pfAccountID filter)) (db_profile w) = Some p ->
  GetProfile filter w = (Ret (Some p, None), set_trace (trace w ++ [DbGetProfile filter]) w).
Proof.
  intros Ho Hf. unfold GetProfile, call. mrun. rewrite Ho. cbn. rewrite Hf. reflexivity.
Qed.

Lemma accessClaims_uuid (account : Account) (profile : Profile) (uuid : string) (t : Z) :
  accessClaims account profile uuid t !! "access_uuid" = Some (VString uuid).
Proof.
  unfold accessClaims. rewrite !lookup_insert_ne by discriminate.
  apply lookup_insert_eq.
Qed.

Lemma accessClaims_exp (account : Account) (profile : Profile) (uuid : string) (t : Z) :
  accessClaims account profile uuid t !! "exp" = Some (VInt64 (Unix (t + 15 * Minute))).
Proof.
  unfold accessClaims. rewrite lookup_insert_ne by discriminate.
  apply lookup_insert_eq.
Qed.

Lemma refreshClaims_uuid (account : Account) (uuid : string) (t : Z) :
  refreshClaims account uuid t !! "refresh_uuid" = Some (VString uuid).
Proof.
  unfold refreshClaims. rewrite lookup_insert_ne by discriminate.
  apply lookup_insert_eq.
Qed.

Lemma refreshClaims_exp (account : Account) (uuid : string) (t : Z) :
  refreshClaims account uuid t !! "exp" = Some (VInt64 (Unix (t + 1 * Hour))).
Proof. unfold refreshClaims. apply lookup_insert_eq. Qed.

Lemma refreshClaims_account (account : Account) (uuid : string) (t : Z) :
  refreshClaims account uuid t !! "account_id" = Some (VString (AccountID account)).
Proof.
  unfold refreshClaims. rewrite !lookup_insert_ne by discriminate.
  apply lookup_insert_eq.
Qed.

(** The world after [createTokenPair] drew its two ids and registered the
    access session, and after it registered the refresh session as well. *)
Lemma createTokenPair_first_session (account : Account) (profile : Profile) (w : World) :
  (32 <= length (entropy w))%nat ->
  oracle w (length (trace w)) = Healthy ->
  oracle w (S (length (trace w))) <> Healthy ->
  let au := nextUuid (entropy w) in
  let ru := nextUuid (drop 16 (entropy w)) in
  let at_ := SignedString (accessClaims account profile au (clock w)) JWT_SECRET in
  let rt := SignedString (refreshClaims account ru (clock w)) JWT_SECRET in
  exists w' : World,
    createTokenPair account profile w = (Ret (None, Some ErrRedis), w')
    /\ redis w' = <[au := (at_, Unix (clock w + 15 * Minute))]> (redis w)
    /\ db_account w' = db_account w
    /\ trace w' = (trace w ++ [RedisSet au at_ (Unix (clock w + 15 * Minute));
                               RedisSet ru rt (Unix (clock w + 1 * Hour))])%list.
Proof.
  intros Hent Ho1 Ho2 au ru at_ rt. subst au ru at_ rt.
  unfold createTokenPair, CreateTokenPair, Redis_Set, call. mrun.
  rewrite uuid_New_String_run by lia. cbn.
  rewrite uuid_New_String_run by (cbn; rewrite length_drop; lia). cbn.
  fold (accessClaims account profile (nextUuid (entropy w)) (clock w)).
  fold (refreshClaims account (nextUuid (drop 16 (entropy w))) (clock w)).
  rewrite accessClaims_uuid, accessClaims_exp, refreshClaims_uuid, refreshClaims_exp.
  cbn. rewrite Ho1. cbn. rewrite length_app. cbn. rewrite Nat.add_1_r.
  destruct (oracle w (S (length (trace w)))); [contradiction|..]; cbn;
    (eexists; split; [reflexivity|]; cbn; rewrite <- app_assoc; repeat split).
Qed.

Lemma createTokenPair_both_sessions (account : Account) (profile : Profile) (w : World) :
  (32 <= length (entropy w))%nat ->
  oracle w (length (trace w)) = Healthy ->
  oracle w (S (length (trace w))) = Healthy ->
  let au := nextUuid (entropy w) in
  let ru := nextUuid (drop 16 (entropy w)) in
  let at_ := SignedString (accessClaims account profile au (clock w)) JWT_SECRET in
  let rt := SignedString (refreshClaims account ru (clock w)) JWT_SECRET in
  exists w' : World,
    createTokenPair account profile w
    = (Ret (Some (mkJWTWrapper at_ rt (clock w + 1 * Hour)), None), w')
    /\ redis w' = <[ru := (rt, Unix (clock w + 1 * Hour))]>
                    (<[au := (at_, Unix (clock w + 15 * Minute))]> (redis w))
    /\ db_account w' = db_account w
    /\ db_profile w' = db_profile w
    /\ clock w' = clock w
    /\ oracle w' = oracle w
    /\ entropy w' = drop 16 (drop 16 (entropy w))
    /\ trace w' = (trace w ++ [RedisSet au at_ (Unix (clock w + 15 * Minute));
                               RedisSet ru rt (Unix (clock w + 1 * Hour))])%list.
Proof.
  intros Hent Ho1 Ho2 au ru at_ rt. subst au ru at_ rt.
  unfold createTokenPair, CreateTokenPair, Redis_Set, call. mrun.
  rewrite uuid_New_String_run by lia. cbn.
  rewrite uuid_New_String_run by (cbn; rewrite length_drop; lia). cbn.
  fold (accessClaims account profile (nextUuid (entropy w)) (clock w)).
  fold (refreshClaims account (nextUuid (drop 16 (entropy w))) (clock w)).
  rewrite accessClaims_uuid, accessClaims_exp, refreshClaims_uuid, refreshClaims_exp.
  cbn. rewrite Ho1. cbn. rewrite length_app. cbn. rewrite Nat.add_1_r, Ho2. cbn.
  eexists; split; [reflexivity|]; cbn; rewrite <- app_assoc; repeat split.
Qed.

Lemma GetAccount_outcome (filter : AccountFilter) (w w' : World)
  (o : Outcome (option Account * option error)) :
  GetAccount filter w = (o, w') ->
  w' = set_trace (trace w ++ [DbGetAccount filter]) w
  /\ ((exists a, o = Ret (Some a, None)
                 /\ List.find (selects filter) (db_account w) = Some a
                 /\ oracle w (length (trace w)) = Healthy)
      \/ (exists e, o = Ret (None, Some (CError "GA02" (Some e) FRIENDLY_MESSAGE TYPE_UNSET)))).
Proof.
  unfold GetAccount, call. mrun.
  destruct (oracle w (length (trace w))) eqn:Ho; cbn;
    try (intros [= <- <-]; split; [reflexivity | right; eauto]).
  destruct (List.find (selects filter) (db_account w)) as [a|] eqn:Hf;
    intros [= <- <-]; split; try reflexivity; [left | right]; eauto.
Qed.

(** X1. [Login] hands out a token pair only to a verified account whose
    password was accepted: whenever it returns a pair, the email selects an
    account, that account is verified, [comparePassword] accepted the
    password given for it, and no error comes with the pair. *)
Theorem X1_login_grants_only_verified_accounts
  (account : Account) (w w' : World) (pair : JWTWrapper) (err : option error) :
  Login account w = (Ret (Some pair, err), w') ->
  exists regAccount : Account,
    List.find (selects (mkAccountFilter (Email account) "")) (db_account w) = Some regAccount
    /\ IsVerified regAccount = true
    /\ comparePassword (bytes (Password account)) (Salt regAccount)
                       (bytes (Password regAccount)) = (None, true)
    /\ err = None.
Proof.
  unfold Login. mrun.
  destruct (GetAccount _ w) as [o w1] eqn:Eg.
  destruct (GetAccount_outcome _ _ _ _ Eg) as [-> [(a & -> & Hfind & _) | (e & ->)]];
    [|discriminate].
  destruct (comparePassword _ (Salt a) _) as [[e|] [|]] eqn:Ecmp; cbn; try discriminate.
  destruct (IsVerified a) eqn:Hver; cbn; [|discriminate].
  destruct (GetProfile _ _) as [[[prof [e|]]|msg] w2]; try discriminate.
  destruct prof as [prof|]; cbn; [|discriminate].
  destruct (createTokenPair a prof w2) as [[[tok [e|]]|msg] w3]; try discriminate.
  intros [= -> <- <-]. exists a. repeat split; assumption.
Qed.

(** X2. [Login] for a verified account, with an accepted password, a
    profile on file, reachable collaborators and 32 bytes of entropy,
    returns the pair of tokens signed over the claims of the account, with
    the refresh expiry one hour ahead, and registers the access token under
    the first fresh id until 15 minutes ahead and the refresh token under
    the second until one hour ahead; the account table is not written. *)
Theorem X2_login_registers_both_sessions
  (account regAccount : Account) (regProfile : Profile) (w : World) :
  (forall i, (i < 4)%nat -> oracle w (length (trace w) + i)%nat = Healthy) ->
  (32 <= length (entropy w))%nat ->
  List.find (selects (mkAccountFilter (Email account) "")) (db_account w) = Some regAccount ->
  comparePassword (bytes (Password account)) (Salt regAccount) (bytes (Password regAccount))
  = (None, true) ->
  IsVerified regAccount = true ->
  List.find (fun p => bool_decide (pAccountID p = AccountID regAccount)) (db_profile w)
  = Some regProfile ->
  let au := nextUuid (entropy w) in
  let ru := nextUuid (drop 16 (entropy w)) in
  let at_ := SignedString (accessClaims regAccount regProfile au (clock w)) JWT_SECRET in
  let rt := SignedString (refreshClaims regAccount ru (clock w)) JWT_SECRET in
  exists w' : World,
    Login account w = (Ret (Some (mkJWTWrapper at_ rt (clock w + 1 * Hour)), None), w')
    /\ redis w' = <[ru := (rt, Unix (clock w + 1 * Hour))]>
                    (<[au := (at_, Unix (clock w + 15 * Minute))]> (redis w))
    /\ db_account w' = db_account w.
Proof.
  intros Ho Hent Hfind Hpw Hver Hprof au ru at_ rt.
  assert (Ho0 := Ho 0%nat ltac:(lia)). rewrite Nat.add_0_r in Ho0.
  unfold Login. mrun.
  rewrite (GetAccount_found _ _ _ Ho0 Hfind), Hpw. cbn. rewrite Hver. cbn.
  rewrite (GetProfile_found (mkProfileFilter (AccountID regAccount)))  with (p := regProfile);
    [|cbn; rewrite length_app; apply Ho; cbn; lia | exact Hprof].
  cbn.
  match goal with
  | |- context [createTokenPair ?a ?p ?w0] =>
      destruct (createTokenPair_both_sessions a p w0) as (w' & -> & Hr & Hd & _)
  end.
  - exact Hent.
  - cbn. rewrite !length_app, <- Nat.add_assoc. apply Ho. cbn. lia.
  - cbn.
    match goal with
    | |- oracle w ?n = Healthy =>
        replace n with (length (trace w) + 3)%nat by (rewrite !length_app; cbn; lia)
    end.
    apply Ho. lia.
  - exists w'. split; [reflexivity|]. split; [exact Hr | exact Hd].
Qed.

(** X3. When the command that registers the refresh session fails,
    [Login] returns that error and no pair, and the access session it
    registered just before stays in the store. *)
Theorem X3_login_leaves_access_session_behind
  (account regAccount : Account) (regProfile : Profile) (w : World) :
  (forall i, (i < 3)%nat -> oracle w (length (trace w) + i)%nat = Healthy) ->
  oracle w (length (trace w) + 3)%nat <> Healthy ->
  (32 <= length (entropy w))%nat ->
  List.find (selects (mkAccountFilter (Email account) "")) (db_account w) = Some regAccount ->
  comparePassword (bytes (Password account)) (Salt regAccount) (bytes (Password regAccount))
  = (None, true) ->
  IsVerified regAccount = true ->
  List.find (fun p => bool_decide (pAccountID p = AccountID regAccount)) (db_profile w)
  = Some regProfile ->
  let au := nextUuid (entropy w) in
  let at_ := SignedString (accessClaims regAccount regProfile au (clock w)) JWT_SECRET in
  exists w' : World,
    Login account w = (Ret (None, Some ErrRedis), w')
    /\ redis w' = <[au := (at_, Unix (clock w + 15 * Minute))]> (redis w).
Proof.
  intros Ho Hbad Hent Hfind Hpw Hver Hprof au at_.
  assert (Ho0 := Ho 0%nat ltac:(lia)). rewrite Nat.add_0_r in Ho0.
  unfold Login. mrun.
  rewrite (GetAccount_found _ _ _ Ho0 Hfind), Hpw. cbn. rewrite Hver. cbn.
  rewrite (GetProfile_found (mkProfileFilter (AccountID regAccount)))  with (p := regProfile);
    [|cbn; rewrite length_app; apply Ho; cbn; lia | exact Hprof].
  cbn.
  match goal with
  | |- context [createTokenPair ?a ?p ?w0] =>
      destruct (createTokenPair_first_session a p w0) as (w' & -> & Hr & _)
  end.
  - exact Hent.
  - cbn. rewrite !length_app, <- Nat.add_assoc. apply Ho. cbn. lia.
  - cbn.
    match goal with
    | |- oracle w ?n <> Healthy =>
        replace n with (length (trace w) + 3)%nat by (rewrite !length_app; cbn; lia)
    end.
    exact Hbad.
  - exists w'. split; [reflexivity | exact Hr].
Qed.

End login_facts.

(** ** Relations every step of an operation respects *)

Create HintDb preserve discriminated.

Section preservation.
Context `{BcryptPrims} `{JwtPrims} `{Globals} `{JWTHelper}.
Context (R : World -> World -> Prop) `{!Frame R}.

Lemma pres_ret {A : Type} (a : A) : preserves R (mret a).
Proof. intros w. apply frame_refl. Qed.

Lemma pres_panic {A : Type} (msg : string) : preserves R (@panic A msg).
Proof. intros w. apply frame_refl. Qed.

Lemma pres_bind {A B : Type} (m : M A) (f : A -> M B) :
  preserves R m -> (forall a, preserves R (f a)) -> preserves R (m ≫= f).
Proof.
  intros Hm Hf w. rewrite run_bind. specialize (Hm w).
  destruct (m w) as [[a|msg] w1]; cbn in *; [|exact Hm].
  eapply frame_trans; [exact Hm | apply Hf].
Qed.

Lemma pres_gets {A : Type} (f : World -> A) : preserves R (gets f).
Proof. intros w. apply frame_refl. Qed.

Lemma pres_Now : preserves R Now.
Proof. intros w. apply frame_refl. Qed.

Lemma pres_modify (f : World -> World) : (forall w, R w (f w)) -> preserves R (modify f).
Proof. intros Hf w. apply Hf. Qed.

Lemma pres_call (c : Call) : preserves R (call c).
Proof. intros w. apply frame_trace. Qed.

Lemma pres_ReadFull (n : nat) : preserves R (ReadFull n).
Proof. intros w. unfold ReadFull. destruct (decide _); apply frame_entropy. Qed.

Lemma pres_deref {A : Type} (p : option A) : preserves R (deref p).
Proof. destruct p; [apply pres_ret | apply pres_panic]. Qed.

Lemma pres_assert_float64 (v : option Value) : preserves R (assert_float64 v).
Proof. destruct v as [[]|]; first [apply pres_ret | apply pres_panic]. Qed.

Lemma pres_assert_string (v : option Value) : preserves R (assert_string v).
Proof. destruct v as [[]|]; first [apply pres_ret | apply pres_panic]. Qed.

Lemma pres_assert_int64 (v : option Value) : preserves R (assert_int64 v).
Proof. destruct v as [[]|]; first [apply pres_ret | apply pres_panic]. Qed.

Lemma pres_Parser_ParseWithClaims (skip : bool) (t key : string) :
  preserves R (Parser_ParseWithClaims skip t key).
Proof.
  intros w. destruct (Parser_ParseWithClaims_pure skip t key w) as [r ->]. apply frame_refl.
Qed.

Lemma pres_ParseWithClaims (t key : string) : preserves R (ParseWithClaims t key).
Proof. apply pres_Parser_ParseWithClaims. Qed.

End preservation.

#[global] Hint Resolve pres_ret pres_panic pres_gets pres_Now pres_call pres_ReadFull pres_deref
  pres_assert_float64 pres_assert_string pres_assert_int64 pres_ParseWithClaims : preserve.

(** Split an action along its binds and case distinctions; the leaves are
    closed by the [preserve] hints, a state update by [step], which is
    given for the relation at hand. *)
Ltac preserve_with step :=
  repeat first
    [ solve [auto with preserve]
    | match goal with
      | |- preserves ?R (_ ≫= _) => apply (pres_bind R); [|intros ?]
      | |- preserves ?R (modify _) => apply (pres_modify R); intros ?; solve [step]
      | |- preserves _ (match ?x with _ => _ end) => destruct x
      | |- preserves _ (if ?b then _ else _) => destruct b
      end
    | progress cbv zeta ].

(** *** The three relations *)

Lemma unique_kept_frame : Frame unique_kept.
Proof. split; unfold unique_kept; cbn; auto. Qed.

Lemma sessions_kept_frame : Frame sessions_kept.
Proof. split; unfold sessions_kept; cbn; auto. Qed.

Lemma verified_only_frame : Frame verified_only.
Proof.
  split; unfold verified_only; cbn.
  - intros w. apply Forall2_same_length_lookup. split; [reflexivity|].
    intros i x y Hx Hy. left. congruence.
  - intros a b c Hab Hbc. revert Hbc. generalize (db_account c).
    induction Hab as [|x y l k Hxy Hlk IH]; intros l' Hbc; inversion Hbc; subst;
      constructor; [|apply IH; assumption].
    match goal with Hyz : _ \/ _ |- _ => destruct Hyz as [-> | ->] end;
      destruct Hxy as [-> | ->]; auto.
  - intros w _. apply Forall2_same_length_lookup. split; [reflexivity|].
    intros i x y Hx Hy. left. congruence.
  - intros w _. apply Forall2_same_length_lookup. split; [reflexivity|].
    intros i x y Hx Hy. left. congruence.
Qed.

Lemma duplicate_false (a : Account) (rows : list Account) :
  duplicate a rows = false ->
  (Email a ∉ Email <$> rows) /\ (AccountID a ∉ AccountID <$> rows).
Proof.
  unfold duplicate. induction rows as [|r rows IH]; cbn.
  - intros _. split; apply not_elem_of_nil.
  - intros Hd. apply orb_false_elim in Hd as [Hr Hrest].
    apply orb_false_elim in Hr as [Hid Hem].
    apply bool_decide_eq_false in Hid, Hem.
    destruct (IH Hrest) as [IHe IHi].
    split; rewrite not_elem_of_cons; split; auto.
Qed.

Lemma unique_keys_insert (a : Account) (rows : list Account) :
  unique_keys rows -> duplicate a rows = false -> unique_keys (rows ++ [a]).
Proof.
  intros [He Hi] Hd. destruct (duplicate_false _ _ Hd) as [Hne Hni].
  split; rewrite fmap_app; apply NoDup_app; (split; [assumption|]);
    (split; [|apply NoDup_singleton]);
    intros x Hx Hx'; apply list_elem_of_singleton in Hx'; subst; contradiction.
Qed.

Lemma unique_keys_update (g : Account -> Account) (rows : list Account) :
  (forall r, AccountID (g r) = AccountID r /\ Email (g r) = Email r) ->
  unique_keys rows -> unique_keys (g <$> rows).
Proof.
  intros Hg [He Hi]. split; rewrite <- list_fmap_compose.
  - rewrite (list_fmap_ext (Email ∘ g) Email rows); [assumption|].
    intros i x _. apply (Hg x).
  - rewrite (list_fmap_ext (AccountID ∘ g) AccountID rows); [assumption|].
    intros i x _. apply (Hg x).
Qed.

#[global] Existing Instances unique_kept_frame sessions_kept_frame verified_only_frame.
#[global] Hint Resolve unique_kept_frame sessions_kept_frame verified_only_frame : preserve.

(** *** Collaborators that write nothing a relation looks at *)

Section preservation_ops.
Context `{BcryptPrims} `{JwtPrims} `{Globals} `{JWTHelper}.
Context (R : World -> World -> Prop) `{!Frame R}.

Lemma pres_GetAccount (f : AccountFilter) : preserves R (GetAccount f).
Proof. unfold GetAccount. preserve_with idtac. Qed.

Lemma pres_GetProfile (f : ProfileFilter) : preserves R (GetProfile f).
Proof. unfold GetProfile. preserve_with idtac. Qed.

Lemma pres_Redis_Get (k : string) : preserves R (Redis_Get k).
Proof. unfold Redis_Get. preserve_with idtac. Qed.

Lemma pres_generateSalt : preserves R generateSalt.
Proof. unfold generateSalt. preserve_with idtac. Qed.

Lemma pres_hashPassword (p s : list byte) : preserves R (hashPassword p s).
Proof. unfold hashPassword, GenerateFromPassword. preserve_with idtac. Qed.

Lemma pres_uuid_New_String : preserves R uuid_New_String.
Proof. unfold uuid_New_String. preserve_with idtac. Qed.

Lemma pres_ParseToken (t : string) : preserves R (ParseToken t).
Proof. apply pres_Parser_ParseWithClaims; assumption. Qed.

Lemma pres_CreateToken (c : gmap string Value) : preserves R (CreateToken c).
Proof. apply pres_ret; assumption. Qed.

Lemma pres_CreateTokenPair (a r : gmap string Value) : preserves R (CreateTokenPair a r).
Proof. apply pres_ret; assumption. Qed.

End preservation_ops.

#[global] Hint Resolve pres_GetAccount pres_GetProfile pres_Redis_Get pres_generateSalt
  pres_hashPassword pres_uuid_New_String pres_ParseToken pres_CreateToken
  pres_CreateTokenPair : preserve.

(** ** What every request keeps *)

Ltac unique_step := unfold unique_kept; cbn; auto.
Ltac sessions_step :=
  unfold sessions_kept; cbn; intros ? ?;
  first [assumption | rewrite lookup_insert_is_Some'; right; assumption].

Ltac verified_step :=
  unfold verified_only; cbn;
  apply Forall2_fmap_r, Forall_Forall2_diag, Forall_forall;
  intros ? _; unfold compose; destruct (decide _); auto.

Section invariants.
Context `{BcryptPrims} `{JwtPrims} `{Globals} `{JWTHelper}.

Lemma unique_insertAccountTx (a : Account) : preserves unique_kept (insertAccountTx a).
Proof.
  intros w Hu. unfold insertAccountTx. rewrite run_bind, run_call.
  destruct (oracle w _); try exact Hu.
  mrun. change (existsb _ (db_account w)) with (duplicate a (db_account w)).
  destruct (duplicate a (db_account w)) eqn:Hd; cbn; [exact Hu|].
  apply unique_keys_insert; assumption.
Qed.

Lemma unique_InsertAccount (a : Account) : preserves unique_kept (InsertAccount a).
Proof.
  unfold InsertAccount, GenerateUUID.
  apply (pres_bind unique_kept); [|intros ?; apply unique_insertAccountTx].
  preserve_with unique_step.
Qed.

Lemma unique_update_where_id (c : Call) (tag id : string) (upd : Account -> Account) :
  (forall r, AccountID (upd r) = AccountID r /\ Email (upd r) = Email r) ->
  preserves unique_kept (update_where_id c tag id upd).
Proof.
  intros Hupd. unfold update_where_id.
  apply (pres_bind unique_kept); [auto with preserve|]. intros f.
  destruct f; try (apply pres_ret; exact _).
  apply (pres_bind unique_kept); [|intros ?; apply pres_ret; exact _].
  apply (pres_modify unique_kept). intros w Hu. cbn.
  apply unique_keys_update; [|exact Hu].
  intros r. destruct (decide _); [apply Hupd | split; reflexivity].
Qed.

Lemma unique_UpdateIsVerified (id : string) (b : bool) :
  preserves unique_kept (UpdateIsVerified id b).
Proof. apply unique_update_where_id. intros r. split; reflexivity. Qed.

Lemma unique_UpdateSaltAndPassword (a : Account) :
  preserves unique_kept (UpdateSaltAndPassword a).
Proof. apply unique_update_where_id. intros r. split; reflexivity. Qed.

Lemma unique_UpdatePasswordToken (a : Account) :
  preserves unique_kept (UpdatePasswordToken a).
Proof. apply unique_update_where_id. intros r. split; reflexivity. Qed.

Lemma unique_InsertProfile (p : Profile) : preserves unique_kept (InsertProfile p).
Proof. unfold InsertProfile. preserve_with unique_step. Qed.

Lemma unique_SendMail (to : list string) (subject msg : string) :
  preserves unique_kept (SendMail to subject msg).
Proof. unfold SendMail. preserve_with unique_step. Qed.

Lemma unique_Redis_Set (k v : string) (e : Z) : preserves unique_kept (Redis_Set k v e).
Proof. unfold Redis_Set. preserve_with unique_step. Qed.

Lemma unique_Redis_Delete (k : string) : preserves unique_kept (Redis_Delete k).
Proof. unfold Redis_Delete. preserve_with unique_step. Qed.

Lemma sessions_insertAccountTx (a : Account) : preserves sessions_kept (insertAccountTx a).
Proof. unfold insertAccountTx. preserve_with sessions_step. Qed.

Lemma sessions_update_where_id (c : Call) (tag id : string) (upd : Account -> Account) :
  preserves sessions_kept (update_where_id c tag id upd).
Proof. unfold update_where_id. preserve_with sessions_step. Qed.

Lemma sessions_InsertProfile (p : Profile) : preserves sessions_kept (InsertProfile p).
Proof. unfold InsertProfile. preserve_with sessions_step. Qed.

Lemma sessions_SendMail (to : list string) (subject msg : string) :
  preserves sessions_kept (SendMail to subject msg).
Proof. unfold SendMail. preserve_with sessions_step. Qed.

Lemma sessions_Redis_Set (k v : string) (e : Z) : preserves sessions_kept (Redis_Set k v e).
Proof. unfold Redis_Set. preserve_with sessions_step. Qed.

End invariants.

#[global] Hint Resolve unique_insertAccountTx unique_InsertAccount unique_UpdateIsVerified
  unique_UpdateSaltAndPassword unique_UpdatePasswordToken unique_InsertProfile
  unique_SendMail unique_Redis_Set unique_Redis_Delete
  sessions_insertAccountTx sessions_update_where_id sessions_InsertProfile
  sessions_SendMail sessions_Redis_Set : preserve.

Section request_invariants.
Context `{BcryptPrims} `{JwtPrims} `{Globals} `{JWTHelper}.

Lemma unique_createTokenPair (a : Account) (p : Profile) :
  preserves unique_kept (createTokenPair a p).
Proof. unfold createTokenPair. preserve_with unique_step. Qed.

Lemma sessions_createTokenPair (a : Account) (p : Profile) :
  preserves sessions_kept (createTokenPair a p).
Proof. unfold createTokenPair. preserve_with sessions_step. Qed.

Lemma sessions_InsertAccount (a : Account) : preserves sessions_kept (InsertAccount a).
Proof. unfold InsertAccount, GenerateUUID. preserve_with sessions_step. Qed.

Hint Resolve unique_createTokenPair sessions_createTokenPair sessions_InsertAccount : preserve.

(** X4. The unique keys of the account table are an invariant of the
    usecase: whatever the request, its arguments, the faults of the
    collaborators and the entropy left, if no two account rows share an
    email or an id before the request, none do after it (also when the
    request fails or panics). *)
Theorem X4_requests_keep_account_keys_unique (r : Request) (w : World) :
  unique_keys (db_account w) -> unique_keys (db_account (serve r w)).
Proof.
  revert w. change (forall w, unique_kept w (serve r w)).
  destruct r; cbn [serve];
    [ change (preserves unique_kept (SignUp account profile)); unfold SignUp
    | change (preserves unique_kept (VerifyEmail token)); unfold VerifyEmail
    | change (preserves unique_kept (Login account)); unfold Login
    | change (preserves unique_kept (RefreshToken refreshToken)); unfold RefreshToken
    | change (preserves unique_kept (ResetPassword email)); unfold ResetPassword
    | change (preserves unique_kept (ChangePassword token password)); unfold ChangePassword
    | change (preserves unique_kept (SignOut accessToken refreshToken)); unfold SignOut ];
    preserve_with unique_step.
Qed.

(** X5. No request other than [SignOut] removes a session: a session id
    registered in the session store before [SignUp], [VerifyEmail],
    [Login], [RefreshToken], [ResetPassword] or [ChangePassword] is still
    registered after it, whatever the outcome. In particular
    [RefreshToken] does not revoke the refresh session it was given. *)
Theorem X5_only_sign_out_removes_sessions (r : Request) (w : World) (k : string) :
  (forall a b, r <> ReqSignOut a b) ->
  is_Some (redis w !! k) -> is_Some (redis (serve r w) !! k).
Proof.
  intros Hr. revert k. change (sessions_kept w (serve r w)). revert w.
  destruct r; cbn [serve];
    [ change (preserves sessions_kept (SignUp account profile)); unfold SignUp
    | change (preserves sessions_kept (VerifyEmail token)); unfold VerifyEmail, UpdateIsVerified
    | change (preserves sessions_kept (Login account)); unfold Login
    | change (preserves sessions_kept (RefreshToken refreshToken)); unfold RefreshToken
    | change (preserves sessions_kept (ResetPassword email));
      unfold ResetPassword, UpdatePasswordToken
    | change (preserves sessions_kept (ChangePassword token password));
      unfold ChangePassword, UpdateSaltAndPassword, UpdatePasswordToken
    | exfalso; eapply Hr; reflexivity ];
    preserve_with sessions_step.
Qed.

(** X6. [VerifyEmail] writes nothing but the verified flag: after it, the
    account table has the same rows in the same order, each either
    untouched or with [IsVerified] set to true and every other field as
    before; no row is added or removed and no flag is cleared. *)
Theorem X6_verify_email_only_sets_the_flag (token : string) (w : World) :
  verified_only w (VerifyEmail token w).2.
Proof.
  revert w. change (preserves verified_only (VerifyEmail token)).
  assert (Hupd : forall id, preserves verified_only (UpdateIsVerified id true)).
  { intros id. unfold UpdateIsVerified, update_where_id.
    preserve_with verified_step. }
  unfold VerifyEmail. preserve_with idtac.
Qed.

End request_invariants.

(** ** The repository: what is inserted is what is found *)

Section repository_round_trip.
Context `{BcryptPrims} `{JwtPrims} `{Globals} `{JWTHelper}.

Lemma insertAccountTx_inserted (a a' : Account) (w w' : World) :
  insertAccountTx a w = (Ret (Some a', None), w') ->
  a' = a /\ duplicate a (db_account w) = false
  /\ w' = set_db_account (db_account w ++ [a]) (set_trace (trace w ++ [DbInsertAccount a]) w).
Proof.
  unfold insertAccountTx. rewrite run_bind, run_call.
  destruct (oracle w _); try (intros [= ]; fail).
  mrun. change (existsb _ (db_account w)) with (duplicate a (db_account w)).
  destruct (duplicate a (db_account w)); cbn; [discriminate|].
  intros [= <- <-]. repeat split.
Qed.

Lemma InsertAccount_inserted (account a' : Account) (w w' : World) :
  InsertAccount account w = (Ret (Some a', None), w') ->
  duplicate a' (db_account w) = false
  /\ db_account w' = (db_account w ++ [a'])%list
  /\ oracle w' = oracle w
  /\ Email a' = Email account
  /\ (AccountID account <> "" -> a' = account).
Proof.
  unfold InsertAccount. rewrite run_bind.
  destruct (decide (AccountID account = "")) as [Hid|Hid].
  - rewrite run_bind. unfold GenerateUUID.
    destruct (uuid_New_String w) as [[i|msg] w1] eqn:E; [|discriminate].
    destruct (uuid_New_String_quiet _ _ _ E) as (D1 & _ & _ & _ & _ & F1 & _).
    cbn. intros Hrun. apply insertAccountTx_inserted in Hrun as (-> & Hd & ->).
    cbn. rewrite <- D1, <- F1. repeat split; [exact Hd | contradiction].
  - cbn. intros Hrun. apply insertAccountTx_inserted in Hrun as (-> & Hd & ->).
    repeat split; exact Hd.
Qed.

Lemma find_app_new {A : Type} (P : A -> bool) (l : list A) (a : A) :
  (forall r, r ∈ l -> P r = false) -> P a = true ->
  List.find P (l ++ [a])%list = Some a.
Proof.
  intros Hl Ha. induction l as [|r l IH]; cbn.
  - rewrite Ha. reflexivity.
  - rewrite (Hl r) by apply list_elem_of_here.
    apply IH. intros r' Hr'. apply Hl. apply list_elem_of_further. exact Hr'.
Qed.

Lemma duplicate_none (a : Account) (rows : list Account) (r : Account) :
  duplicate a rows = false -> r ∈ rows ->
  AccountID r <> AccountID a /\ Email r <> Email a.
Proof.
  intros Hd Hr. destruct (duplicate_false _ _ Hd) as [He Hi].
  split; intros E.
  - apply Hi. rewrite <- E. apply list_elem_of_fmap_2. exact Hr.
  - apply He. rewrite <- E. apply list_elem_of_fmap_2. exact Hr.
Qed.

(** X7. Round trip through the account repository: an account that
    [InsertAccount] returned is the one a later [GetAccount] yields, on a
    reachable database, for every filter that names its email or its id
    (at least one of them) and matches it. The stored row and the returned
    one agree in every field, and the row carries the email passed in. *)
Theorem X7_inserted_account_is_found
  (account inserted : Account) (filter : AccountFilter) (w w1 : World) :
  InsertAccount account w = (Ret (Some inserted, None), w1) ->
  oracle w1 (length (trace w1)) = Healthy ->
  selects filter inserted = true ->
  fEmail filter <> "" \/ fAccountID filter <> "" ->
  GetAccount filter w1
  = (Ret (Some inserted, None), set_trace (trace w1 ++ [DbGetAccount filter]) w1)
  /\ Email inserted = Email account.
Proof.
  intros Hins Ho Hsel Hnamed.
  destruct (InsertAccount_inserted _ _ _ _ Hins) as (Hd & Hdb & _ & Hem & _).
  split; [|exact Hem].
  apply GetAccount_found; [exact Ho|]. rewrite Hdb.
  apply find_app_new; [|exact Hsel].
  intros r Hr. destruct (duplicate_none _ _ _ Hd Hr) as [Hi He].
  unfold selects in *.
  apply andb_true_iff in Hsel as [Hse Hsi].
  destruct Hnamed as [Hn|Hn].
  - destruct (decide (fEmail filter = "")); [contradiction|].
    apply bool_decide_eq_true in Hse.
    rewrite bool_decide_eq_false_2 by congruence. reflexivity.
  - destruct (decide (fAccountID filter = "")); [contradiction|].
    apply bool_decide_eq_true in Hsi.
    rewrite (bool_decide_eq_false_2 (AccountID r = fAccountID filter)) by congruence.
    apply andb_false_r.
Qed.


End repository_round_trip.

(** ** Changing the password *)

Section change_password_facts.
Context `{BcryptPrims} `{JwtPrims} `{Globals} `{JWTHelper}.

Lemma hashPassword_verifies (p s : list byte) (w w' : World) (h : string) :
  BcryptLawful ->
  hashPassword p s w = (Ret (h, None), w') ->
  comparePassword p s (bytes h) = (None, true).
Proof.
  intros Hlaw Hhash. destruct (hashPassword_stored _ _ _ _ _ Hhash) as [Hn ->].
  apply comparePassword_stored; [exact Hlaw| |reflexivity].
  split; [cbn; unfold MinCost, MaxCost; lia|]. split.
  - cbn. rewrite length_take. unfold maxSaltSize. lia.
  - apply (proj1 Hlaw).
Qed.


(** What a [ChangePassword] that returned no error has done. *)
Lemma ChangePassword_done (token password : string) (w w' : World) :
  ChangePassword token password w = (Ret None, w') ->
  exists (tok : Token) (email : string) (a : Account) (salt : list byte) (h : string),
    ParseToken token w = (Ret (Some tok, None), w)
    /\ Claims tok !! "email" = Some (VString email)
    /\ List.find (selects (mkAccountFilter email "")) (db_account w) = Some a
    /\ PasswordToken a = token
    /\ db_account w'
       = storeToken (AccountID a) "" <$> (storeSecret (AccountID a) salt h <$> db_account w)
    /\ clock w' = clock w /\ oracle w' = oracle w /\ redis w' = redis w.
Proof.
  unfold ChangePassword. rewrite run_bind.
  destruct (ParseToken_pure token w) as [[tok err] Hparse]. rewrite Hparse.
  destruct err as [e|]; [discriminate|].
  destruct tok as [tok|]; [|discriminate].
  mrun.
  destruct (Claims tok !! "exp") as [[]|]; try discriminate.
  destruct (Claims tok !! "email") as [[| |email| |]|] eqn:Hemail; try discriminate.
  cbn.
  destruct (After _ _); [discriminate|].
  unfold GetAccount at 1. mrun.
  destruct (failed _); [discriminate|]. cbn.
  destruct (List.find _ (db_account w)) as [a|] eqn:Hfind; [|discriminate]. cbn.
  destruct (bool_decide (token = PasswordToken a)) eqn:Htok; [|discriminate].
  apply bool_decide_eq_true in Htok. cbn.
  destruct (generateSalt _) as [[[salt [e|]]|msg] w1] eqn:Hsalt; try discriminate.
  apply generateSalt_quiet in Hsalt as (D1 & _ & R1 & _ & C1 & F1 & _).
  destruct (hashPassword _ _ w1) as [[[h [e|]]|msg] w2] eqn:Hhash; try discriminate.
  apply hashPassword_quiet in Hhash as (D2 & _ & R2 & _ & C2 & F2 & _).
  unfold UpdateSaltAndPassword, UpdatePasswordToken, update_where_id, call. mrun.
  destruct (oracle w2 _); try discriminate. cbn.
  destruct (oracle w2 _); try discriminate. cbn.
  intros [= <-]. cbn.
  exists tok, email, a, salt, h. rewrite D2, D1, C2, C1, F2, F1, R2, R1. cbn.
  repeat split; auto.
Qed.

(** The claims of a token do not depend on when it is parsed. *)
Lemma ParseToken_claims (t : string) (w v w' v' : World) (tok tok' : Token)
  (e e' : option error) :
  ParseToken t w = (Ret (Some tok, e), w') ->
  ParseToken t v = (Ret (Some tok', e'), v') ->
  Claims tok' = Claims tok.
Proof.
  unfold ParseToken, Parser_ParseWithClaims.
  destruct (segments t) as [[[alg payload] sig]|]; [|discriminate].
  destruct (decide (alg ∈ registered_methods)).
  - destruct SkipClaimsValidation; mrun.
    + destruct (_ =? 0); intros [= <- _ _] [= <- _ _]; reflexivity.
    + destruct (_ =? 0); destruct (_ =? 0);
        intros [= <- _ _] [= <- _ _]; reflexivity.
  - intros [= <- _ _] [= <- _ _]. reflexivity.
Qed.


Lemma selects_storeSecret (filter : AccountFilter) (id : string) (salt : list byte)
  (h : string) (r : Account) :
  selects filter (storeSecret id salt h r) = selects filter r.
Proof. unfold storeSecret. destruct (decide _); reflexivity. Qed.

Lemma selects_storeToken (filter : AccountFilter) (id token : string) (r : Account) :
  selects filter (storeToken id token r) = selects filter r.
Proof. unfold storeToken. destruct (decide _); reflexivity. Qed.



(** X11. A reset token is used up by the change it authorises. After a
    [ChangePassword] that returned no error, presenting the same (non-empty)
    token again, while it still parses and has not expired and the database
    is reachable, is refused with the error tagged CPW03 and the
    invalid-token message, and writes nothing. *)
Theorem X11_reset_token_is_single_use
  (token password password' : string) (tok : Token) (exp d : Z) (w w1 : World) :
  ChangePassword token password w = (Ret None, w1) ->
  token <> "" ->
  let w2 := elapse d w1 in
  ParseToken token w2 = (Ret (Some tok, None), w2) ->
  Claims tok !! "exp" = Some (VFloat64 exp) ->
  clock w2 <= ofUnix exp ->
  oracle w2 (length (trace w2)) = Healthy ->
  exists (a' : Account) (w3 : World),
    ChangePassword token password' w2
    = (Ret (Some (CError "CPW03"
         (Some (ErrorString
            ("token is different from token from database. email : " +:+ Email a')))
         FRIENDLY_INVALID_TOKEN TYPE_UNSET)), w3)
    /\ db_account w3 = db_account w2.
Proof.
  intros Hdone Hne w2 Hparse2 Hexp Hlive Ho.
  destruct (ChangePassword_done _ _ _ _ Hdone)
    as (tok0 & email & a & salt & h & Hparse & Hemail & Hfind & Htok & Hdb & _).
  rewrite <- (ParseToken_claims _ _ _ _ _ _ _ _ _ Hparse Hparse2) in Hemail.
  set (a' := storeToken (AccountID a) "" (storeSecret (AccountID a) salt h a)).
  assert (Hfind2 : List.find (selects (mkAccountFilter email "")) (db_account w2)
                   = Some a').
  { cbn. rewrite Hdb.
    rewrite (find_selects_fmap _ _ _ (selects_storeToken _ _ _)).
    rewrite (find_selects_fmap _ _ _ (selects_storeSecret _ _ _ _)).
    rewrite Hfind. reflexivity. }
  assert (Hblank : PasswordToken a' = "").
  { unfold a', storeToken, storeSecret.
    destruct (decide (AccountID a = AccountID a)); [cbn | congruence].
    destruct (decide (AccountID a = AccountID a)); [reflexivity | congruence]. }
  unfold ChangePassword. mrun.
  rewrite Hparse2, Hexp, Hemail.
  unfold After. destruct (Z.ltb_spec (ofUnix exp) (clock w2)) as [Hlt|_]; [lia|].
  rewrite (GetAccount_found _ _ _ Ho Hfind2), Hblank.
  rewrite bool_decide_eq_false_2 by exact Hne. cbn.
  eexists _, _. split; reflexivity.
Qed.

End change_password_facts.

(** ** Asking for a password reset *)

Section reset_password_facts.
Context `{BcryptPrims} `{JwtPrims} `{Globals} `{JWTHelper}.

(** X13. [ResetPassword] looks only at the account [GetAccount] returned,
    not at its error: when the lookup fails, because the database is
    unreachable as much as because no row has the email, the result is
    the error tagged RPA00 of type not-found with an empty friendly
    message, and nothing is written or mailed. *)
Theorem X13_reset_password_reports_any_lookup_failure_as_not_found
  (email : string) (w : World) :
  oracle w (length (trace w)) <> Healthy
  \/ List.find (selects (mkAccountFilter email "")) (db_account w) = None ->
  ResetPassword email w
  = (Ret (Some (CError "RPA00" (Some (ErrorString ("email " +:+ email +:+ " is not found")))
                       (FriendlyLiteral "") TYPE_NOT_FOUND)),
     set_trace (trace w ++ [DbGetAccount (mkAccountFilter email "")]) w).
Proof.
  intros Hmiss. unfold ResetPassword, CreateToken, GetAccount, call. mrun.
  destruct Hmiss as [Hdown|Hnone].
  - destruct (oracle w (length (trace w))); [contradiction|..]; reflexivity.
  - destruct (failed _); cbn; [reflexivity|]. rewrite Hnone. reflexivity.
Qed.

(** X14. When the reset mail cannot be sent, [ResetPassword] returns the
    mail error, but the token it minted has already been stored on the
    account and stays there: the account table is the one a successful
    call leaves, and the outbox is as before. *)
Theorem X14_reset_password_keeps_token_when_mail_fails
  (email : string) (a : Account) (w : World) :
  (forall i, (i < 2)%nat -> oracle w (length (trace w) + i)%nat = Healthy) ->
  oracle w (length (trace w) + 2)%nat <> Healthy ->
  List.find (selects (mkAccountFilter email "")) (db_account w) = Some a ->
  IsVerified a = true ->
  exists w' : World,
    ResetPassword email w = (Ret (Some ErrSMTP), w')
    /\ db_account w'
       = storeToken (AccountID a) (resetToken email (clock w)) <$> db_account w
    /\ List.find (selects (mkAccountFilter email "")) (db_account w')
       = Some (setPasswordToken (resetToken email (clock w)) a)
    /\ outbox w' = outbox w.
Proof.
  intros Horacle Hfail Hfind Hver.
  assert (Ho0 := Horacle 0%nat ltac:(lia)). rewrite Nat.add_0_r in Ho0.
  unfold ResetPassword, CreateToken. mrun.
  rewrite (GetAccount_found _ _ _ Ho0 Hfind), Hver. cbn.
  unfold UpdatePasswordToken.
  rewrite update_where_id_run
    by (cbn; rewrite length_app; apply Horacle; cbn; lia).
  cbn. unfold SendMail, call. mrun.
  rewrite !length_app, <- Nat.add_assoc. cbn.
  destruct (oracle w (length (trace w) + 2)) eqn:Ho2; [contradiction|..];
    cbn; eexists; (split; [reflexivity|]); cbn;
    (split; [reflexivity|]); (split; [|reflexivity]);
    rewrite find_selects_fmap by (intros r; destruct (decide _); reflexivity);
    rewrite Hfind; cbn;
    (destruct (decide (AccountID a = AccountID a)); [reflexivity | congruence]).
Qed.

End reset_password_facts.

(** ** From sign-up to the first login *)

Section sign_up_facts.
Context `{BcryptPrims} `{JwtPrims} `{Globals} `{JWTHelper}.

Lemma duplicate_fresh (a : Account) (rows : list Account) :
  Email a ∉ Email <$> rows -> AccountID a ∉ AccountID <$> rows ->
  duplicate a rows = false.
Proof.
  unfold duplicate. induction rows as [|r rows IH]; cbn; [reflexivity|].
  rewrite !not_elem_of_cons. intros [He Hes] [Hi His].
  rewrite (bool_decide_eq_false_2 (AccountID r = AccountID a)) by congruence.
  rewrite (bool_decide_eq_false_2 (Email r = Email a)) by congruence.
  cbn. apply IH; assumption.
Qed.

Lemma insertAccountTx_run (a : Account) (w : World) :
  oracle w (length (trace w)) = Healthy ->
  duplicate a (db_account w) = false ->
  insertAccountTx a w
  = (Ret (Some a, None),
     set_db_account (db_account w ++ [a]) (set_trace (trace w ++ [DbInsertAccount a]) w)).
Proof.
  intros Ho Hd. unfold insertAccountTx. rewrite run_bind, run_call, Ho.
  mrun. change (existsb _ (db_account w)) with (duplicate a (db_account w)).
  rewrite Hd. reflexivity.
Qed.

Lemma InsertProfile_run (p : Profile) (w : World) :
  oracle w (length (trace w)) = Healthy ->
  InsertProfile p w
  = (Ret None, set_db_profile (db_profile w ++ [p]) (set_trace (trace w ++ [DbInsertProfile p]) w)).
Proof. intros Ho. unfold InsertProfile, call. mrun. rewrite Ho. reflexivity. Qed.

Lemma SendMail_run (to : list string) (subject msg : string) (w : World) :
  oracle w (length (trace w)) = Healthy ->
  SendMail to subject msg w
  = (Ret None, set_outbox (outbox w ++ [mkMail to subject msg])
                 (set_trace (trace w ++ [SendMailTo (mkMail to subject msg)]) w)).
Proof. intros Ho. unfold SendMail, call. mrun. rewrite Ho. reflexivity. Qed.

(** The claims of an email token, as the parser hands them back. *)
Lemma emailClaims_exp (uuid email : string) (t : Z) :
  (unmarshal <$> (marshal <$> emailClaims uuid email t)) !! "exp"
  = Some (VFloat64 (Unix (t + 15 * Minute))).
Proof. rewrite payload_lookup. unfold emailClaims. rewrite lookup_insert_eq. reflexivity. Qed.

Lemma emailClaims_email (uuid email : string) (t : Z) :
  (unmarshal <$> (marshal <$> emailClaims uuid email t)) !! "email" = Some (VString email).
Proof.
  rewrite payload_lookup. unfold emailClaims.
  rewrite lookup_insert_ne by discriminate. rewrite lookup_insert_eq. reflexivity.
Qed.

Lemma emailClaims_valid (uuid email : string) (t now : Z) :
  now <= Unix (t + 15 * Minute) ->
  (MapClaims_Valid (unmarshal <$> (marshal <$> emailClaims uuid email t)) now).2 = 0.
Proof.
  intros Hlive. unfold MapClaims_Valid, VerifyExpiresAt, VerifyIssuedAt, VerifyNotBefore.
  rewrite emailClaims_exp. rewrite !payload_lookup. unfold emailClaims.
  rewrite !lookup_insert_ne by discriminate. cbn.
  unfold verifyExp. destruct (_ =? 0); [reflexivity|].
  destruct (Z.leb_spec now (Unix (t + 15 * Minute))); [reflexivity | lia].
Qed.

(** A run of [SignUp] in which every collaborator answers and no row has
    the email or the id. *)
Lemma SignUp_run (account : Account) (profile : Profile) (w : World) :
  BcryptLawful ->
  (80 <= length (entropy w))%nat ->
  (forall i, (i < 3)%nat -> oracle w (length (trace w) + i)%nat = Healthy) ->
  let id := if decide (AccountID account = "") then nextUuid (drop 64 (entropy w))
            else AccountID account in
  Email account ∉ Email <$> db_account w ->
  id ∉ AccountID <$> db_account w ->
  exists (h : string) (w' : World),
    let inserted :=
      signedUpAccount account id (take 32 (entropy w)) h
        (SignedString (emailClaims (nextUuid (drop 48 (entropy w))) (Email account) (clock w))
                      JWT_SECRET) in
    comparePassword (bytes (Password account)) (take 32 (entropy w)) (bytes h) = (None, true)
    /\ SignUp account profile w
       = (Ret (Some inserted, Some (setProfileAccountID id profile), None), w')
    /\ db_account w' = (db_account w ++ [inserted])%list
    /\ db_profile w' = (db_profile w ++ [setProfileAccountID id profile])%list
    /\ outbox w'
       = (outbox w ++ [mkMail [Email account] EmailVerification_Subject
                         (VERIFY_EMAIL_TEMPLATE (generateEmailConfirmationUrl inserted))])%list
    /\ clock w' = clock w /\ oracle w' = oracle w /\ redis w' = redis w
    /\ length (trace w') = (length (trace w) + 3)%nat.
Proof.
  intros Hlaw Hent Horacle id Hemail Hid.
  unfold SignUp. rewrite run_bind.
  rewrite generateSalt_run by lia. cbn.
  rewrite run_bind.
  match goal with
  | |- context [hashPassword ?p ?s ?w] =>
      destruct (hashPassword_run p s w) as [h Hh];
      [cbn; rewrite length_drop; lia | rewrite Hh]
  end.
  assert (Hcmp := hashPassword_verifies _ _ _ _ _ Hlaw Hh).
  exists h. cbn. rewrite run_bind.
  rewrite uuid_New_String_run by (cbn; rewrite !length_drop; lia).
  cbn. rewrite !drop_drop. cbn.
  set (tok := SignedString (emailClaims (nextUuid (drop 48 (entropy w))) (Email account) (clock w)) JWT_SECRET).
  set (acct := setEmailToken tok (setPassword h (setSalt (take 32 (entropy w)) account))).
  set (w1 := set_entropy (drop 64 (entropy w)) _).
  assert (Hins : exists w2, InsertAccount acct w1
                 = (Ret (Some (signedUpAccount account id (take 32 (entropy w)) h tok), None), w2)
                 /\ db_account w2 = (db_account w ++ [signedUpAccount account id (take 32 (entropy w)) h tok])%list
                 /\ db_profile w2 = db_profile w /\ outbox w2 = outbox w /\ clock w2 = clock w
                 /\ oracle w2 = oracle w /\ redis w2 = redis w
                 /\ length (trace w2) = (length (trace w) + 1)%nat).
  { assert (Ho0 := Horacle 0%nat ltac:(lia)). rewrite Nat.add_0_r in Ho0.
    unfold InsertAccount, GenerateUUID. rewrite run_bind. subst id.
    destruct (decide (AccountID account = "")) as [Hblank|Hset].
    - change (AccountID acct) with (AccountID account).
      destruct (decide (AccountID account = "")); [|contradiction].
      rewrite run_bind.
      rewrite uuid_New_String_run by (cbn; rewrite length_drop; lia).
      cbn. rewrite insertAccountTx_run; [|exact Ho0|apply duplicate_fresh; assumption].
      eexists. split; [reflexivity|]. cbn. rewrite length_app. cbn. repeat split; reflexivity.
    - change (AccountID acct) with (AccountID account).
      destruct (decide (AccountID account = "")); [contradiction|].
      cbn. 
      assert (Hsame : signedUpAccount account (AccountID account) (take 32 (entropy w)) h tok = acct)
        by (destruct account; reflexivity).
      rewrite Hsame.
      rewrite insertAccountTx_run; [|exact Ho0|apply duplicate_fresh; assumption].
      eexists. split; [reflexivity|]. cbn. rewrite length_app. cbn. repeat split; reflexivity. }
  destruct Hins as (w2 & Hins & D2 & P2 & O2 & C2 & F2 & R2 & T2).
  rewrite (run_bind_ret Now _ w1 w1 (clock w)) by reflexivity.
  unfold CreateToken.
  rewrite (run_bind_ret (mret _) _ w1 w1 _) by reflexivity.
  cbv beta iota. 
  change (InsertAccount _) with (InsertAccount acct).
  rewrite (run_bind_ret _ _ _ _ _ Hins). cbv beta iota.
  assert (Hsid : AccountID (signedUpAccount account id (take 32 (entropy w)) h tok) = id)
    by reflexivity.
  assert (Hsem : Email (signedUpAccount account id (take 32 (entropy w)) h tok) = Email account)
    by reflexivity.
  rewrite Hsid.
  rewrite run_bind, run_bind.
  rewrite InsertProfile_run by (rewrite F2, T2; apply Horacle; lia).
  cbn [mret M_ret fst snd]. cbv beta iota.
  rewrite run_bind; unfold deref at 1; cbv beta iota delta [mret M_ret].
  rewrite run_bind.
  rewrite SendMail_run
    by (cbn; rewrite F2, length_app, T2; cbn; rewrite <- Nat.add_assoc; apply Horacle; lia).
  cbn. eexists. split; [exact Hcmp|]. split; [reflexivity|]. cbn.
  rewrite D2, P2, O2, C2, F2, R2, !length_app, T2. cbn.
  repeat split; try reflexivity. lia.
Qed.

Lemma fmap_storeVerified_fresh (id : string) (rows : list Account) :
  id ∉ AccountID <$> rows -> storeVerified id <$> rows = rows.
Proof.
  induction rows as [|r rows IH]; cbn; [reflexivity|].
  rewrite not_elem_of_cons. intros [Hr Hrows].
  rewrite IH by exact Hrows. unfold storeVerified.
  destruct (decide (AccountID r = id)); [congruence | reflexivity].
Qed.

(** X15. From sign-up to login. When [SignUp] runs with every collaborator
    answering, 80 bytes of entropy and an email (not empty) and id that no
    row has, and the token it stored as [EmailToken] is presented to
    [VerifyEmail] before the Unix second of its expiry, 15 minutes later,
    has passed: both succeed; the account table is the old one followed by
    the new row with [IsVerified] set, no other row being touched; the
    email selects that row; and [comparePassword] accepts the sign-up
    password for it, so that the checks [Login] makes on it pass. *)
Theorem X15_sign_up_then_verify_email_opens_login
  (account : Account) (profile : Profile) (w : World) (d : Z) :
  BcryptLawful -> JwtLawful ->
  Email account <> "" ->
  (80 <= length (entropy w))%nat ->
  (forall i, (i < 5)%nat -> oracle w (length (trace w) + i)%nat = Healthy) ->
  let id := if decide (AccountID account = "") then nextUuid (drop 64 (entropy w))
            else AccountID account in
  Email account ∉ Email <$> db_account w ->
  id ∉ AccountID <$> db_account w ->
  clock w + d <= ofUnix (Unix (clock w + 15 * Minute)) ->
  exists (inserted : Account) (w1 w2 : World),
    SignUp account profile w
    = (Ret (Some inserted, Some (setProfileAccountID id profile), None), w1)
    /\ VerifyEmail (EmailToken inserted) (elapse d w1) = (Ret None, w2)
    /\ db_account w2 = (db_account w ++ [setIsVerified true inserted])%list
    /\ List.find (selects (mkAccountFilter (Email account) "")) (db_account w2)
       = Some (setIsVerified true inserted)
    /\ comparePassword (bytes (Password account)) (Salt inserted) (bytes (Password inserted))
       = (None, true).
Proof.
  intros Hlaw Hjwt Hne Hent Horacle id Hemail Hid Hlive.
  destruct (SignUp_run account profile w Hlaw Hent) as (h & w1 & Hrun); try assumption.
  { intros i Hi. apply Horacle. lia. }
  fold id in Hrun. cbv zeta in Hrun.
  set (uuid := nextUuid (drop 48 (entropy w))) in *.
  set (tok := SignedString (emailClaims uuid (Email account) (clock w)) JWT_SECRET) in *.
  set (inserted := signedUpAccount account id (take 32 (entropy w)) h tok) in *.
  destruct Hrun as (Hcmp & Hrun & D1 & _ & _ & C1 & F1 & _ & T1).
  assert (Hfresh : forall r, r ∈ db_account w ->
            selects (mkAccountFilter (Email account) "") r = false).
  { intros r Hr. unfold selects. cbn.
    destruct (decide (Email account = "")); [contradiction|].
    rewrite bool_decide_eq_false_2; [reflexivity|].
    intros E. apply Hemail. rewrite <- E. apply list_elem_of_fmap_2. exact Hr. }
  assert (Hsel : selects (mkAccountFilter (Email account) "") inserted = true).
  { unfold selects. cbn. destruct (decide (Email account = "")); [reflexivity|].
    rewrite bool_decide_eq_true_2 by reflexivity. reflexivity. }
  assert (Hfind : List.find (selects (mkAccountFilter (Email account) ""))
                    (db_account (elapse d w1)) = Some inserted).
  { cbn. rewrite D1. apply find_app_new; assumption. }
  assert (Hnow : Unix (clock (elapse d w1)) <= Unix (clock w + 15 * Minute)).
  { cbn. rewrite C1. apply Unix_le_ofUnix. exact Hlive. }
  assert (Hparse := ParseToken_minted (emailClaims uuid (Email account) (clock w))
                      (elapse d w1) Hjwt (emailClaims_valid _ _ _ _ Hnow)).
  fold tok in Hparse.
  exists inserted, w1. eexists. split; [exact Hrun|].
  change (EmailToken inserted) with tok.
  unfold VerifyEmail. mrun. rewrite Hparse. cbn.
  rewrite emailClaims_exp, emailClaims_email. cbn.
  unfold After.
  destruct (Z.ltb_spec (ofUnix (Unix (clock w + 15 * Minute))) (clock w1 + d)) as [Hlt|_];
    [rewrite C1 in Hlt; lia|].
  assert (Ho3 : oracle (elapse d w1) (length (trace (elapse d w1))) = Healthy).
  { cbn. rewrite F1, T1. apply Horacle. lia. }
  rewrite (GetAccount_found _ _ _ Ho3 Hfind). cbn.
  unfold UpdateIsVerified.
  rewrite update_where_id_run
    by (cbn; rewrite F1, length_app, T1; cbn; rewrite <- Nat.add_assoc; apply Horacle; lia).
  cbn. split; [reflexivity|]. cbn.
  assert (Hdb : (fun r => if decide (AccountID r = id) then setIsVerified true r else r)
                  <$> db_account w1
                = (db_account w ++ [setIsVerified true inserted])%list).
  { rewrite D1, fmap_app. f_equal.
    - apply (fmap_storeVerified_fresh id). exact Hid.
    - cbn. destruct (decide (id = id)); [reflexivity | congruence]. }
  rewrite Hdb. split; [reflexivity|]. split; [|exact Hcmp].
  apply find_app_new; assumption.
Qed.

Lemma duplicate_email (a r : Account) (rows : list Account) :
  r ∈ rows -> Email r = Email a -> duplicate a rows = true.
Proof.
  intros Hr He. unfold duplicate. apply existsb_exists. exists r.
  split; [apply list_elem_of_In; exact Hr|].
  rewrite (bool_decide_eq_true_2 (Email r = Email a)) by exact He. apply orb_true_r.
Qed.

Lemma insertAccountTx_duplicate (a : Account) (w : World) :
  oracle w (length (trace w)) = Healthy ->
  duplicate a (db_account w) = true ->
  insertAccountTx a w
  = (Ret (None, Some (CError "IA03" (Some (MySQLError 1062)) FRIENDLY_DUPLICATE_EMAIL
                             TYPE_UNSET)),
     set_trace (trace w ++ [DbInsertAccount a]) w).
Proof.
  intros Ho Hd. unfold insertAccountTx. rewrite run_bind, run_call, Ho.
  mrun. change (existsb _ (db_account w)) with (duplicate a (db_account w)).
  rewrite Hd. reflexivity.
Qed.

(** X19. [SignUp] with an email that a row of the account table already
    has is refused by the insert: with a reachable database and 80 bytes
    of entropy it returns the error tagged IA03 with the duplicate-email
    message, and no account row, no profile row and no mail is added. *)
Theorem X19_sign_up_refuses_a_registered_email
  (account : Account) (profile : Profile) (w : World) (r : Account) :
  (80 <= length (entropy w))%nat ->
  oracle w (length (trace w)) = Healthy ->
  r ∈ db_account w -> Email r = Email account ->
  exists w' : World,
    SignUp account profile w
    = (Ret (None, None, Some (CError "IA03" (Some (MySQLError 1062))
                                     FRIENDLY_DUPLICATE_EMAIL TYPE_UNSET)), w')
    /\ db_account w' = db_account w /\ db_profile w' = db_profile w
    /\ outbox w' = outbox w.
Proof.
  intros Hent Ho Hr He.
  unfold SignUp. rewrite run_bind.
  rewrite generateSalt_run by lia. cbn.
  rewrite run_bind.
  match goal with
  | |- context [hashPassword ?p ?s ?w] =>
      destruct (hashPassword_run p s w) as [h Hh];
      [cbn; rewrite length_drop; lia | rewrite Hh]
  end.
  cbn. rewrite run_bind.
  rewrite uuid_New_String_run by (cbn; rewrite !length_drop; lia).
  cbn. rewrite !drop_drop. cbn.
  set (w1 := set_entropy (drop 64 (entropy w)) _).
  rewrite (run_bind_ret Now _ w1 w1 (clock w)) by reflexivity.
  unfold CreateToken.
  rewrite (run_bind_ret (mret _) _ w1 w1 _) by reflexivity.
  cbv beta iota.
  match goal with |- context [InsertAccount ?a] => set (acct := a) end.
  assert (Hins : exists w2, InsertAccount acct w1
            = (Ret (None, Some (CError "IA03" (Some (MySQLError 1062))
                                       FRIENDLY_DUPLICATE_EMAIL TYPE_UNSET)), w2)
            /\ db_account w2 = db_account w /\ db_profile w2 = db_profile w
            /\ outbox w2 = outbox w).
  { unfold InsertAccount, GenerateUUID. rewrite run_bind.
    destruct (decide (AccountID acct = "")).
    - rewrite run_bind.
      rewrite uuid_New_String_run by (cbn; rewrite length_drop; lia).
      cbn. rewrite insertAccountTx_duplicate;
        [|exact Ho | apply (duplicate_email _ r); [exact Hr | exact He]].
      eexists. split; [reflexivity|]. repeat split.
    - cbn. rewrite insertAccountTx_duplicate;
        [|exact Ho | apply (duplicate_email _ r); [exact Hr | exact He]].
      eexists. split; [reflexivity|]. repeat split. }
  destruct Hins as (w2 & Hins & D2 & P2 & O2).
  rewrite (run_bind_ret _ _ _ _ _ Hins). cbv beta iota.
  exists w2. split; [reflexivity|]. repeat split; assumption.
Qed.

End sign_up_facts.

(** ** Sessions: refreshing and signing out *)

Section session_facts.
Context `{BcryptPrims} `{JwtPrims} `{Globals} `{JWTHelper}.

Lemma Redis_Get_live (k v : string) (e : Z) (w : World) :
  oracle w (length (trace w)) = Healthy ->
  redis w !! k = Some (v, e) -> Unix (clock w) < e ->
  Redis_Get k w = (Ret (v, None), set_trace (trace w ++ [RedisGet k]) w).
Proof.
  intros Ho Hk Hlive. unfold Redis_Get, call. mrun. rewrite Ho. cbn. rewrite Hk.
  unfold live. cbn. destruct (Z.ltb_spec (Unix (clock w)) e); [reflexivity | lia].
Qed.

(** X16. [RefreshToken] issues a new pair and keeps the old session. For a
    token the codec accepts, whose [refresh_uuid] names a live session with
    any non-empty value (the value is not compared with the token
    presented) and whose [account_id] selects an account with a profile,
    with the collaborators answering and 32 bytes of entropy: it returns a
    pair signed over that account and profile, registers the two new
    sessions, and, their ids being different from the old one, leaves the
    session of the token presented as it was. *)
Theorem X16_refresh_token_issues_a_pair_and_keeps_the_old_session
  (refreshToken : string) (tok : Token) (ruuid accountID v : string) (e : Z)
  (account : Account) (profile : Profile) (w : World) :
  ParseToken refreshToken w = (Ret (Some tok, None), w) ->
  Claims tok !! "refresh_uuid" = Some (VString ruuid) ->
  Claims tok !! "account_id" = Some (VString accountID) ->
  redis w !! ruuid = Some (v, e) -> v <> "" -> Unix (clock w) < e ->
  (forall i, (i < 5)%nat -> oracle w (length (trace w) + i)%nat = Healthy) ->
  (32 <= length (entropy w))%nat ->
  List.find (selects (mkAccountFilter "" accountID)) (db_account w) = Some account ->
  List.find (fun p => bool_decide (pAccountID p = accountID)) (db_profile w) = Some profile ->
  let au := nextUuid (entropy w) in
  let ru := nextUuid (drop 16 (entropy w)) in
  let at_ := SignedString (accessClaims account profile au (clock w)) JWT_SECRET in
  let rt := SignedString (refreshClaims account ru (clock w)) JWT_SECRET in
  exists w' : World,
    RefreshToken refreshToken w
    = (Ret (Some (mkJWTWrapper at_ rt (clock w + 1 * Hour)), None), w')
    /\ redis w' = <[ru := (rt, Unix (clock w + 1 * Hour))]>
                    (<[au := (at_, Unix (clock w + 15 * Minute))]> (redis w))
    /\ (au <> ruuid -> ru <> ruuid -> redis w' !! ruuid = Some (v, e)).
Proof.
  intros Hparse Hru Hid Hsess Hv Hlive Ho Hent Hfind Hprof au ru at_ rt.
  assert (Ho0 := Ho 0%nat ltac:(lia)). rewrite Nat.add_0_r in Ho0.
  unfold RefreshToken. mrun. rewrite Hparse, Hru.
  rewrite (Redis_Get_live _ _ _ _ Ho0 Hsess Hlive).
  destruct (decide (v = "")); [contradiction|].
  rewrite Hid. cbn.
  rewrite (GetAccount_found (mkAccountFilter "" accountID)) with (a := account);
    [|cbn; rewrite length_app; apply Ho; cbn; lia | exact Hfind].
  cbn.
  rewrite (GetProfile_found (mkProfileFilter accountID)) with (p := profile);
    [|cbn; rewrite !length_app, <- Nat.add_assoc; apply Ho; cbn; lia | exact Hprof].
  cbn.
  match goal with
  | |- context [createTokenPair ?a ?p ?w0] =>
      destruct (createTokenPair_both_sessions a p w0) as (w' & -> & Hr & _)
  end.
  - exact Hent.
  - cbn.
    match goal with
    | |- oracle w ?n = Healthy =>
        replace n with (length (trace w) + 3)%nat by (rewrite !length_app; cbn; lia)
    end.
    apply Ho. lia.
  - cbn.
    match goal with
    | |- oracle w ?n = Healthy =>
        replace n with (length (trace w) + 4)%nat by (rewrite !length_app; cbn; lia)
    end.
    apply Ho. lia.
  - exists w'. split; [reflexivity|]. split; [exact Hr|].
    intros Hau Hrn. rewrite Hr. cbn.
    rewrite !lookup_insert_ne by assumption. exact Hsess.
Qed.

(** X17. When the first deletion of [SignOut] succeeds and the second
    fails, it returns the error tagged SOU01; the access session is
    revoked and the store is otherwise as before, so a refresh session
    under another id is still registered. *)
Theorem X17_sign_out_revokes_access_when_second_deletion_fails
  (w : World) (accessToken refreshToken : Token) (atUUID rtUUID : string) :
  Claims accessToken !! "access_uuid" = Some (VString atUUID) ->
  Claims refreshToken !! "refresh_uuid" = Some (VString rtUUID) ->
  oracle w (length (trace w)) = Healthy ->
  oracle w (S (length (trace w))) <> Healthy ->
  exists w' : World,
    SignOut (Some accessToken) (Some refreshToken) w
    = (Ret (Some (CError "SOU01" (Some ErrRedis) FRIENDLY_MESSAGE TYPE_UNSET)), w')
    /\ redis w' = delete atUUID (redis w)
    /\ (rtUUID <> atUUID -> redis w' !! rtUUID = redis w !! rtUUID).
Proof.
  intros Hat Hrt Ho1 Ho2.
  unfold SignOut, Redis_Delete, call. mrun. rewrite Hat. cbn. rewrite Ho1. cbn.
  rewrite Hrt. cbn. rewrite length_app. cbn. rewrite Nat.add_1_r.
  destruct (oracle w (S (length (trace w)))); [contradiction|..]; cbn;
    (eexists; split; [reflexivity|]; cbn; split; [reflexivity|];
     intros Hne; apply lookup_delete_ne; congruence).
Qed.

(** X18. [SignOut] revokes the access session before it looks at the
    refresh token: when that token is nil, or has no string claim
    [refresh_uuid], [SignOut] panics, and the access session is already
    gone. *)
Theorem X18_sign_out_panics_after_revoking_access
  (w : World) (accessToken : Token) (refreshToken : option Token) (atUUID : string) :
  Claims accessToken !! "access_uuid" = Some (VString atUUID) ->
  (forall (t : Token) (s : string),
     refreshToken = Some t -> Claims t !! "refresh_uuid" <> Some (VString s)) ->
  oracle w (length (trace w)) = Healthy ->
  exists (msg : string) (w' : World),
    SignOut (Some accessToken) refreshToken w = (Panic msg, w')
    /\ redis w' = delete atUUID (redis w).
Proof.
  intros Hat Hrt Ho.
  unfold SignOut, Redis_Delete, call. mrun. rewrite Hat. cbn. rewrite Ho. cbn.
  destruct refreshToken as [t|]; cbn; [|eexists _, _; split; reflexivity].
  specialize (Hrt t).
  destruct (Claims t !! "refresh_uuid") as [[| |s| |]|]; cbn;
    try (eexists _, _; split; reflexivity).
  destruct (Hrt s eq_refl eq_refl).
Qed.

End session_facts.

(** ** The earlier usecase: tokens that are not on file *)

Section earlier_facts.
Context `{BcryptPrims} `{JwtPrims} `{Globals} `{JWTHelper} `{EarlierGlobals}.

Lemma earlier_comparePassword_agrees (p s h : list byte) :
  comparePassword p s h = (None, true) -> earlier.comparePassword p s h = (None, true).
Proof.
  unfold comparePassword, earlier.comparePassword.
  destruct (CompareHashAndPassword _ _); [discriminate | reflexivity].
Qed.

(** When the parser reports no error. *)
Lemma MapClaims_Valid_ok (m : gmap string Value) (now : Z) :
  (MapClaims_Valid m now).2 = 0
  <-> VerifyExpiresAt m now false = true /\ VerifyIssuedAt m now false = true
      /\ VerifyNotBefore m now false = true.
Proof.
  unfold MapClaims_Valid.
  destruct (VerifyExpiresAt m now false), (VerifyIssuedAt m now false),
    (VerifyNotBefore m now false); cbn; split; try discriminate; try tauto;
    intros (? & ? & ?); discriminate.
Qed.

Lemma parseJWT_accepts (t : string) (payload : gmap string Value) (w w' : World) :
  parseJWT t w = (Ret (payload, None), w') ->
  exists (alg : string) (body : gmap string JSON) (sig : string),
    segments t = Some (alg, body, sig) /\ alg ∈ registered_methods
    /\ Verify alg JWT_SECRET body sig = true
    /\ (MapClaims_Valid (unmarshal <$> body) (Unix (clock w))).2 = 0
    /\ payload = unmarshal <$> body.
Proof.
  unfold parseJWT, ParseWithClaims, Parser_ParseWithClaims. rewrite run_bind.
  destruct (segments t) as [[[alg body] sig]|]; [|discriminate].
  destruct (decide (alg ∈ registered_methods)) as [Hreg|]; [|discriminate].
  mrun. destruct (Verify alg JWT_SECRET body sig) eqn:Hsig.
  - destruct (Z.eqb_spec (MapClaims_Valid (unmarshal <$> body) (Unix (clock w))).2 0)
      as [Hz|_]; [|discriminate].
    cbn. intros [= <- _]. exists alg, body, sig. repeat split; assumption.
  - cbn.
    destruct (Z.eqb_spec (Z.lor (MapClaims_Valid (unmarshal <$> body) (Unix (clock w))).2
                                ValidationErrorSignatureInvalid) 0) as [Hz|_];
      [|discriminate].
    apply Z.lor_eq_0_iff in Hz as [_ Hz]. discriminate.
Qed.

Lemma parseJWT_accepted (t alg sig : string) (body : gmap string JSON) (w : World) :
  segments t = Some (alg, body, sig) -> alg ∈ registered_methods ->
  Verify alg JWT_SECRET body sig = true ->
  (MapClaims_Valid (unmarshal <$> body) (Unix (clock w))).2 = 0 ->
  parseJWT t w = (Ret (unmarshal <$> body, None), w).
Proof.
  intros Hseg Hreg Hsig Hvalid.
  unfold parseJWT, ParseWithClaims, Parser_ParseWithClaims. rewrite run_bind, Hseg.
  destruct (decide (alg ∈ registered_methods)); [|contradiction].
  mrun. rewrite Hsig, Hvalid. reflexivity.
Qed.

Lemma parseJWT_minted (claims : gmap string Value) (w : World) :
  JwtLawful ->
  (MapClaims_Valid (unmarshal <$> (marshal <$> claims)) (Unix (clock w))).2 = 0 ->
  parseJWT (SignedString claims JWT_SECRET) w
  = (Ret (unmarshal <$> (marshal <$> claims), None), w).
Proof.
  intros Hlaw Hvalid.
  apply (parseJWT_accepted _ "HS256" (hmac "HS256" JWT_SECRET (marshal <$> claims))).
  - apply Hlaw.
  - apply HS256_registered.
  - unfold Verify.
    destruct (decide ("HS256" ∈ hmac_methods)) as [_|Hn]; [|destruct (Hn HS256_hmac)].
    apply bool_decide_eq_true_2. reflexivity.
  - exact Hvalid.
Qed.

(** A token the parser accepted is accepted again later, as long as the
    second of its expiry claim has not passed. *)
Lemma parseJWT_later (token : string) (payload : gmap string Value) (exp : Z) (w v : World) :
  parseJWT token w = (Ret (payload, None), w) ->
  payload !! "exp" = Some (VFloat64 exp) ->
  clock w <= clock v -> Unix (clock v) <= exp ->
  parseJWT token v = (Ret (payload, None), v).
Proof.
  intros Hparse Hexp Hclk Hlive.
  destruct (parseJWT_accepts _ _ _ _ Hparse) as (alg & body & sig & Hseg & Hreg & Hsig & Hv & ->).
  apply (parseJWT_accepted _ _ _ _ _ Hseg Hreg Hsig).
  assert (Hmono : Unix (clock w) <= Unix (clock v)) by (apply Unix_mono; exact Hclk).
  apply MapClaims_Valid_ok in Hv as (_ & Hiat & Hnbf).
  apply MapClaims_Valid_ok. split; [|split].
  - unfold VerifyExpiresAt. rewrite Hexp. unfold verifyExp.
    destruct (exp =? 0); [reflexivity|]. apply Z.leb_le. exact Hlive.
  - revert Hiat. unfold VerifyIssuedAt, verifyIat.
    destruct (_ !! "iat") as [[| | | |iat]|]; try reflexivity.
    destruct (iat =? 0); [reflexivity|]. rewrite !Z.leb_le. lia.
  - revert Hnbf. unfold VerifyNotBefore, verifyNbf.
    destruct (_ !! "nbf") as [[| | | |nbf]|]; try reflexivity.
    destruct (nbf =? 0); [reflexivity|]. rewrite !Z.leb_le. lia.
Qed.

(** A run of the earlier [ChangePassword] with a token the parser accepts. *)
Lemma earlier_ChangePassword_run (token password email : string)
  (payload : gmap string Value) (exp : Z) (a : Account) (w : World) :
  BcryptLawful ->
  parseJWT token w = (Ret (payload, None), w) ->
  payload !! "exp" = Some (VFloat64 exp) ->
  payload !! "email" = Some (VString email) ->
  clock w <= ofUnix exp ->
  (forall i, (i < 2)%nat -> oracle w (length (trace w) + i)%nat = Healthy) ->
  (48 <= length (entropy w))%nat ->
  List.find (selects (mkAccountFilter email "")) (db_account w) = Some a ->
  exists (h : string) (w' : World),
    earlier.ChangePassword token password w = (Ret None, w')
    /\ earlier.comparePassword (bytes password) (take 32 (entropy w)) (bytes h) = (None, true)
    /\ db_account w' = storeSecret (AccountID a) (take 32 (entropy w)) h <$> db_account w
    /\ List.find (selects (mkAccountFilter email "")) (db_account w')
       = Some (setPassword h (setSalt (take 32 (entropy w)) a)).
Proof.
  intros Hlaw Hparse Hexp Hemail Hlive Horacle Hent Hfind.
  assert (Ho0 := Horacle 0%nat ltac:(lia)). rewrite Nat.add_0_r in Ho0.
  unfold earlier.ChangePassword. rewrite run_bind, Hparse. mrun.
  rewrite Hexp, Hemail.
  unfold After. destruct (Z.ltb_spec (ofUnix exp) (clock w)) as [Hlt|_]; [lia|].
  rewrite (GetAccount_found _ _ _ Ho0 Hfind). cbn.
  rewrite generateSalt_run by (refine (Nat.le_trans _ _ _ _ Hent); lia). cbn.
  match goal with
  | |- context [hashPassword ?p ?s ?w] =>
      destruct (hashPassword_run p s w) as [h Hh];
      [cbn; rewrite length_drop; lia | rewrite Hh]
  end.
  assert (Hcmp := hashPassword_verifies _ _ _ _ _ Hlaw Hh).
  cbn. unfold UpdateSaltAndPassword.
  rewrite update_where_id_run
    by (cbn; rewrite length_app; apply Horacle; cbn; lia).
  cbn. exists h. eexists. split; [reflexivity|].
  split; [apply earlier_comparePassword_agrees; exact Hcmp|].
  cbn. split; [reflexivity|].
  rewrite find_selects_fmap by (intros r; destruct (decide _); reflexivity).
  rewrite Hfind. cbn.
  destruct (decide (AccountID a = AccountID a)); [reflexivity | congruence].
Qed.

(** X12. The token-expired message of the earlier [VerifyEmail] and
    [ChangePassword] is reachable only in the last second of a token. Take
    a token whose numbers are whole numbers a float64 holds exactly. When
    either operation returns an error whose friendly message is the
    token-expired one, [parseJWT] has accepted the token, which has an
    expiry claim [exp], and the clock is past second [exp] but, unless
    [exp] is 0, not yet at second [exp + 1]: from that second on neither
    operation returns that message. *)
Theorem X12_expired_message_only_in_the_last_second
  (token password alg sig : string) (body : gmap string JSON) (w w' : World) (e : error) :
  segments token = Some (alg, body, sig) ->
  exact_numbers body ->
  earlier.VerifyEmail token w = (Ret (Some e), w')
  \/ earlier.ChangePassword token password w = (Ret (Some e), w') ->
  friendly_of e = Some FRIENDLY_TOKEN_EXPIRED ->
  exists exp : Z,
    parseJWT token w = (Ret (unmarshal <$> body, None), w)
    /\ body !! "exp" = Some (JNum exp)
    /\ ofUnix exp < clock w
    /\ (exp = 0 \/ clock w < ofUnix (exp + 1)).
Proof.
  intros Hseg _ Hrun Hfr.
  assert (Hout : exists err, parseJWT token w = (Ret (unmarshal <$> body, err), w)).
  { unfold parseJWT, ParseWithClaims, Parser_ParseWithClaims.
    rewrite run_bind, Hseg.
    destruct (decide (alg ∈ registered_methods)); [|eexists; reflexivity].
    mrun. destruct (_ =? 0); eexists; reflexivity. }
  assert (Hwin : forall exp,
            parseJWT token w = (Ret (unmarshal <$> body, None), w) ->
            (unmarshal <$> body) !! "exp" = Some (VFloat64 exp) ->
            After (clock w) (ofUnix exp) = true ->
            body !! "exp" = Some (JNum exp)
            /\ ofUnix exp < clock w /\ (exp = 0 \/ clock w < ofUnix (exp + 1))).
  { intros exp Hp Hexp Hafter. unfold After in Hafter. apply Z.ltb_lt in Hafter.
    split.
    { rewrite lookup_fmap in Hexp. destruct (body !! "exp") as [[| |z|]|]; try discriminate.
      cbn in Hexp. congruence. }
    split; [exact Hafter|].
    destruct (parseJWT_accepts _ _ _ _ Hp)
      as (alg' & body' & sig' & Hseg' & _ & _ & Hvalid & Hbody).
    rewrite Hseg in Hseg'. injection Hseg' as <- <- <-.
    apply MapClaims_Valid_ok in Hvalid as (Hlive & _ & _).
    revert Hlive. unfold VerifyExpiresAt. rewrite Hexp. unfold verifyExp.
    destruct (Z.eqb_spec exp 0) as [|_]; [left; assumption|].
    intros Hle. apply Z.leb_le in Hle. right. unfold Unix, ofUnix, Second in *.
    assert (Hd := Z.mul_succ_div_gt (clock w) 1000000000 ltac:(lia)). lia. }
  destruct Hout as [err Hparse].
  destruct Hrun as [Hrun|Hrun]; revert Hrun.
  - unfold earlier.VerifyEmail. rewrite run_bind, Hparse.
    destruct err as [e0|]; [intros [= <- _]; discriminate|].
    mrun.
    destruct ((unmarshal <$> body) !! "exp") as [[| | | |exp]|] eqn:Hexp; try discriminate.
    destruct ((unmarshal <$> body) !! "email") as [[| |email| |]|]; try discriminate.
    cbn. destruct (After _ _) eqn:Hafter.
    + intros _. exists exp. split; [reflexivity|]. apply (Hwin exp); auto.
    + unfold GetAccount, UpdateIsVerified, update_where_id, call. mrun.
      destruct (failed _); cbn; [intros [= <- _]; discriminate|].
      destruct (List.find _ _); cbn; [|intros [= <- _]; discriminate].
      destruct (oracle _ _); cbn; intros [= <- _]; discriminate.
  - unfold earlier.ChangePassword. rewrite run_bind, Hparse.
    destruct err as [e0|]; [intros [= <- _]; discriminate|].
    mrun.
    destruct ((unmarshal <$> body) !! "exp") as [[| | | |exp]|] eqn:Hexp; try discriminate.
    destruct ((unmarshal <$> body) !! "email") as [[| |email| |]|]; try discriminate.
    cbn. destruct (After _ _) eqn:Hafter.
    + intros _. exists exp. split; [reflexivity|]. apply (Hwin exp); auto.
    + unfold GetAccount at 1. mrun.
      destruct (failed _); cbn; [intros [= <- _]; discriminate|].
      destruct (List.find _ _); cbn; [|intros [= <- _]; discriminate].
      unfold generateSalt, hashPassword, GenerateFromPassword, ReadFull. mrun.
      destruct (decide _); cbn; [|intros [= <- _]; discriminate].
      destruct (decide _); cbn; [|intros [= <- _]; discriminate].
      unfold UpdateSaltAndPassword, update_where_id, call. mrun.
      destruct (oracle _ _); cbn; intros [= <- _]; discriminate.
Qed.

(** What an earlier [ChangePassword] that returned no error has done. *)
Lemma earlier_ChangePassword_done (token password : string) (w w' : World) :
  earlier.ChangePassword token password w = (Ret None, w') ->
  exists (payload : gmap string Value) (email : string) (a : Account)
         (salt : list byte) (h : string),
    parseJWT token w = (Ret (payload, None), w)
    /\ payload !! "email" = Some (VString email)
    /\ List.find (selects (mkAccountFilter email "")) (db_account w) = Some a
    /\ db_account w' = storeSecret (AccountID a) salt h <$> db_account w
    /\ clock w' = clock w /\ oracle w' = oracle w.
Proof.
  unfold earlier.ChangePassword. rewrite run_bind.
  destruct (parseJWT token w) as [[[payload err]|msg] w0] eqn:Hparse; [|discriminate].
  assert (w0 = w) as ->.
  { revert Hparse. unfold parseJWT. rewrite run_bind.
    destruct (ParseWithClaims_pure token JWT_SECRET w) as [r ->]. intros [= _ _ <-].
    reflexivity. }
  destruct err as [e|]; [discriminate|].
  mrun.
  destruct (payload !! "exp") as [[]|]; try discriminate.
  destruct (payload !! "email") as [[| |email| |]|] eqn:Hemail; try discriminate.
  cbn.
  destruct (After _ _); [discriminate|].
  unfold GetAccount at 1. mrun.
  destruct (failed _); [discriminate|]. cbn.
  destruct (List.find _ (db_account w)) as [a|] eqn:Hfind; [|discriminate]. cbn.
  destruct (generateSalt _) as [[[salt [e|]]|msg] w1] eqn:Hsalt; try discriminate.
  apply generateSalt_quiet in Hsalt as (D1 & _ & _ & _ & C1 & F1 & _).
  destruct (hashPassword _ _ w1) as [[[h [e|]]|msg] w2] eqn:Hhash; try discriminate.
  apply hashPassword_quiet in Hhash as (D2 & _ & _ & _ & C2 & F2 & _).
  unfold UpdateSaltAndPassword, update_where_id, call. mrun.
  destruct (oracle w2 _); try discriminate. cbn.
  intros [= <-]. cbn.
  exists payload, email, a, salt, h. rewrite D2, D1, C2, C1, F2, F1. cbn.
  repeat split; auto.
Qed.

(** X20. In the earlier usecase the token mailed at sign-up is as good as
    a reset token: [createEmailVerificationToken] signs the same claims as
    [createResetPasswordToken], and [ChangePassword] looks at nothing but
    the claims. With the token minted for an account at sign-up, before
    its expiry and with a reachable database and 48 bytes of entropy,
    [ChangePassword] replaces the password of the account that has the
    email, verified or not, without any reset having been asked for. *)
Theorem X20_earlier_sign_up_token_changes_the_password
  (account a : Account) (token password : string) (w0 w0' w : World) :
  BcryptLawful -> JwtLawful ->
  earlier.createEmailVerificationToken account w0 = (Ret (token, None), w0') ->
  clock w <= ofUnix (Unix (clock w0 + 24 * Hour)) ->
  (forall i, (i < 2)%nat -> oracle w (length (trace w) + i)%nat = Healthy) ->
  (48 <= length (entropy w))%nat ->
  List.find (selects (mkAccountFilter (Email account) "")) (db_account w) = Some a ->
  (earlier.createResetPasswordToken (Email account) w0).1 = Ret (token, None)
  /\ exists (h : string) (w' : World),
       earlier.ChangePassword token password w = (Ret None, w')
       /\ earlier.comparePassword (bytes password) (take 32 (entropy w)) (bytes h)
          = (None, true)
       /\ List.find (selects (mkAccountFilter (Email account) "")) (db_account w')
          = Some (setPassword h (setSalt (take 32 (entropy w)) a)).
Proof.
  intros Hlaw Hjwt Hmint Hlive Horacle Hent Hfind.
  assert (Htok : token = resetToken (Email account) (clock w0)).
  { revert Hmint. unfold earlier.createEmailVerificationToken. mrun.
    intros [= <- _]. reflexivity. }
  split.
  { unfold earlier.createResetPasswordToken. mrun. rewrite Htok. reflexivity. }
  assert (Hnow : Unix (clock w) <= Unix (clock w0 + 24 * Hour))
    by (apply Unix_le_ofUnix; exact Hlive).
  assert (Hparse := parseJWT_minted (resetClaims (Email account) (clock w0)) w Hjwt
                      (resetClaims_valid _ _ _ Hnow)).
  fold (resetToken (Email account) (clock w0)) in Hparse. rewrite <- Htok in Hparse.
  destruct (earlier_ChangePassword_run token password (Email account) _ _ a w Hlaw Hparse
              (resetClaims_exp _ _) (resetClaims_email _ _) Hlive Horacle Hent Hfind)
    as (h & w' & Hrun & Hcmp & _ & Hfind').
  exists h, w'. repeat split; assumption.
Qed.

(** X21. In the earlier usecase a token is not used up: after a
    [ChangePassword] that returned no error, the same token, presented
    again at any later time up to its expiry (with a reachable database
    and 48 bytes of entropy), changes the password again. *)
Theorem X21_earlier_reset_token_can_be_replayed
  (token password password' : string) (payload : gmap string Value) (exp d : Z)
  (w w1 : World) :
  BcryptLawful ->
  earlier.ChangePassword token password w = (Ret None, w1) ->
  parseJWT token w = (Ret (payload, None), w) ->
  payload !! "exp" = Some (VFloat64 exp) ->
  0 <= d ->
  let w2 := elapse d w1 in
  clock w2 <= ofUnix exp ->
  (forall i, (i < 2)%nat -> oracle w2 (length (trace w2) + i)%nat = Healthy) ->
  (48 <= length (entropy w2))%nat ->
  exists (h : string) (w3 : World) (a' : Account) (email : string),
    earlier.ChangePassword token password' w2 = (Ret None, w3)
    /\ payload !! "email" = Some (VString email)
    /\ List.find (selects (mkAccountFilter email "")) (db_account w3) = Some a'
    /\ Salt a' = take 32 (entropy w2)
    /\ earlier.comparePassword (bytes password') (Salt a') (bytes (Password a'))
       = (None, true).
Proof.
  intros Hlaw Hdone Hparse Hexp Hd w2 Hlive Horacle Hent.
  destruct (earlier_ChangePassword_done _ _ _ _ Hdone)
    as (payload' & email & a & salt & h0 & Hparse' & Hemail & Hfind & Hdb & Hclk & _).
  rewrite Hparse in Hparse'. injection Hparse' as <-.
  assert (Hparse2 : parseJWT token w2 = (Ret (payload, None), w2)).
  { apply (parseJWT_later token payload exp w w2 Hparse Hexp).
    - cbn. rewrite Hclk. lia.
    - apply Unix_le_ofUnix. exact Hlive. }
  assert (Hfind2 : List.find (selects (mkAccountFilter email "")) (db_account w2)
                   = Some (storeSecret (AccountID a) salt h0 a)).
  { cbn. rewrite Hdb.
    rewrite (find_selects_fmap _ _ _ (selects_storeSecret _ _ _ _)), Hfind. reflexivity. }
  destruct (earlier_ChangePassword_run token password' email payload exp _ w2 Hlaw Hparse2
              Hexp Hemail Hlive Horacle Hent Hfind2)
    as (h & w3 & Hrun & Hcmp & _ & Hfind3).
  exists h, w3. eexists. exists email.
  split; [exact Hrun|]. split; [exact Hemail|]. split; [exact Hfind3|].
  split; [reflexivity | exact Hcmp].
Qed.

End earlier_facts.

(** ** The first usecase and its login handler *)

Section delivery_facts.
Context `{BcryptPrims} `{JwtPrims} `{Globals} `{JWTHelper}.

(** X22. The status of the login handler over the first usecase, for a
    request that was bound without error. The handler always answers, with
    200, 404 or 500. It answers 404, with the invalid-credentials message,
    exactly when the database is reachable and no account has the email;
    it answers 200 exactly when the database is reachable and the password
    is accepted for the account found, whose verified flag is not looked
    at. A wrong password and an unreachable database both give 500. *)
Theorem X22_login_handler_status (account : Account) (w : World) :
  exists (status : Z) (resp : delivery.LoginResponse) (w' : World),
    delivery.Login oldest.Login (account, None) w = (Ret (status, resp), w')
    /\ (status = 200 \/ status = 404 \/ status = 500)
    /\ (status = 404
        <-> oracle w (length (trace w)) = Healthy
            /\ List.find (selects (mkAccountFilter (Email account) "")) (db_account w) = None)
    /\ (status = 200
        <-> oracle w (length (trace w)) = Healthy
            /\ exists reg : Account,
                 List.find (selects (mkAccountFilter (Email account) "")) (db_account w)
                 = Some reg
                 /\ (earlier.comparePassword (bytes (Password account)) (Salt reg)
                       (bytes (Password reg))).2 = true)
    /\ (status = 404 ->
        delivery.Message resp = delivery.Constant FRIENDLY_INVALID_USNME_PASSWORD).
Proof.
  unfold delivery.Login, oldest.Login, GetAccount, call. mrun.
  destruct (oracle w (length (trace w))) eqn:Ho; cbn;
    try (eexists _, _, _; split; [reflexivity|];
         split; [right; right; reflexivity|];
         repeat split; try discriminate; intros [? _]; discriminate).
  destruct (List.find _ (db_account w)) as [reg|] eqn:Hfind; cbn.
  - destruct (earlier.comparePassword _ _ _) as [e ok] eqn:Hcmp.
    destruct ok; cbn.
    + eexists _, _, _. split; [reflexivity|]. split; [left; reflexivity|].
      split; [split; [discriminate | intros [_ ?]; discriminate]|].
      split; [|discriminate].
      split; [intros _|reflexivity].
      split; [reflexivity|]. exists reg. split; [reflexivity|]. rewrite Hcmp. reflexivity.
    + eexists _, _, _. split; [reflexivity|]. split; [right; right; reflexivity|].
      split; [split; [discriminate | intros [_ ?]; discriminate]|].
      split; [|discriminate].
      split; [discriminate|].
      intros (_ & reg' & [= <-] & Hok). rewrite Hcmp in Hok. discriminate.
  - eexists _, _, _. split; [reflexivity|]. split; [right; left; reflexivity|].
    split; [split; [intros _; split; reflexivity | reflexivity]|].
    split; [|reflexivity].
    split; [discriminate|]. intros (_ & reg' & ? & _). discriminate.
Qed.

(** X23. The first [SignUp] drops the error of the profile insert: when
    the account row is inserted and the insert of the profile fails, it
    still returns the account and the profile with no error, and the
    account table has a row more while the profile table has none. *)
Theorem X23_first_sign_up_hides_a_failed_profile_insert
  (account : Account) (profile : Profile) (w : World) :
  (64 <= length (entropy w))%nat ->
  oracle w (length (trace w)) = Healthy ->
  oracle w (S (length (trace w))) <> Healthy ->
  let id := if decide (AccountID account = "") then nextUuid (drop 48 (entropy w))
            else AccountID account in
  Email account ∉ Email <$> db_account w ->
  id ∉ AccountID <$> db_account w ->
  exists (inserted : Account) (w' : World),
    oldest.SignUp account profile w
    = (Ret (Some inserted, Some (setProfileAccountID id profile), None), w')
    /\ db_account w' = (db_account w ++ [inserted])%list
    /\ AccountID inserted = id /\ Email inserted = Email account
    /\ db_profile w' = db_profile w.
Proof.
  intros Hent Ho0 Ho1 id Hemail Hid.
  unfold oldest.SignUp. rewrite run_bind.
  rewrite generateSalt_run by lia. cbn.
  rewrite run_bind.
  match goal with
  | |- context [hashPassword ?p ?s ?w] =>
      destruct (hashPassword_run p s w) as [h Hh];
      [cbn; rewrite length_drop; lia | rewrite Hh]
  end.
  cbn. rewrite drop_drop. cbn.
  set (w1 := set_entropy (drop 48 (entropy w)) _).
  match goal with |- context [InsertAccount ?a] => set (acct := a) end.
  assert (Hins : exists w2, InsertAccount acct w1
                 = (Ret (Some (setAccountID id acct), None), w2)
                 /\ db_account w2 = (db_account w ++ [setAccountID id acct])%list
                 /\ db_profile w2 = db_profile w
                 /\ oracle w2 = oracle w
                 /\ length (trace w2) = S (length (trace w))).
  { unfold InsertAccount, GenerateUUID. rewrite run_bind. subst id.
    change (AccountID acct) with (AccountID account).
    destruct (decide (AccountID account = "")) as [Hblank|Hset].
    - rewrite run_bind.
      rewrite uuid_New_String_run by (cbn; rewrite length_drop; lia).
      cbn. rewrite insertAccountTx_run; [|exact Ho0|apply duplicate_fresh; assumption].
      eexists. split; [reflexivity|]. cbn. rewrite length_app. cbn.
      repeat split; try reflexivity. lia.
    - cbn.
      assert (Hsame : setAccountID (AccountID account) acct = acct)
        by (destruct account; reflexivity).
      rewrite Hsame.
      rewrite insertAccountTx_run; [|exact Ho0|apply duplicate_fresh; assumption].
      eexists. split; [reflexivity|]. cbn. rewrite length_app. cbn.
      repeat split; try reflexivity. lia. }
  destruct Hins as (w2 & Hins & D2 & P2 & F2 & T2).
  rewrite run_bind, Hins. cbv beta iota.
  change (AccountID (setAccountID id acct)) with id.
  rewrite run_bind, run_bind.
  unfold InsertProfile, call. mrun. rewrite F2, T2.
  destruct (oracle w (S (length (trace w)))); [contradiction|..]; cbn;
    (eexists _, _; split; [reflexivity|]; cbn; repeat split; assumption).
Qed.

End delivery_facts.

(** ** What the three versions have in common *)

Ltac accounts_step := unfold accounts_kept; cbn; reflexivity.

Section across_versions.
Context `{BcryptPrims} `{JwtPrims} `{Globals} `{JWTHelper} `{EarlierGlobals}.

Lemma accounts_kept_frame : Frame accounts_kept.
Proof.
  split; unfold accounts_kept; cbn; try reflexivity.
  intros a b c Hab Hbc. congruence.
Qed.

#[local] Existing Instance accounts_kept_frame.

Hint Resolve accounts_kept_frame : preserve.

Lemma accounts_Redis_Set (k v : string) (e : Z) : preserves accounts_kept (Redis_Set k v e).
Proof. unfold Redis_Set. preserve_with accounts_step. Qed.

Lemma accounts_Redis_Delete (k : string) : preserves accounts_kept (Redis_Delete k).
Proof. unfold Redis_Delete. preserve_with accounts_step. Qed.

Lemma accounts_SendMail (to : list string) (subject msg : string) :
  preserves accounts_kept (SendMail to subject msg).
Proof. unfold SendMail. preserve_with accounts_step. Qed.

Hint Resolve accounts_Redis_Set accounts_Redis_Delete accounts_SendMail : preserve.

Lemma accounts_createTokenPair (a : Account) (p : Profile) :
  preserves accounts_kept (createTokenPair a p).
Proof. unfold createTokenPair. preserve_with accounts_step. Qed.

Lemma pres_parseJWT (R : World -> World -> Prop) `{!Frame R} (t : string) :
  preserves R (parseJWT t).
Proof. unfold parseJWT. preserve_with idtac. Qed.

Hint Resolve accounts_createTokenPair pres_parseJWT : preserve.

(** X24. The requests that only read accounts. In each version of the
    usecase, [Login] leaves the account table exactly as it was, whatever
    its outcome; so do [RefreshToken] and [SignOut], and so does the
    earlier [ResetPassword], which mails a token without recording it. *)
Theorem X24_reading_requests_leave_the_account_table
  (account : Account) (token email : string) (accessToken refreshToken : option Token)
  (w : World) :
  db_account (Login account w).2 = db_account w
  /\ db_account (RefreshToken token w).2 = db_account w
  /\ db_account (SignOut accessToken refreshToken w).2 = db_account w
  /\ db_account (earlier.Login account w).2 = db_account w
  /\ db_account (earlier.ResetPassword email w).2 = db_account w
  /\ db_account (oldest.Login account w).2 = db_account w.
Proof.
  assert (H1' : preserves accounts_kept (Login account))
    by (unfold Login; preserve_with accounts_step).
  assert (H2' : preserves accounts_kept (RefreshToken token))
    by (unfold RefreshToken; preserve_with accounts_step).
  assert (H3' : preserves accounts_kept (SignOut accessToken refreshToken))
    by (unfold SignOut; preserve_with accounts_step).
  assert (H4' : preserves accounts_kept (earlier.Login account))
    by (unfold earlier.Login; preserve_with accounts_step).
  assert (H5' : preserves accounts_kept (earlier.ResetPassword email))
    by (unfold earlier.ResetPassword, earlier.createResetPasswordToken;
        preserve_with accounts_step).
  assert (H6' : preserves accounts_kept (oldest.Login account))
    by (unfold oldest.Login; preserve_with accounts_step).
  repeat split; [apply H1' | apply H2' | apply H3' | apply H4' | apply H5' | apply H6'].
Qed.

(** X25. The unique keys of the account table are an invariant of the
    earlier and of the first usecase as well: if no two account rows share
    an email or an id before one of their operations, none do after it. *)
Theorem X25_earlier_versions_keep_account_keys_unique
  (account : Account) (profile : Profile) (token password email : string) (w : World) :
  unique_keys (db_account w) ->
  unique_keys (db_account (earlier.Login account w).2)
  /\ unique_keys (db_account (earlier.SignUp account profile w).2)
  /\ unique_keys (db_account (earlier.VerifyEmail token w).2)
  /\ unique_keys (db_account (earlier.ResetPassword email w).2)
  /\ unique_keys (db_account (earlier.ChangePassword token password w).2)
  /\ unique_keys (db_account (oldest.Login account w).2)
  /\ unique_keys (db_account (oldest.SignUp account profile w).2).
Proof.
  intros Hu.
  assert (H1' : preserves unique_kept (earlier.Login account))
    by (unfold earlier.Login; preserve_with unique_step).
  assert (H2' : preserves unique_kept (earlier.SignUp account profile))
    by (unfold earlier.SignUp, earlier.createEmailVerificationToken;
        preserve_with unique_step).
  assert (H3' : preserves unique_kept (earlier.VerifyEmail token))
    by (unfold earlier.VerifyEmail; preserve_with unique_step).
  assert (H4' : preserves unique_kept (earlier.ResetPassword email))
    by (unfold earlier.ResetPassword, earlier.createResetPasswordToken;
        preserve_with unique_step).
  assert (H5' : preserves unique_kept (earlier.ChangePassword token password))
    by (unfold earlier.ChangePassword; preserve_with unique_step).
  assert (H6' : preserves unique_kept (oldest.Login account))
    by (unfold oldest.Login; preserve_with unique_step).
  assert (H7' : preserves unique_kept (oldest.SignUp account profile))
    by (unfold oldest.SignUp; preserve_with unique_step).
  repeat split;
    [apply H1' | apply H1' | apply H2' | apply H2' | apply H3' | apply H3'
    | apply H4' | apply H4' | apply H5' | apply H5' | apply H6' | apply H6'
    | apply H7' | apply H7']; exact Hu.
Qed.

End across_versions.

(** * Runs on the reference instance *)

Section runs.
Import Fixture.

Lemma bits_pos_bits (p : positive) : bits_pos (pos_bits p) = Some p.
Proof. induction p as [q IH|q IH|]; cbn; rewrite ?IH; reflexivity. Qed.

Lemma xor_into_length (acc l : list byte) : length (xor_into acc l) = length acc.
Proof.
  revert l. induction acc as [|a acc IH]; intros [|b l]; cbn; try reflexivity.
  rewrite IH. reflexivity.
Qed.

Lemma fixture_bcrypt_lawful : BcryptLawful.
Proof.
  split.
  - intros cost salt key.
    change (eksblowfish cost salt key) with (fold23 salt key).
    unfold fold23. rewrite !xor_into_length. reflexivity.
  - intros [c s h] _.
    change (hash_decode (hash_encode (mkHashed c s h)))
      with (bits_pos (pos_bits (encode (c, s, h)))
            ≫= fun p => @decode (Z * list byte * list byte) _ _ p
                        ≫= fun x => Some (mkHashed x.1.1 x.1.2 x.2)).
    rewrite bits_pos_bits. cbn [mbind option_bind]. rewrite decode_encode. reflexivity.
Qed.

Lemma fixture_jwt_lawful : JwtLawful.
Proof.
  intros alg key payload.
  change (segments (compact alg payload (hmac alg key payload)))
    with (bits_pos (list_byte_of_string
            (string_of_list_byte (pos_bits (encode (alg, payload, hmac alg key payload)))))
          ≫= @decode (string * gmap string JSON * string) _ _).
  rewrite list_byte_of_string_of_list_byte, bits_pos_bits.
  apply decode_encode.
Qed.

(** The numbers of the tokens of the reference runs are float64-exact. *)
Lemma expiring_claims_exact (email : string) (exp : Z) :
  float64_exact exp ->
  exact_numbers (marshal <$> (<["exp" := VInt64 exp]> (<["email" := VString email]> ∅))).
Proof.
  intros Hexp k z. rewrite lookup_fmap.
  destruct (decide (k = "exp")) as [->|Hk].
  - rewrite lookup_insert_eq. cbn. intros [= <-]. exact Hexp.
  - rewrite lookup_insert_ne by congruence.
    destruct (decide (k = "email")) as [->|Hk'].
    + rewrite lookup_insert_eq. discriminate.
    + rewrite lookup_insert_ne by congruence. rewrite lookup_empty. discriminate.
Qed.

Lemma expiredClaims_exact : exact_numbers (marshal <$> expiredClaims).
Proof. apply expiring_claims_exact. unfold float64_exact. lia. Qed.


(** C5 at work: Ann logs in before she has confirmed her email. *)
Lemma C5_witness :
  exists (e : error) (w' : World),
    Login ann signedUp = (Ret (None, Some e), w')
    /\ e = CError "LGU04"
             (Some (ErrorString ("email " +:+ Email (stored signedUp)
                                 +:+ " has not been verified")))
             FRIENDLY_EMAIL_NOT_VERIFIED TYPE_UNSET
    /\ redis w' = redis signedUp
    /\ trace w' = (trace signedUp ++ [DbGetAccount (mkAccountFilter (Email ann) "")])%list.
Proof.
  apply (C5_unverified_login_is_rejected signedUp ann (stored signedUp)).
  - reflexivity.
  - vm_compute. reflexivity.
  - vm_compute. reflexivity.
  - vm_compute. reflexivity.
Defined.

(** C6 at work: Ann signs out, then presents her refresh token. *)
Lemma C6_witness :
  exists w3 : World,
    RefreshToken (RefreshToken_ pair) signedOut
    = (Ret (None, Some (CError "RTU00" (Some (ErrorString "token_expired"))
                               FRIENDLY_TOKEN_EXPIRED TYPE_EXPIRED)), w3)
    /\ redis w3 = redis signedOut.
Proof.
  apply (C6_refresh_after_sign_out_is_expired loggedIn signedOut signedOut
           (parsed (AccessToken pair) loggedIn) (parsed (RefreshToken_ pair) loggedIn)
           (RefreshToken_ pair)).
  - vm_compute. reflexivity.
  - intros k Hk. exact Hk.
  - vm_compute. reflexivity.
Defined.



(** C10 at work: Ann signs out while the session store is down. *)
Lemma C10_witness :
  exists w' : World,
    SignOut (Some (parsed (AccessToken pair) loggedIn))
            (Some (parsed (RefreshToken_ pair) loggedIn)) storeDown
    = (Ret (Some (CError "SOU00" (Some ErrRedis) FRIENDLY_MESSAGE TYPE_UNSET)), w')
    /\ trace w' = (trace storeDown ++ [RedisDelete "50515253-5455-4657-9859-5a5b5c5d5e5f"])%list
    /\ redis w' = redis storeDown
    /\ forall (rtUUID : string) (session : string * Z),
         redis storeDown !! rtUUID = Some session -> redis w' !! rtUUID = Some session.
Proof.
  apply (C10_sign_out_stops_at_first_failure storeDown
           (parsed (AccessToken pair) loggedIn)
           (Some (parsed (RefreshToken_ pair) loggedIn))
           "50515253-5455-4657-9859-5a5b5c5d5e5f").
  - vm_compute. reflexivity.
  - vm_compute. discriminate.
Defined.

(** C2 at work, on a token that expired at second 100, parsed at second
    1000. *)
Lemma C2_witness :
  (100 < Unix (clock world0) ->
     exists (msg : string) (flags : Z),
       parseJWT expiredToken world0
       = (Ret (unmarshal <$> (marshal <$> expiredClaims),
               Some (ValidationError msg flags)), world0)
       /\ Z.land flags ValidationErrorExpired = ValidationErrorExpired
       /\ earlier.VerifyEmail expiredToken world0
          = (Ret (Some (CError "VEA00" (Some (ValidationError msg flags))
                               FRIENDLY_INVALID_TOKEN TYPE_UNSET)), world0)
       /\ forall password : string,
            earlier.ChangePassword expiredToken password world0
            = (Ret (Some (CError "CPW00" (Some (ValidationError msg flags))
                                 FRIENDLY_INVALID_TOKEN TYPE_UNSET)), world0))
  /\ (Unix (clock world0) <= 100 ->
       (marshal <$> expiredClaims) !! "iat" = None ->
       (marshal <$> expiredClaims) !! "nbf" = None ->
       parseJWT expiredToken world0
       = (Ret (unmarshal <$> (marshal <$> expiredClaims), None), world0)).
Proof.
  apply (C2_codec_enforces_expiry world0 expiredToken "HS256"
           (marshal <$> expiredClaims)
           (hmac "HS256" JWT_SECRET (marshal <$> expiredClaims)) 100).
  - apply fixture_jwt_lawful.
  - vm_compute. reflexivity.
  - apply expiredClaims_exact.
  - vm_compute. reflexivity.
  - discriminate.
Defined.

(** C2 fails as stated: the token [expiredToken] carries a signature that
    verifies under the secret and an expiry claim, second 100, in the past
    of second 1000; the parse returns the Expired validation error. *)
Lemma C2_counterexample :
  segments expiredToken
  = Some ("HS256", marshal <$> expiredClaims,
          hmac "HS256" JWT_SECRET (marshal <$> expiredClaims))
  /\ Verify "HS256" JWT_SECRET (marshal <$> expiredClaims)
            (hmac "HS256" JWT_SECRET (marshal <$> expiredClaims)) = true
  /\ (marshal <$> expiredClaims) !! "exp" = Some (JNum 100)
  /\ ofUnix 100 < clock world0
  /\ (parseJWT expiredToken world0).1
     = Ret (unmarshal <$> (marshal <$> expiredClaims),
            Some (ValidationError "Token is expired" ValidationErrorExpired)).
Proof.
  split; [vm_compute; reflexivity|].
  split; [vm_compute; reflexivity|].
  split; [vm_compute; reflexivity|].
  split; [vm_compute; reflexivity|].
  vm_compute. reflexivity.
Qed.

(** C3 fails as stated: Ann logs in, asks for a reset and changes her
    password without error; the refresh session of her login is still in
    the session store, and her old refresh token still buys a new pair. *)
Lemma C3_counterexample :
  (Login ann verified).1 = Ret (Some pair, None)
  /\ (ResetPassword "a@x.com" loggedIn).1 = Ret None
  /\ (ChangePassword (PasswordToken (stored resetAsked)) "pw2" resetAsked).1 = Ret None
  /\ Claims (parsed (RefreshToken_ pair) loggedIn) !! "refresh_uuid"
     = Some (VString "60616263-6465-4667-a869-6a6b6c6d6e6f")
  /\ redis changed !! "60616263-6465-4667-a869-6a6b6c6d6e6f"
     = Some (RefreshToken_ pair, 4600)
  /\ (Redis_Get "60616263-6465-4667-a869-6a6b6c6d6e6f" changed).1
     = Ret (RefreshToken_ pair, None)
  /\ exists fresh : JWTWrapper,
       (RefreshToken (RefreshToken_ pair) changed).1 = Ret (Some fresh, None).
Proof.
  split; [vm_compute; reflexivity|].
  split; [vm_compute; reflexivity|].
  split; [vm_compute; reflexivity|].
  split; [vm_compute; reflexivity|].
  split; [vm_compute; reflexivity|].
  split; [vm_compute; reflexivity|].
  eexists. vm_compute. reflexivity.
Qed.

(** C4 at work: the empty password under [salt32]. *)
Lemma C4_witness :
  comparePassword [] salt32
    (bytes match (hashPassword [] salt32 world0).1 with Ret (h, _) => h | _ => "" end)
  = (None, true).
Proof.
  destruct (hashPassword [] salt32 world0) as [[[h [e|]]|msg] w'] eqn:Erun;
    try (apply (f_equal fst) in Erun; vm_compute in Erun; discriminate Erun).
  exact (proj1 (C4_verify_follows_the_digest [] salt32 world0 w' h
                  fixture_bcrypt_lawful Erun)).
Defined.

(** C4 fails as stated: the password made of the salt and a zero byte is
    not the empty password, and verifies against the hash derived from the
    empty password and that salt, because both feed the key schedule the
    salt and a zero byte, over and over. *)
Lemma C4_counterexample :
  saltNul <> []
  /\ key_material (saltNul ++ salt32)%list = key_material ([] ++ salt32)%list
  /\ exists h : string,
       (hashPassword [] salt32 world0).1 = Ret (h, None)
       /\ comparePassword saltNul salt32 (bytes h) = (None, true).
Proof.
  split; [discriminate|]. split; [vm_compute; reflexivity|].
  eexists. split; vm_compute; reflexivity.
Qed.

(** C7 at work: two resets five seconds apart, then the change. *)
Lemma C7_witness :
  (exists (e : error) (w' : World),
     ChangePassword (resetToken "a@x.com" (clock verified)) "pw2" (elapse 0 reset2)
     = (Ret (Some e), w')
     /\ friendly_of e = Some FRIENDLY_INVALID_TOKEN
     /\ db_account w' = db_account (elapse 0 reset2))
  /\ (exists (w' : World) (a : Account),
       ChangePassword (resetToken "a@x.com" (clock verified + 5 * Second)) "pw2"
                      (elapse 0 reset2)
       = (Ret None, w')
       /\ List.find (selects (mkAccountFilter "a@x.com" "")) (db_account w') = Some a
       /\ PasswordToken a = "").
Proof.
  apply (C7_second_reset_supersedes_first verified reset1 reset2 "a@x.com" "pw2"
           (5 * Second) 0 fixture_jwt_lawful).
  - vm_compute. reflexivity.
  - vm_compute. reflexivity.
  - vm_compute. discriminate.
  - vm_compute. discriminate.
  - vm_compute. discriminate.
  - vm_compute. discriminate.
  - intros i _. vm_compute. reflexivity.
  - apply Nat.leb_le. vm_compute. reflexivity.
Defined.

(** C7 fails as stated: two resets within one second mint the same token,
    so the token of the first call is the one on file after the second, and
    [ChangePassword] with it returns no error and clears the field. *)
Lemma C7_counterexample :
  (ResetPassword "a@x.com" verified).1 = Ret None
  /\ mBody <$> last (outbox reset1)
     = Some (RESET_PASSWORD_TEMPLATE
               (generateResetPasswordUrl (resetToken "a@x.com" (clock verified))))
  /\ (ResetPassword "a@x.com" (elapse 400000000 reset1)).1 = Ret None
  /\ mBody <$> last (outbox reset2quick)
     = Some (RESET_PASSWORD_TEMPLATE
               (generateResetPasswordUrl (resetToken "a@x.com" (clock verified))))
  /\ (ChangePassword (resetToken "a@x.com" (clock verified)) "pw2" reset2quick).1
     = Ret None
  /\ PasswordToken
       (stored (ChangePassword (resetToken "a@x.com" (clock verified)) "pw2" reset2quick).2)
     = "".
Proof.
  split; [vm_compute; reflexivity|].
  split; [vm_compute; reflexivity|].
  split; [vm_compute; reflexivity|].
  split; [vm_compute; reflexivity|].
  split; [vm_compute; reflexivity|].
  vm_compute. reflexivity.
Qed.

End runs.

(** ** The further properties at work *)

Section further_runs.
Import Fixture.
Import cases.

Ltac run := vm_compute; reflexivity.
Ltac differ := vm_compute; discriminate.
Ltac enough_entropy := apply Nat.leb_le; vm_compute; reflexivity.

(** X1 at work: the login of Ann after she confirmed her email. *)
Lemma X1_witness :
  exists regAccount : Account,
    List.find (selects (mkAccountFilter (Email ann) "")) (db_account verified)
    = Some regAccount
    /\ IsVerified regAccount = true
    /\ comparePassword (bytes (Password ann)) (Salt regAccount)
                       (bytes (Password regAccount)) = (None, true)
    /\ @None error = None.
Proof.
  apply (X1_login_grants_only_verified_accounts ann verified loggedIn pair None).
  run.
Defined.

(** X2 at work: the same login, run forward. *)
Lemma X2_witness :
  let au := nextUuid (entropy verified) in
  let ru := nextUuid (drop 16 (entropy verified)) in
  let at_ := SignedString (accessClaims (stored verified) annStoredProfile au (clock verified))
                          JWT_SECRET in
  let rt := SignedString (refreshClaims (stored verified) ru (clock verified)) JWT_SECRET in
  exists w' : World,
    Login ann verified
    = (Ret (Some (mkJWTWrapper at_ rt (clock verified + 1 * Hour)), None), w')
    /\ redis w' = <[ru := (rt, Unix (clock verified + 1 * Hour))]>
                    (<[au := (at_, Unix (clock verified + 15 * Minute))]> (redis verified))
    /\ db_account w' = db_account verified.
Proof.
  apply (X2_login_registers_both_sessions ann (stored verified) annStoredProfile verified).
  - intros i _. run.
  - enough_entropy.
  - run.
  - run.
  - run.
  - run.
Defined.

(** X3 at work: the session store fails on the refresh session. *)
Lemma X3_witness :
  let au := nextUuid (entropy refreshSetDown) in
  let at_ := SignedString
               (accessClaims (stored verified) annStoredProfile au (clock refreshSetDown))
               JWT_SECRET in
  exists w' : World,
    Login ann refreshSetDown = (Ret (None, Some ErrRedis), w')
    /\ redis w' = <[au := (at_, Unix (clock refreshSetDown + 15 * Minute))]>
                    (redis refreshSetDown).
Proof.
  apply (X3_login_leaves_access_session_behind ann (stored verified) annStoredProfile
           refreshSetDown).
  - intros i Hi. destruct i as [|[|[|i]]]; [run | run | run | lia].
  - differ.
  - enough_entropy.
  - run.
  - run.
  - run.
  - run.
Defined.

(** X4 at work: Ann signs up a second time. *)
Lemma X4_witness : unique_keys (db_account (serve (ReqSignUp ann annProfile) signedUp)).
Proof.
  apply (X4_requests_keep_account_keys_unique (ReqSignUp ann annProfile) signedUp).
  assert (Hrows : db_account signedUp = [stored signedUp]) by run.
  rewrite Hrows. split; apply NoDup_singleton.
Defined.

(** X5 at work: Ann refreshes; the session of the token she presents
    stays. *)
Lemma X5_witness :
  is_Some (redis (serve (ReqRefreshToken (RefreshToken_ pair)) loggedIn)
           !! "60616263-6465-4667-a869-6a6b6c6d6e6f").
Proof.
  apply (X5_only_sign_out_removes_sessions (ReqRefreshToken (RefreshToken_ pair)) loggedIn
           "60616263-6465-4667-a869-6a6b6c6d6e6f").
  - intros a b. discriminate.
  - exists (RefreshToken_ pair, 4600). run.
Defined.

(** X7 at work: Ann's row is inserted and looked up by her email. *)
Lemma X7_witness :
  GetAccount (mkAccountFilter "a@x.com" "") annInserted
  = (Ret (Some annRow, None),
     set_trace (trace annInserted ++ [DbGetAccount (mkAccountFilter "a@x.com" "")])
               annInserted)
  /\ Email annRow = Email ann.
Proof.
  apply (X7_inserted_account_is_found ann annRow (mkAccountFilter "a@x.com" "")
           world0 annInserted).
  - run.
  - run.
  - run.
  - left. discriminate.
Defined.




(** X11 at work: Ann presents her reset token a second time. *)
Lemma X11_witness :
  exists (a' : Account) (w3 : World),
    ChangePassword annResetToken "pw3" (elapse (5 * Second) changed)
    = (Ret (Some (CError "CPW03"
         (Some (ErrorString
            ("token is different from token from database. email : " +:+ Email a')))
         FRIENDLY_INVALID_TOKEN TYPE_UNSET)), w3)
    /\ db_account w3 = db_account (elapse (5 * Second) changed).
Proof.
  apply (X11_reset_token_is_single_use annResetToken "pw2" "pw3"
           (parsed annResetToken resetAsked) (Unix (clock loggedIn + 24 * Hour))
           (5 * Second) resetAsked changed).
  - run.
  - differ.
  - run.
  - run.
  - differ.
  - run.
Defined.

(** X12 at work, in the earlier usecase: five nanoseconds into the last
    second of the token minted for Ann. *)
Lemma X12_witness :
  exists exp : Z,
    parseJWT annEarlyToken lastSecond
    = (Ret (unmarshal <$> (marshal <$> resetClaims "a@x.com" (clock world0)), None),
       lastSecond)
    /\ (marshal <$> resetClaims "a@x.com" (clock world0)) !! "exp" = Some (JNum exp)
    /\ ofUnix exp < clock lastSecond
    /\ (exp = 0 \/ clock lastSecond < ofUnix (exp + 1)).
Proof.
  apply (X12_expired_message_only_in_the_last_second annEarlyToken "pw2" "HS256"
           (hmac "HS256" JWT_SECRET (marshal <$> resetClaims "a@x.com" (clock world0)))
           (marshal <$> resetClaims "a@x.com" (clock world0)) lastSecond
           (earlier.ChangePassword annEarlyToken "pw2" lastSecond).2
           (CError "CPW01" None FRIENDLY_TOKEN_EXPIRED TYPE_UNSET)).
  - apply fixture_jwt_lawful.
  - apply expiring_claims_exact. vm_compute. split; discriminate.
  - right. run.
  - reflexivity.
Defined.

(** X13 at work: a reset is asked for an email nobody has. *)
Lemma X13_witness :
  ResetPassword "nobody@x.com" verified
  = (Ret (Some (CError "RPA00"
                  (Some (ErrorString ("email " +:+ "nobody@x.com" +:+ " is not found")))
                  (FriendlyLiteral "") TYPE_NOT_FOUND)),
     set_trace (trace verified ++ [DbGetAccount (mkAccountFilter "nobody@x.com" "")])
               verified).
Proof.
  apply (X13_reset_password_reports_any_lookup_failure_as_not_found "nobody@x.com" verified).
  right. run.
Defined.

(** X14 at work: Ann asks for a reset while the mail server is down. *)
Lemma X14_witness :
  exists w' : World,
    ResetPassword "a@x.com" resetMailDown = (Ret (Some ErrSMTP), w')
    /\ db_account w'
       = storeToken (AccountID (stored verified))
                    (resetToken "a@x.com" (clock resetMailDown))
           <$> db_account resetMailDown
    /\ List.find (selects (mkAccountFilter "a@x.com" "")) (db_account w')
       = Some (setPasswordToken (resetToken "a@x.com" (clock resetMailDown))
                                (stored verified))
    /\ outbox w' = outbox resetMailDown.
Proof.
  apply (X14_reset_password_keeps_token_when_mail_fails "a@x.com" (stored verified)
           resetMailDown).
  - intros i Hi. destruct i as [|[|i]]; [run | run | lia].
  - differ.
  - run.
  - run.
Defined.

(** X15 at work: Ann signs up and confirms her email a minute later. *)
Lemma X15_witness :
  let id := if decide (AccountID ann = "") then nextUuid (drop 64 (entropy world0))
            else AccountID ann in
  exists (inserted : Account) (w1 w2 : World),
    SignUp ann annProfile world0
    = (Ret (Some inserted, Some (setProfileAccountID id annProfile), None), w1)
    /\ VerifyEmail (EmailToken inserted) (elapse (60 * Second) w1) = (Ret None, w2)
    /\ db_account w2 = (db_account world0 ++ [setIsVerified true inserted])%list
    /\ List.find (selects (mkAccountFilter (Email ann) "")) (db_account w2)
       = Some (setIsVerified true inserted)
    /\ comparePassword (bytes (Password ann)) (Salt inserted) (bytes (Password inserted))
       = (None, true).
Proof.
  apply (X15_sign_up_then_verify_email_opens_login ann annProfile world0 (60 * Second)
           fixture_bcrypt_lawful fixture_jwt_lawful).
  - discriminate.
  - enough_entropy.
  - intros i _. run.
  - apply not_elem_of_nil.
  - apply not_elem_of_nil.
  - differ.
Defined.

(** X16 at work: Ann refreshes her session. *)
Lemma X16_witness :
  let au := nextUuid (entropy loggedIn) in
  let ru := nextUuid (drop 16 (entropy loggedIn)) in
  let at_ := SignedString (accessClaims (stored loggedIn) annStoredProfile au (clock loggedIn))
                          JWT_SECRET in
  let rt := SignedString (refreshClaims (stored loggedIn) ru (clock loggedIn)) JWT_SECRET in
  exists w' : World,
    RefreshToken (RefreshToken_ pair) loggedIn
    = (Ret (Some (mkJWTWrapper at_ rt (clock loggedIn + 1 * Hour)), None), w')
    /\ redis w' = <[ru := (rt, Unix (clock loggedIn + 1 * Hour))]>
                    (<[au := (at_, Unix (clock loggedIn + 15 * Minute))]> (redis loggedIn))
    /\ (au <> "60616263-6465-4667-a869-6a6b6c6d6e6f" ->
        ru <> "60616263-6465-4667-a869-6a6b6c6d6e6f" ->
        redis w' !! "60616263-6465-4667-a869-6a6b6c6d6e6f" = Some (RefreshToken_ pair, 4600)).
Proof.
  apply (X16_refresh_token_issues_a_pair_and_keeps_the_old_session (RefreshToken_ pair)
           (parsed (RefreshToken_ pair) loggedIn) "60616263-6465-4667-a869-6a6b6c6d6e6f"
           (AccountID (stored loggedIn)) (RefreshToken_ pair) 4600
           (stored loggedIn) annStoredProfile loggedIn).
  - run.
  - run.
  - run.
  - run.
  - differ.
  - run.
  - intros i _. run.
  - enough_entropy.
  - run.
  - run.
Defined.

(** X17 at work: the session store fails on the second deletion. *)
Lemma X17_witness :
  exists w' : World,
    SignOut (Some (parsed (AccessToken pair) loggedIn))
            (Some (parsed (RefreshToken_ pair) loggedIn)) secondDeleteDown
    = (Ret (Some (CError "SOU01" (Some ErrRedis) FRIENDLY_MESSAGE TYPE_UNSET)), w')
    /\ redis w' = delete "50515253-5455-4657-9859-5a5b5c5d5e5f" (redis secondDeleteDown)
    /\ ("60616263-6465-4667-a869-6a6b6c6d6e6f" <> "50515253-5455-4657-9859-5a5b5c5d5e5f" ->
        redis w' !! "60616263-6465-4667-a869-6a6b6c6d6e6f"
        = redis secondDeleteDown !! "60616263-6465-4667-a869-6a6b6c6d6e6f").
Proof.
  apply (X17_sign_out_revokes_access_when_second_deletion_fails secondDeleteDown
           (parsed (AccessToken pair) loggedIn) (parsed (RefreshToken_ pair) loggedIn)
           "50515253-5455-4657-9859-5a5b5c5d5e5f" "60616263-6465-4667-a869-6a6b6c6d6e6f").
  - run.
  - run.
  - run.
  - differ.
Defined.

(** X18 at work: Ann signs out without a refresh token. *)
Lemma X18_witness :
  exists (msg : string) (w' : World),
    SignOut (Some (parsed (AccessToken pair) loggedIn)) None loggedIn = (Panic msg, w')
    /\ redis w' = delete "50515253-5455-4657-9859-5a5b5c5d5e5f" (redis loggedIn).
Proof.
  apply (X18_sign_out_panics_after_revoking_access loggedIn
           (parsed (AccessToken pair) loggedIn) None "50515253-5455-4657-9859-5a5b5c5d5e5f").
  - run.
  - intros t s Ht. discriminate Ht.
  - run.
Defined.

(** X19 at work: Ann signs up a second time. *)
Lemma X19_witness :
  exists w' : World,
    SignUp ann annProfile signedUp
    = (Ret (None, None, Some (CError "IA03" (Some (MySQLError 1062))
                                     FRIENDLY_DUPLICATE_EMAIL TYPE_UNSET)), w')
    /\ db_account w' = db_account signedUp /\ db_profile w' = db_profile signedUp
    /\ outbox w' = outbox signedUp.
Proof.
  apply (X19_sign_up_refuses_a_registered_email ann annProfile signedUp (stored signedUp)).
  - enough_entropy.
  - run.
  - assert (Hrows : db_account signedUp = [stored signedUp]) by run.
    rewrite Hrows. apply list_elem_of_here.
  - run.
Defined.

(** X20 at work, in the earlier usecase: the token minted for Ann at
    sign-up changes her password. *)
Lemma X20_witness :
  (earlier.createResetPasswordToken (Email ann) world0).1 = Ret (annEarlyToken, None)
  /\ exists (h : string) (w' : World),
       earlier.ChangePassword annEarlyToken "pw2" signedUp = (Ret None, w')
       /\ earlier.comparePassword (bytes "pw2") (take 32 (entropy signedUp)) (bytes h)
          = (None, true)
       /\ List.find (selects (mkAccountFilter (Email ann) "")) (db_account w')
          = Some (setPassword h (setSalt (take 32 (entropy signedUp)) (stored signedUp))).
Proof.
  apply (X20_earlier_sign_up_token_changes_the_password ann (stored signedUp) annEarlyToken
           "pw2" world0 world0 signedUp fixture_bcrypt_lawful fixture_jwt_lawful).
  - run.
  - differ.
  - intros i _. run.
  - enough_entropy.
  - run.
Defined.

(** X21 at work, in the earlier usecase: the same token, five seconds
    after it was used. *)
Lemma X21_witness :
  exists (h : string) (w3 : World) (a' : Account) (email : string),
    earlier.ChangePassword annEarlyToken "pw3" (elapse (5 * Second) earlyChanged)
    = (Ret None, w3)
    /\ (unmarshal <$> (marshal <$> resetClaims "a@x.com" (clock world0))) !! "email"
       = Some (VString email)
    /\ List.find (selects (mkAccountFilter email "")) (db_account w3) = Some a'
    /\ Salt a' = take 32 (entropy (elapse (5 * Second) earlyChanged))
    /\ earlier.comparePassword (bytes "pw3") (Salt a') (bytes (Password a')) = (None, true).
Proof.
  apply (X21_earlier_reset_token_can_be_replayed annEarlyToken "pw2" "pw3"
           (unmarshal <$> (marshal <$> resetClaims "a@x.com" (clock world0)))
           (Unix (clock world0 + 24 * Hour)) (5 * Second) signedUp earlyChanged
           fixture_bcrypt_lawful).
  - run.
  - run.
  - run.
  - differ.
  - differ.
  - intros i _. run.
  - enough_entropy.
Defined.

(** X23 at work, in the first usecase: the profile insert fails. *)
Lemma X23_witness :
  let id := if decide (AccountID ann = "") then nextUuid (drop 48 (entropy profileDown))
            else AccountID ann in
  exists (inserted : Account) (w' : World),
    oldest.SignUp ann annProfile profileDown
    = (Ret (Some inserted, Some (setProfileAccountID id annProfile), None), w')
    /\ db_account w' = (db_account profileDown ++ [inserted])%list
    /\ AccountID inserted = id /\ Email inserted = Email ann
    /\ db_profile w' = db_profile profileDown.
Proof.
  apply (X23_first_sign_up_hides_a_failed_profile_insert ann annProfile profileDown).
  - enough_entropy.
  - run.
  - differ.
  - apply not_elem_of_nil.
  - apply not_elem_of_nil.
Defined.

(** X25 at work: the operations of the earlier versions on the table that
    holds Ann. *)
Lemma X25_witness :
  unique_keys (db_account (earlier.Login ann signedUp).2)
  /\ unique_keys (db_account (earlier.SignUp ann annProfile signedUp).2)
  /\ unique_keys (db_account (earlier.VerifyEmail annEarlyToken signedUp).2)
  /\ unique_keys (db_account (earlier.ResetPassword "a@x.com" signedUp).2)
  /\ unique_keys (db_account (earlier.ChangePassword annEarlyToken "pw2" signedUp).2)
  /\ unique_keys (db_account (oldest.Login ann signedUp).2)
  /\ unique_keys (db_account (oldest.SignUp ann annProfile signedUp).2).
Proof.
  apply (X25_earlier_versions_keep_account_keys_unique ann annProfile annEarlyToken "pw2"
           "a@x.com" signedUp).
  assert (Hrows : db_account signedUp = [stored signedUp]) by run.
  rewrite Hrows. split; apply NoDup_singleton.
Defined.

End further_runs.
